(** * BEE-ClubVerse: authentication, authorization and reservation store

    A shallow embedding of the request-authorization middleware
    ([middlewares/authAdvanced.js]), the user model ([models/user.js]),
    the authentication routes ([routes/authRoutes.js]) and the
    dual-backend reservation model ([models/reservation.js]), with the
    properties of the specification stated and proved over it.

    Conventions of the embedding:
    - a JavaScript string is a [string]; a value that may be [undefined]
      (or [null]) is an [option];
    - a timestamp ([Date.now()], a [Date]) is a [Z] number of
      milliseconds;
    - the in-process [Map] of the login limiter is a [gmap];
    - a middleware is a function from the request (and the state it
      reads) to an [Outcome]: it calls [next()], sends a response, or
      throws. *)

From Stdlib Require Import ZArith List String Ascii Bool Lia DecimalString.
From stdpp Require Import base option list strings gmap.

Local Open Scope string_scope.
Local Open Scope Z_scope.

(** ** JavaScript helpers *)

Module Js.

(** Truthiness of a possibly-undefined string: [undefined] and the
    empty string are falsy. *)
Definition truthy (v : option string) : bool :=
  match v with
  | Some s => negb (String.eqb s "")
  | None => false
  end.

(** [a || b] on possibly-undefined strings. *)
Definition or (a b : option string) : option string :=
  if truthy a then a else b.

(** [Math.min(...xs)]; [None] stands for [Infinity], the value on an
    empty argument list. *)
Definition Math_min (xs : list Z) : option Z :=
  match xs with
  | [] => None
  | x :: rest => Some (fold_left Z.min rest x)
  end.

(** [Math.ceil(a / b)] for integers [a] and [b > 0]. *)
Definition Math_ceil_div (a b : Z) : Z := - ((- a) / b).

(** [c.toLowerCase()] on one character, for the ASCII letters. *)
Definition lower_ascii (c : ascii) : ascii :=
  let n := N_of_ascii c in
  if ((65 <=? n) && (n <=? 90))%N then ascii_of_N (n + 32) else c.

(** [s.toLowerCase()]. *)
Fixpoint toLowerCase (s : string) : string :=
  match s with
  | EmptyString => EmptyString
  | String c rest => String (lower_ascii c) (toLowerCase rest)
  end.

(** The white space [trim] removes, among the code units below 256. *)
Definition is_space (c : ascii) : bool :=
  existsb (N.eqb (N_of_ascii c)) [9; 10; 11; 12; 13; 32; 160]%N.

Fixpoint trimStart (s : string) : string :=
  match s with
  | EmptyString => EmptyString
  | String c rest => if is_space c then trimStart rest else s
  end.

Fixpoint trimEnd (s : string) : string :=
  match s with
  | EmptyString => EmptyString
  | String c rest =>
      match trimEnd rest with
      | EmptyString => if is_space c then EmptyString else String c EmptyString
      | kept => String c kept
      end
  end.

(** [s.trim()]. *)
Definition trim (s : string) : string := trimEnd (trimStart s).


End Js.

(** ** Responses and middleware outcomes *)

Module Http.

(** The JSON values that occur in response bodies. [JDate] is a [Date]
    (serialized as an ISO string by [res.json]). *)
#[local] Set Warnings "-register-all".
Inductive Json : Type :=
| JNull
| JBool (b : bool)
| JNum (n : Z)
| JStr (s : string)
| JDate (ms : Z)
| JArr (xs : list Json)
| JObj (fields : list (string * Json)).

Record Cookie : Type := {
  cookie_name : string;
  cookie_value : string;
  httpOnly : bool;
  secure : bool;
  sameSite : string;
  maxAge : Z
}.

(** What [res.status(..).cookie(..).json(..)] produced. *)
Record Response : Type := {
  status : Z;
  body : list (string * Json);
  cookies : list Cookie
}.

(** [obj[key]] on a JSON object given by its fields. *)
Fixpoint field (key : string) (fields : list (string * Json)) : option Json :=
  match fields with
  | [] => None
  | (k, v) :: rest => if String.eqb k key then Some v else field key rest
  end.

(** The [code] member of a response body. *)
Definition code (r : Response) : option Json := field "code" (body r).

(** [res.status(st).json({ error, code, ...extra })]. *)
Definition error_response (st : Z) (err cd : string)
    (extra : list (string * Json)) : Response :=
  {| status := st;
     body := ("error", JStr err) :: ("code", JStr cd) :: extra;
     cookies := [] |}.

End Http.

Import Http.

(** ** The user model ([models/user.js]) *)

Module UserModel.

(** The [role] enum of the schema. *)
Inductive Role : Type := user | admin | manager.

Definition role_name (r : Role) : string :=
  match r with
  | user => "user"
  | admin => "admin"
  | manager => "manager"
  end.

#[global] Instance Role_eq_dec : EqDecision Role.
Proof. solve_decision. Defined.

(** A user document, with the paths of [userSchema]. [_id] is the
    document id as [_id.toString()] prints it; a path that is null or
    unset is [None]. *)
Record User : Type := {
  _id : string;
  name : string;
  email : string;
  password : string;
  role : Role;
  phone : option string;
  avatar : option string;
  isActive : bool;
  lastLogin : option Z;
  loginAttempts : Z;
  lockUntil : option Z;
  createdAt : Z;
  updatedAt : Z
}.

(** The virtual [isLocked]: [!!(this.lockUntil && this.lockUntil > Date.now())]. *)
Definition isLocked (u : User) (now : Z) : bool :=
  match lockUntil u with
  | Some t => now <? t
  | None => false
  end.

Definition maxAttempts : Z := 5.
Definition lockTime : Z := 30 * 60 * 1000.

(** A Mongo update of the three login fields; every other field of the
    document is left as it is. *)
Definition update_login (u : User) (attempts : Z) (lock last : option Z) : User :=
  {| _id := _id u; name := name u; email := email u;
     password := password u; role := role u;
     phone := phone u; avatar := avatar u; isActive := isActive u;
     lastLogin := last; loginAttempts := attempts; lockUntil := lock;
     createdAt := createdAt u; updatedAt := updatedAt u |}.

(** [this.lockUntil && this.lockUntil < Date.now()]. *)
Definition lockExpired (u : User) (now : Z) : bool :=
  match lockUntil u with
  | Some t => t <? now
  | None => false
  end.

(** [incLoginAttempts]: the update it sends with [this.updateOne], as
    a function on the stored document. The update is chosen from the
    loaded document [this]; [now] is [Date.now()] during the call. *)
Definition incLoginAttempts (this : User) (now : Z) : User -> User :=
  if lockExpired this now then
    (* $set: { loginAttempts: 1 }, $unset: { lockUntil: 1 } *)
    fun doc => update_login doc 1 None (lastLogin doc)
  else if (maxAttempts <=? loginAttempts this + 1) && negb (isLocked this now) then
    (* $inc: { loginAttempts: 1 }, $set: { lockUntil: Date.now() + lockTime } *)
    fun doc => update_login doc (loginAttempts doc + 1) (Some (now + lockTime)) (lastLogin doc)
  else
    (* $inc: { loginAttempts: 1 } *)
    fun doc => update_login doc (loginAttempts doc + 1) (lockUntil doc) (lastLogin doc).

(** [resetLoginAttempts]:
    [$set: { loginAttempts: 0, lastLogin: Date.now() }, $unset: { lockUntil: 1 }]. *)
Definition resetLoginAttempts (now : Z) : User -> User :=
  fun doc => update_login doc 0 None (Some now).

(** The users collection. *)
Definition Users : Type := list User.

(** [User.findOne({ email })]. *)
Definition findOne (mail : string) (db : Users) : option User :=
  List.find (fun u => String.eqb (email u) mail) db.

(** [User.findById(id)]. *)
Definition findById (id : string) (db : Users) : option User :=
  List.find (fun u => String.eqb (_id u) id) db.

(** [doc.updateOne(update)]: the update [f] is applied to the stored
    document with this [_id]. *)
Definition updateOne (id : string) (f : User -> User) (db : Users) : Users :=
  List.map (fun u => if String.eqb (_id u) id then f u else u) db.

Definition json_text (v : option string) : Json :=
  match v with Some s => JStr s | None => JNull end.

Definition json_date (v : option Z) : Json :=
  match v with Some t => JDate t | None => JNull end.

(** [user.toObject()] followed by [delete userResponse.password]. *)
Definition toObject_sans_password (u : User) : list (string * Json) :=
  [ ("_id", JStr (_id u)); ("name", JStr (name u)); ("email", JStr (email u));
    ("role", JStr (role_name (role u)));
    ("phone", json_text (phone u)); ("avatar", json_text (avatar u));
    ("isActive", JBool (isActive u));
    ("lastLogin", json_date (lastLogin u));
    ("loginAttempts", JNum (loginAttempts u));
    ("lockUntil", json_date (lockUntil u));
    ("createdAt", JDate (createdAt u)); ("updatedAt", JDate (updatedAt u)) ].

(** The lockout fields are consistent: the counter is not negative, and
    a lock-until is on record only with at least [maxAttempts] failures. *)
Definition lock_consistent (u : User) : Prop :=
  0 <= loginAttempts u /\ (lockUntil u <> None -> maxAttempts <= loginAttempts u).

(** The paths of a document the login methods do not write. *)
Definition profile (u : User)
    : string * string * string * string * Role * option string * option string
      * bool * Z * Z :=
  (_id u, name u, email u, password u, role u, phone u, avatar u, isActive u,
   createdAt u, updatedAt u).


End UserModel.

Import UserModel.

(** ** Requests, the environment and the external libraries *)

Module Express.

(** The parts of an Express request the middlewares read, and the two
    members [protect] attaches ([req.user], [req.token]). *)
Record Request : Type := {
  authorization : option string;
  cookie_accessToken : option string;
  cookie_token : option string;
  cookie_refreshToken : option string;
  body_name : option string;
  body_phone : option string;
  body_email : option string;
  body_password : option string;
  body_confirmPassword : option string;
  body_refreshToken : option string;
  params_id : option string;
  params_userId : option string;
  ip : string;
  req_user : option User;
  req_token : option string
}.

(** [req.user = user; req.token = token]. *)
Definition attach (req : Request) (u : User) (tok : string) : Request :=
  {| authorization := authorization req;
     cookie_accessToken := cookie_accessToken req;
     cookie_token := cookie_token req;
     cookie_refreshToken := cookie_refreshToken req;
     body_name := body_name req;
     body_phone := body_phone req;
     body_email := body_email req;
     body_password := body_password req;
     body_confirmPassword := body_confirmPassword req;
     body_refreshToken := body_refreshToken req;
     params_id := params_id req;
     params_userId := params_userId req;
     ip := ip req;
     req_user := Some u;
     req_token := Some tok |}.

(** A middleware calls [next()] (with the request as it leaves it),
    sends a response, or throws. *)
Inductive Outcome : Type :=
| Next (req : Request)
| Send (r : Response)
| Throw (err : string).

Definition Middleware : Type := Request -> Outcome.

(** How a route ends: a middleware sent the response and the handler
    never ran, a middleware threw, or the handler ran. *)
Inductive RouteResult (A : Type) : Type :=
| Stopped (r : Response)
| Crashed (err : string)
| Handled (a : A).
Arguments Stopped {A} r.
Arguments Crashed {A} err.
Arguments Handled {A} a.

(** [router.METHOD(path, m1, ..., mn, handler)]: the middlewares run in
    order; the handler runs only if each of them called [next()]. *)
Fixpoint run_chain {A : Type} (ms : list Middleware) (handler : Request -> A)
    (req : Request) : RouteResult A :=
  match ms with
  | [] => Handled (handler req)
  | m :: rest =>
      match m req with
      | Next req' => run_chain rest handler req'
      | Send r => Stopped r
      | Throw err => Crashed err
      end
  end.

(** [process.env]. *)
Record Env : Type := {
  JWT_SECRET : option string;
  REFRESH_SECRET : option string;
  NODE_ENV : option string
}.

(** The payload of a token: [{ id, email, role }] for an access token,
    [{ id }] for a refresh token. *)
Record Claims : Type := {
  claim_id : string;
  claim_email : option string;
  claim_role : option Role
}.

Inductive JwtError : Type := TokenExpiredError | JsonWebTokenError | OtherError.

(** The two libraries the routes call, [bcrypt] and [jsonwebtoken],
    which are not part of the repository. [sign payload secret
    expiresIn] and [verify token secret now] are given a secret that
    has a value. *)
Record Libraries : Type := {
  bcrypt_compare : string -> string -> bool;
  sign : Claims -> string -> string -> string;
  verify : string -> string -> Z -> Claims + JwtError
}.

(** [jwt.sign(payload, secret, { expiresIn })]: throws when the secret
    has no value. [None] is the throw. *)
Definition jwt_sign (L : Libraries) (payload : Claims) (secret : option string)
    (expiresIn : string) : option string :=
  match secret with
  | Some k => if Js.truthy secret then Some (sign L payload k expiresIn) else None
  | None => None
  end.

(** [jwt.verify(token, secret)]: a missing secret is a
    [JsonWebTokenError]. *)
Definition jwt_verify (L : Libraries) (token : string) (secret : option string)
    (now : Z) : Claims + JwtError :=
  match secret with
  | Some k => if Js.truthy secret then verify L token k now else inr JsonWebTokenError
  | None => inr JsonWebTokenError
  end.

End Express.

Import Express.

(** ** The middlewares ([middlewares/authAdvanced.js]) *)

Module AuthAdvanced.

(** [h.split(' ')[1]]: the text between the first space and the next
    one, [undefined] when there is no space. *)
Fixpoint after_space (s : string) : option string :=
  match s with
  | EmptyString => None
  | String c rest => if Ascii.eqb c " " then Some rest else after_space rest
  end.

Fixpoint until_space (s : string) : string :=
  match s with
  | EmptyString => EmptyString
  | String c rest => if Ascii.eqb c " " then EmptyString else String c (until_space rest)
  end.

Definition split_space_1 (h : string) : option string :=
  until_space <$> after_space h.

(** The token of a request: the [Authorization: Bearer ..] header, else
    the [accessToken] cookie, else the [token] cookie. *)
Definition extract_token (req : Request) : option string :=
  match authorization req with
  | Some h =>
      if Js.truthy (Some h) && String.prefix "Bearer" h then split_space_1 h
      else if Js.truthy (cookie_accessToken req) then cookie_accessToken req
      else if Js.truthy (cookie_token req) then cookie_token req
      else None
  | None =>
      if Js.truthy (cookie_accessToken req) then cookie_accessToken req
      else if Js.truthy (cookie_token req) then cookie_token req
      else None
  end.

(** [protect]: verifies the access token, looks the user up and
    attaches it to the request. *)
Definition protect (L : Libraries) (env : Env) (db : Users) (now : Z) : Middleware :=
  fun req =>
    match extract_token req with
    | Some tok =>
        if negb (Js.truthy (Some tok)) then
          Send (error_response 401 "Not authorized to access this route" "NO_TOKEN" [])
        else if negb (Js.truthy (JWT_SECRET env)) then
          Send (error_response 500 "Server misconfiguration" "SERVER_ERROR" [])
        else
          match jwt_verify L tok (JWT_SECRET env) now with
          | inl decoded =>
              match findById (claim_id decoded) db with
              | None => Send (error_response 404 "User not found" "USER_NOT_FOUND" [])
              | Some u =>
                  if negb (isActive u) then
                    Send (error_response 403 "Account is disabled" "ACCOUNT_DISABLED" [])
                  else Next (attach req u tok)
              end
          | inr TokenExpiredError =>
              Send (error_response 401 "Token expired" "TOKEN_EXPIRED" [])
          | inr JsonWebTokenError =>
              Send (error_response 401 "Invalid token" "INVALID_TOKEN" [])
          | inr OtherError =>
              Send (error_response 500 "Authentication error" "AUTH_ERROR" [])
          end
    | None => Send (error_response 401 "Not authorized to access this route" "NO_TOKEN" [])
    end.

(** [authorize(...allowedRoles)]. *)
Definition authorize (allowedRoles : list string) : Middleware :=
  fun req =>
    match req_user req with
    | None => Send (error_response 401 "Authentication required" "NO_AUTH" [])
    | Some u =>
        if negb (existsb (String.eqb (role_name (role u))) allowedRoles) then
          Send (error_response 403 "Insufficient permissions" "FORBIDDEN"
                  [ ("userRole", JStr (role_name (role u)));
                    ("requiredRoles", JArr (JStr <$> allowedRoles)) ])
        else Next req
    end.

(** The role-permission mapping of [checkPermission]. *)
Definition rolePermissions : list (string * list string) :=
  [ ("admin",
      [ "view_users"; "create_users"; "update_users"; "delete_users";
        "view_reservations"; "manage_reservations";
        "view_settings"; "update_settings";
        "view_logs"; "manage_admins" ]);
    ("manager",
      [ "view_users"; "view_reservations"; "manage_reservations";
        "view_settings" ]);
    ("user",
      [ "view_profile"; "update_profile";
        "create_reservations"; "view_own_reservations" ]) ].

(** [table[key]] on an object literal. *)
Fixpoint property {A : Type} (key : string) (table : list (string * A)) : option A :=
  match table with
  | [] => None
  | (k, v) :: rest => if String.eqb k key then Some v else property key rest
  end.

(** [rolePermissions[req.user.role] || []]. *)
Definition userPermissions (r : Role) : list string :=
  match property (role_name r) rolePermissions with
  | Some perms => perms
  | None => []
  end.

(** [arr.includes(x)] on strings. *)
Definition includes (arr : list string) (x : string) : bool :=
  existsb (String.eqb x) arr.

(** [requiredPermissions.every(perm => userPermissions.includes(perm))]. *)
Definition hasPermission (r : Role) (requiredPermissions : list string) : bool :=
  forallb (fun perm => includes (userPermissions r) perm) requiredPermissions.

(** [checkPermission(requiredPermissions)]. *)
Definition checkPermission (requiredPermissions : list string) : Middleware :=
  fun req =>
    match req_user req with
    | None => Send (error_response 401 "Authentication required" "NO_AUTH" [])
    | Some u =>
        if negb (hasPermission (role u) requiredPermissions) then
          Send (error_response 403 "Insufficient permissions" "INSUFFICIENT_PERMISSIONS"
                  [ ("requiredPermissions", JArr (JStr <$> requiredPermissions));
                    ("userPermissions", JArr (JStr <$> userPermissions (role u))) ])
        else Next req
    end.

(** [req.params.id || req.params.userId]. *)
Definition resourceId (req : Request) : option string :=
  Js.or (params_id req) (params_userId req).

(** [checkResourceOwnership]. Reading [req.user._id] of a request with
    no user throws inside the [try], which answers 500. *)
Definition checkResourceOwnership : Middleware :=
  fun req =>
    let resourceId := resourceId req in
    match req_user req with
    | None => Send (error_response 500 "Permission check failed" "PERMISSION_ERROR" [])
    | Some u =>
        let requestingUserId := _id u in
        if decide (role u = admin) then Next req
        else if negb (bool_decide (resourceId = Some requestingUserId)) then
          Send (error_response 403 "Cannot access this resource" "NOT_OWNER" [])
        else Next req
    end.

(** [auditLog(action, resource)]: wraps [res.send] so that a log line is
    written when the response goes out, and calls [next()]. *)
Definition auditLog (action resource : string) : Middleware :=
  fun req => Next req.

(** [req.body.email || req.ip]. *)
Definition identifier (req : Request) : string :=
  match Js.or (body_email req) (Some (ip req)) with
  | Some s => s
  | None => ip req
  end.

(** The closure [createLoginLimiter(maxAttempts, lockoutTime)] returns,
    over the [attempts] map it closes over; [now] is [Date.now()]. (The
    login route passes both arguments, so the defaults play no part.)
    With no recent attempt [Math.min()] is [Infinity] and
    [toISOString] throws on the invalid date. *)
Definition createLoginLimiter (maxAttempts lockoutTime : Z)
    (attempts : gmap string (list Z)) (req : Request) (now : Z)
    : gmap string (list Z) * Outcome :=
  let userAttempts := default [] (attempts !! identifier req) in
  let recentAttempts := filter (fun time => now - time < lockoutTime) userAttempts in
  if maxAttempts <=? Z.of_nat (List.length recentAttempts) then
    match Js.Math_min recentAttempts with
    | Some oldestAttempt =>
        (attempts,
         Send (error_response 429 "Too many login attempts" "RATE_LIMITED"
                 [ ("resetTime", JDate (oldestAttempt + lockoutTime));
                   ("retryAfter",
                    JNum (Js.Math_ceil_div (oldestAttempt + lockoutTime - now) 1000)) ]))
    | None => (attempts, Throw "RangeError: Invalid time value")
    end
  else
    (<[identifier req := (recentAttempts ++ [now])%list]> attempts, Next req).

(** [optionalAuth]: like [protect], but a request that cannot be
    authenticated goes on as it came; an error of [jwt.verify] is caught
    and logged. *)
Definition optionalAuth (L : Libraries) (env : Env) (db : Users) (now : Z) : Middleware :=
  fun req =>
    match extract_token req with
    | Some tok =>
        if Js.truthy (Some tok) && Js.truthy (JWT_SECRET env) then
          match jwt_verify L tok (JWT_SECRET env) now with
          | inl decoded =>
              match findById (claim_id decoded) db with
              | Some u => if isActive u then Next (attach req u tok) else Next req
              | None => Next req
              end
          | inr _ => Next req
          end
        else Next req
    | None => Next req
    end.

(** The string holds no space character. *)
Definition no_space (s : string) : bool :=
  forallb (fun c => negb (Ascii.eqb c " ")) (list_ascii_of_string s).


End AuthAdvanced.

Import AuthAdvanced.

(** ** The authentication routes ([routes/authRoutes.js]) *)

Module AuthRoutes.

(** *** The password pattern of [POST /auth/register]

    [/^(?=.*[a-z])(?=.*[A-Z])(?=.*\d)(?=.*[@$!%*?&])[A-Za-z\d@$!%*?&]{8,}$/].
    A character is a code unit of the string; the code units above 255
    are in none of the classes below. *)

Definition in_range (lo hi : N) (c : ascii) : bool :=
  ((lo <=? N_of_ascii c) && (N_of_ascii c <=? hi))%N.

(** [[a-z]], [[A-Z]], [\d] and [[@$!%*?&]]. *)
Definition is_lower : ascii -> bool := in_range 97 122.
Definition is_upper : ascii -> bool := in_range 65 90.
Definition is_digit : ascii -> bool := in_range 48 57.
Definition is_special (c : ascii) : bool :=
  existsb (Ascii.eqb c) (list_ascii_of_string "@$!%*?&").

(** [[A-Za-z\d@$!%*?&]]. *)
Definition in_alphabet (c : ascii) : bool :=
  is_upper c || is_lower c || is_digit c || is_special c.

(** [.] matches any character but a line terminator. *)
Definition is_line_terminator (c : ascii) : bool :=
  (N_of_ascii c =? 10)%N || (N_of_ascii c =? 13)%N.

(** [(?=.*C)] at the start of [s]: some run of [.] is followed by a
    character of the class [C]. *)
Fixpoint lookahead (C : ascii -> bool) (s : string) : bool :=
  match s with
  | EmptyString => false
  | String c rest => C c || (negb (is_line_terminator c) && lookahead C rest)
  end.

(** [C{n,}$] against all of [s]. *)
Fixpoint at_least (n : nat) (C : ascii -> bool) (s : string) : bool :=
  match s with
  | EmptyString => Nat.eqb n 0
  | String c rest => C c && at_least (Nat.pred n) C rest
  end.

(** [passwordRegex.test(password)]. *)
Definition passwordRegex_test (pw : string) : bool :=
  lookahead is_lower pw && lookahead is_upper pw && lookahead is_digit pw
  && lookahead is_special pw && at_least 8 in_alphabet pw.

(** The validation at the head of [POST /auth/register]: the response
    it sends, or [None] when the request goes on to the duplicate check. *)
Definition register_validation (req : Request) : option Response :=
  if negb (Js.truthy (body_name req)) || negb (Js.truthy (body_email req))
     || negb (Js.truthy (body_password req)) then
    Some (error_response 400 "All fields required" "MISSING_FIELDS" [])
  else
    match body_password req with
    | Some pw =>
        if negb (passwordRegex_test pw) then
          Some (error_response 400
                  "Password must be 8+ chars with uppercase, lowercase, number, special char"
                  "WEAK_PASSWORD" [])
        else if negb (bool_decide (body_password req = body_confirmPassword req)) then
          Some (error_response 400 "Passwords do not match" "PASSWORD_MISMATCH" [])
        else None
    | None => Some (error_response 400 "All fields required" "MISSING_FIELDS" [])
    end.

(** The strength check as the specification words it: length at least
    8, a lowercase letter, an uppercase letter, a digit and a character
    of the special set. *)
Definition meetsPolicy_spec (pw : string) : bool :=
  let cs := list_ascii_of_string pw in
  (8 <=? List.length cs)%nat && existsb is_lower cs && existsb is_upper cs
  && existsb is_digit cs && existsb is_special cs.

(** *** [POST /auth/login] *)

(** [createLoginLimiter(5, 15 * 60 * 1000)]. *)
Definition loginLimiter : gmap string (list Z) -> Request -> Z
    -> gmap string (list Z) * Outcome :=
  createLoginLimiter 5 (15 * 60 * 1000).

(** The instants at which one login request reads [Date.now()]: in the
    limiter, at the [isLocked] check, and (after [bcrypt.compare]) in
    the counter update. *)
Record Instants : Type := {
  at_throttle : Z;
  at_lock_check : Z;
  at_update : Z
}.

(** [process.env.REFRESH_SECRET || process.env.JWT_SECRET]. *)
Definition refreshSecret (env : Env) : option string :=
  Js.or (REFRESH_SECRET env) (JWT_SECRET env).

(** The environment with [REFRESH_SECRET] set to [v]. *)
Definition with_REFRESH_SECRET (env : Env) (v : option string) : Env :=
  {| JWT_SECRET := JWT_SECRET env; REFRESH_SECRET := v; NODE_ENV := NODE_ENV env |}.

Definition accessClaims (u : User) : Claims :=
  {| claim_id := _id u; claim_email := Some (email u); claim_role := Some (role u) |}.

Definition refreshClaims (u : User) : Claims :=
  {| claim_id := _id u; claim_email := None; claim_role := None |}.

(** The cookie options the routes use. *)
Definition auth_cookie (env : Env) (nm value : string) (age : Z) : Cookie :=
  {| cookie_name := nm; cookie_value := value; httpOnly := true;
     secure := bool_decide (NODE_ENV env = Some "production");
     sameSite := "strict"; maxAge := age |}.

(** The handler of [POST /auth/login]: the users collection after the
    request and the response. A throw inside the [try] answers 500. *)
Definition login_handler (L : Libraries) (env : Env) (db : Users)
    (req : Request) (t_check t_update : Z) : Users * Response :=
  match body_email req, body_password req with
  | Some mail, Some pw =>
      if negb (Js.truthy (Some mail)) || negb (Js.truthy (Some pw)) then
        (db, error_response 400 "Email and password required" "MISSING_CREDENTIALS" [])
      else
        match findOne (Js.toLowerCase mail) db with
        | None => (db, error_response 401 "Invalid credentials" "INVALID_CREDENTIALS" [])
        | Some u =>
            if isLocked u t_check then
              (db, error_response 403 "Account locked. Try again later." "ACCOUNT_LOCKED"
                     [ ("unlockTime", json_date (lockUntil u)) ])
            else if negb (bcrypt_compare L pw (password u)) then
              (updateOne (_id u) (incLoginAttempts u t_update) db,
               error_response 401 "Invalid credentials" "INVALID_CREDENTIALS" [])
            else
              let db' := updateOne (_id u) (resetLoginAttempts t_update) db in
              match jwt_sign L (accessClaims u) (JWT_SECRET env) "15m" with
              | None => (db', error_response 500 "Login failed" "LOGIN_ERROR" [])
              | Some accessToken =>
                  match jwt_sign L (refreshClaims u) (refreshSecret env) "7d" with
                  | None => (db', error_response 500 "Login failed" "LOGIN_ERROR" [])
                  | Some refreshToken =>
                      (db',
                       {| status := 200;
                          body := [ ("message", JStr "Login successful");
                                    ("accessToken", JStr accessToken);
                                    ("user", JObj (toObject_sans_password u)) ];
                          cookies :=
                            [ auth_cookie env "accessToken" accessToken (15 * 60 * 1000);
                              auth_cookie env "refreshToken" refreshToken
                                (7 * 24 * 60 * 60 * 1000) ] |})
                  end
              end
        end
  | _, _ => (db, error_response 400 "Email and password required" "MISSING_CREDENTIALS" [])
  end.

(** The state a login request runs against: the limiter's map and the
    users collection. *)
Record LoginState : Type := {
  attempts : gmap string (list Z);
  users : Users
}.

(** [router.post('/auth/login', loginLimiter, auditLog('LOGIN', 'user'), handler)].
    A throw of the limiter reaches the default error handler. *)
Definition login_route (L : Libraries) (env : Env) (st : LoginState)
    (req : Request) (t : Instants) : LoginState * Response :=
  match loginLimiter (attempts st) req (at_throttle t) with
  | (att, Next req1) =>
      match auditLog "LOGIN" "user" req1 with
      | Next req2 =>
          let '(db, res) := login_handler L env (users st) req2 (at_lock_check t) (at_update t) in
          ({| attempts := att; users := db |}, res)
      | Send res => ({| attempts := att; users := users st |}, res)
      | Throw err =>
          ({| attempts := att; users := users st |},
           {| status := 500; body := [("error", JStr err)]; cookies := [] |})
      end
  | (att, Send res) => ({| attempts := att; users := users st |}, res)
  | (att, Throw err) =>
      ({| attempts := att; users := users st |},
       {| status := 500; body := [("error", JStr err)]; cookies := [] |})
  end.

(** A sequence of login requests, each with its instants, run in order. *)
Fixpoint login_run (L : Libraries) (env : Env) (st : LoginState)
    (reqs : list (Request * Instants)) : LoginState * list Response :=
  match reqs with
  | [] => (st, [])
  | (req, t) :: rest =>
      let '(st1, res) := login_route L env st req t in
      let '(st2, ress) := login_run L env st1 rest in
      (st2, res :: ress)
  end.

(** *** [POST /auth/refresh-token] *)

Definition refresh_token_route (L : Libraries) (env : Env) (db : Users)
    (req : Request) (now : Z) : Response :=
  match Js.or (cookie_refreshToken req) (body_refreshToken req) with
  | Some refreshToken =>
      if negb (Js.truthy (Some refreshToken)) then
        error_response 401 "Refresh token required" "NO_REFRESH_TOKEN" []
      else
        match jwt_verify L refreshToken (refreshSecret env) now with
        | inr _ => error_response 401 "Token refresh failed" "REFRESH_FAILED" []
        | inl decoded =>
            match findById (claim_id decoded) db with
            | None => error_response 401 "Invalid refresh token" "INVALID_REFRESH_TOKEN" []
            | Some u =>
                if negb (isActive u) then
                  error_response 401 "Invalid refresh token" "INVALID_REFRESH_TOKEN" []
                else
                  match jwt_sign L (accessClaims u) (JWT_SECRET env) "15m" with
                  | None => error_response 401 "Token refresh failed" "REFRESH_FAILED" []
                  | Some newAccessToken =>
                      {| status := 200;
                         body := [ ("message", JStr "Token refreshed");
                                   ("accessToken", JStr newAccessToken) ];
                         cookies :=
                           [ auth_cookie env "accessToken" newAccessToken (15 * 60 * 1000) ] |}
                  end
            end
        end
  | None => error_response 401 "Refresh token required" "NO_REFRESH_TOKEN" []
  end.

(** *** [PUT /users/:id] *)

(** The update [{ ...(name && { name }), ...(phone && { phone }),
    updatedAt: Date.now() }] on a stored document. *)
Definition profile_update (req : Request) (now : Z) (doc : User) : User :=
  {| _id := _id doc;
     name := match body_name req with
             | Some n => if Js.truthy (Some n) then n else name doc
             | None => name doc
             end;
     email := email doc; password := password doc; role := role doc;
     phone := if Js.truthy (body_phone req) then body_phone req else phone doc;
     avatar := avatar doc; isActive := isActive doc;
     lastLogin := lastLogin doc; loginAttempts := loginAttempts doc;
     lockUntil := lockUntil doc;
     createdAt := createdAt doc; updatedAt := now |}.

(** The handler: [User.findByIdAndUpdate(req.params.id, update, { new:
    true })] and the updated document (or [null]) in the response. *)
Definition put_users_handler (db : Users) (now : Z) (req : Request) : Users * Response :=
  let id := default "" (params_id req) in
  let db' := updateOne id (profile_update req now) db in
  (db',
   {| status := 200;
      body := [ ("message", JStr "Profile updated successfully");
                ("user", match findById id db' with
                         | Some updatedUser => JObj (toObject_sans_password updatedUser)
                         | None => JNull
                         end) ];
      cookies := [] |}).

(** [router.put('/users/:id', protect, checkResourceOwnership,
    auditLog('UPDATE_PROFILE', 'user'), handler)]. *)
Definition put_users_id (L : Libraries) (env : Env) (db : Users) (now : Z)
    : Request -> RouteResult (Users * Response) :=
  run_chain
    [ protect L env db now; checkResourceOwnership; auditLog "UPDATE_PROFILE" "user" ]
    (put_users_handler db now).

(** [GET /admin/users]: [protect, authorize('admin'), checkPermission(['view_users'])]. *)
Definition get_admin_users {A : Type} (L : Libraries) (env : Env) (db : Users) (now : Z)
    (handler : Request -> A) : Request -> RouteResult A :=
  run_chain
    [ protect L env db now; authorize ["admin"]; checkPermission ["view_users"] ]
    handler.

(** *** The limiter over a sequence of requests *)

(** The timestamps the limiter holds for an identifier:
    [attempts.get(identifier) || []]. *)
Definition recorded (att : gmap string (list Z)) (id : string) : list Z :=
  default [] (att !! id).

(** The limiter's map after a sequence of login requests, each given
    with the instant it reaches the limiter. *)
Fixpoint limiter_state (att : gmap string (list Z)) (trace : list (Request * Z))
    : gmap string (list Z) :=
  match trace with
  | [] => att
  | (req, now) :: rest => limiter_state (fst (loginLimiter att req now)) rest
  end.

(** What the limiter answered to each request of the sequence. *)
Fixpoint limiter_outcomes (att : gmap string (list Z)) (trace : list (Request * Z))
    : list Outcome :=
  match trace with
  | [] => []
  | (req, now) :: rest =>
      snd (loginLimiter att req now)
      :: limiter_outcomes (fst (loginLimiter att req now)) rest
  end.

(** The invariant of the limiter's map: no identifier holds more than
    five timestamps. *)
Definition bounded (att : gmap string (list Z)) : Prop :=
  forall id, (List.length (recorded att id) <= 5)%nat.

(** The limiter sent a response instead of calling [next()]. *)
Definition rejected (out : Outcome) : Prop :=
  match out with
  | Send _ => True
  | _ => False
  end.

(** *** Login attempts against one account *)

(** The request submits a non-empty password and an email that
    addresses the account [u] (the handler looks the lowercased email
    up). *)
Definition addresses (req : Request) (u : User) (pw : string) : Prop :=
  exists mail,
    body_email req = Some mail /\ mail <> "" /\ Js.toLowerCase mail = email u
    /\ body_password req = Some pw /\ pw <> "".

(** A login attempt on [u] whose password [bcrypt.compare] refuses. *)
Definition wrong_password (L : Libraries) (u : User) (req : Request) : Prop :=
  exists pw, addresses req u pw /\ bcrypt_compare L pw (password u) = false.

(** The users collection after the handler served the requests in order. *)
Fixpoint handler_run (L : Libraries) (env : Env) (db : Users)
    (reqs : list (Request * Instants)) : Users :=
  match reqs with
  | [] => db
  | (req, t) :: rest =>
      handler_run L env
        (fst (login_handler L env db req (at_lock_check t) (at_update t))) rest
  end.

(** *** The admin routes

    [router.METHOD(path, protect, authorize('admin'),
    checkPermission([..]), handler)], the chain of [GET /admin/users],
    [DELETE /admin/users/:id], [PUT /admin/users/:id/role] and the
    [/admin/reservations] routes. *)
Definition admin_chain {A : Type} (L : Libraries) (env : Env) (db : Users) (now : Z)
    (requiredPermissions : list string) (handler : Request -> A)
    : Request -> RouteResult A :=
  run_chain
    [ protect L env db now; authorize ["admin"]; checkPermission requiredPermissions ]
    handler.


(** The response of a successful login, for the two tokens it issued. *)
Definition login_ok (env : Env) (u : User) (accessToken refreshToken : string) : Response :=
  {| status := 200;
     body := [ ("message", JStr "Login successful");
               ("accessToken", JStr accessToken);
               ("user", JObj (toObject_sans_password u)) ];
     cookies := [ auth_cookie env "accessToken" accessToken (15 * 60 * 1000);
                  auth_cookie env "refreshToken" refreshToken (7 * 24 * 60 * 60 * 1000) ] |}.

(** The response of a successful refresh. *)
Definition refresh_ok (env : Env) (newAccessToken : string) : Response :=
  {| status := 200;
     body := [ ("message", JStr "Token refreshed"); ("accessToken", JStr newAccessToken) ];
     cookies := [ auth_cookie env "accessToken" newAccessToken (15 * 60 * 1000) ] |}.

(** *** Login requests through the limiter *)

(** The instants at which the requests of a sequence reach the limiter. *)
Definition arrivals (reqs : list (Request * Instants)) : list (Request * Z) :=
  (fun a => (fst a, at_throttle (snd a))) <$> reqs.

(** The requests of a sequence the limiter lets through to the handler. *)
Fixpoint admitted (att : gmap string (list Z)) (reqs : list (Request * Instants))
    : list (Request * Instants) :=
  match reqs with
  | [] => []
  | (req, t) :: rest =>
      match loginLimiter att req (at_throttle t) with
      | (att', Next _) => (req, t) :: admitted att' rest
      | (att', _) => admitted att' rest
      end
  end.

(** The requests of a sequence made under the identifier [id]. *)
Definition under (id : string) (trace : list (Request * Z)) : list (Request * Z) :=
  filter (fun a => identifier (fst a) = id) trace.


(** *** [POST /auth/register], after the validation *)

(** [new User({ name, email, password, role: 'user' })]: the document
    with the schema's setters applied ([trim] on the name, [lowercase]
    and [trim] on the email) and its defaults filled in. [id] is the
    [_id] Mongoose gives the document, [now] is [Date.now()]. *)
Definition new_User (id nm mail hashedPassword : string) (now : Z) : User :=
  {| _id := id;
     name := Js.trim nm;
     email := Js.trim (Js.toLowerCase mail);
     password := hashedPassword;
     role := user;
     phone := None; avatar := None; isActive := true;
     lastLogin := None; loginAttempts := 0; lockUntil := None;
     createdAt := now; updatedAt := now |}.

(** [user.save()] of a new document: the [required] paths must not be
    empty and the [unique] index on [email] must hold, else it throws
    ([None]); the document is then added to the collection. *)
Definition save_new (db : Users) (u : User) : option Users :=
  if String.eqb (name u) "" || String.eqb (email u) "" || String.eqb (password u) "" then None
  else if existsb (fun d => String.eqb (email d) (email u)) db then None
  else Some (db ++ [u])%list.

(** [POST /auth/register]. [hash password salt] is [bcrypt.hash], [salt]
    what [bcrypt.genSalt(12)] resolved to. A throw of [save] is caught
    and answered 500. *)
Definition register_route (hash : string -> string -> string) (db : Users)
    (req : Request) (salt id : string) (now : Z) : Users * Response :=
  match register_validation req with
  | Some r => (db, r)
  | None =>
      match body_name req, body_email req, body_password req with
      | Some nm, Some mail, Some pw =>
          match findOne (Js.toLowerCase mail) db with
          | Some existingUser =>
              (db, error_response 409 "Email already registered" "EMAIL_EXISTS" [])
          | None =>
              let hashedPassword := hash pw salt in
              let u := new_User id (Js.trim nm) (Js.toLowerCase mail) hashedPassword now in
              match save_new db u with
              | Some db' =>
                  (db',
                   {| status := 201;
                      body := [ ("message", JStr "Registration successful! Please login.");
                                ("user", JObj (toObject_sans_password u)) ];
                      cookies := [] |})
              | None => (db, error_response 500 "Registration failed" "REGISTRATION_ERROR" [])
              end
          end
      | _, _, _ => (db, error_response 400 "All fields required" "MISSING_FIELDS" [])
      end
  end.

(** The stored emails are their own lowercase. *)
Definition lowercase_email (u : User) : Prop := Js.toLowerCase (email u) = email u.


(** *** [DELETE /admin/users/:id] and [PUT /admin/users/:id/role] *)

(** [User.findByIdAndDelete(id)]: the collection without the document
    of that id. *)
Fixpoint deleteById (id : string) (db : Users) : Users :=
  match db with
  | [] => []
  | d :: rest => if String.eqb (_id d) id then rest else d :: deleteById id rest
  end.

(** The handler of [DELETE /admin/users/:id], for the id of the path. *)
Definition delete_user_handler (db : Users) (id : string) : Users * Response :=
  match findById id db with
  | None => (db, error_response 404 "User not found" "USER_NOT_FOUND" [])
  | Some u =>
      (deleteById id db,
       {| status := 200;
          body := [ ("message", JStr "User deleted successfully");
                    ("deletedUser", JStr (email u)) ];
          cookies := [] |})
  end.

(** [['user', 'admin', 'manager'].includes(role)], and the role it names. *)
Definition known_role (r : option string) : option Role :=
  match r with
  | Some s =>
      if String.eqb s "user" then Some user
      else if String.eqb s "admin" then Some admin
      else if String.eqb s "manager" then Some manager
      else None
  | None => None
  end.

(** The update [{ role, updatedAt: Date.now() }] on a stored document. *)
Definition set_role (r : Role) (now : Z) (doc : User) : User :=
  {| _id := _id doc; name := name doc; email := email doc; password := password doc;
     role := r;
     phone := phone doc; avatar := avatar doc; isActive := isActive doc;
     lastLogin := lastLogin doc; loginAttempts := loginAttempts doc;
     lockUntil := lockUntil doc;
     createdAt := createdAt doc; updatedAt := now |}.

(** The handler of [PUT /admin/users/:id/role] ([api/apiRoutes.js]), for
    the id of the path and the [role] of the body. *)
Definition update_role_handler (db : Users) (id : string) (body_role : option string)
    (now : Z) : Users * Response :=
  match known_role body_role with
  | None => (db, error_response 400 "Invalid role" "INVALID_ROLE" [])
  | Some r =>
      match findById id db with
      | None => (db, error_response 404 "User not found" "NOT_FOUND" [])
      | Some u =>
          (updateOne id (set_role r now) db,
           {| status := 200;
              body := [ ("message", JStr "User role updated");
                        ("user", JObj (toObject_sans_password (set_role r now u))) ];
              cookies := [] |})
      end
  end.


End AuthRoutes.

(** ** The reservation model ([models/reservation.js]) *)

Module ReservationModel.

(** The values held by reservation objects. *)
Inductive Value : Type :=
| VUndefined
| VNull
| VStr (s : string)
| VNum (n : Z)
| VDate (ms : Z).

(** A plain object: its own properties in insertion order. *)
Definition Obj : Type := list (string * Value).

(** [obj[key]]. *)
Fixpoint get (key : string) (o : Obj) : Value :=
  match o with
  | [] => VUndefined
  | (k, v) :: rest => if String.eqb k key then v else get key rest
  end.

(** [Object.keys(obj)]. *)
Definition keys (o : Obj) : list string := fst <$> o.

Definition truthy (v : Value) : bool :=
  match v with
  | VUndefined | VNull => false
  | VStr s => negb (String.eqb s "")
  | VNum n => negb (n =? 0)
  | VDate _ => true
  end.

(** [a || b]. *)
Definition or (a b : Value) : Value := if truthy a then a else b.

(** A row of the [reservations] table of [db.postgres.js] as [pg]
    returns it: every column is present, a [NULL] is [None]. *)
Record Row : Type := {
  id : option Z;
  user_id : option string;
  r_name : option string;
  r_email : option string;
  phone : option string;
  date : option string;
  time : option string;
  guests : option string;
  special_requests : option string;
  club : option string;
  club_location : option string;
  r_status : option string;
  created_at : option Z;
  updated_at : option Z
}.

Definition text (c : option string) : Value :=
  match c with Some s => VStr s | None => VNull end.

Definition timestamp (c : option Z) : Value :=
  match c with Some t => VDate t | None => VNull end.

(** [n.toString()] of an integer. *)
Definition decimal (n : Z) : string := DecimalString.NilZero.string_of_int (Z.to_int n).

(** [mapRow(row)]. *)
Definition mapRow (row : Row) : Obj :=
  [ ("_id", or (match id row with Some n => VStr (decimal n) | None => VUndefined end) VNull);
    ("userId", text (user_id row));
    ("name", text (r_name row));
    ("email", text (r_email row));
    ("phone", text (phone row));
    ("date", text (date row));
    ("time", text (time row));
    ("guests", text (guests row));
    ("specialRequests", text (special_requests row));
    ("club", text (club row));
    ("clubLocation", text (club_location row));
    ("status", text (r_status row));
    ("createdAt", timestamp (created_at row));
    ("updatedAt", timestamp (updated_at row)) ].

(** The paths [reservationSchema] declares, in order. Mongoose adds
    [_id] to every document. *)
Definition reservationSchema : list string :=
  [ "userId"; "name"; "email"; "phone"; "date"; "time"; "guests";
    "specialRequests"; "club"; "clubLocation"; "status"; "createdAt"; "updatedAt" ].

Definition document_paths : list string := "_id" :: reservationSchema.

(** An instance of the [Reservation] class. *)
Record Reservation : Type := {
  _data : Obj;
  _id : Value
}.

(** [new Reservation(data)]:
    [this._data = { ...data }; this._id = data._id || data.id || null]. *)
Definition new_Reservation (data : Obj) : Reservation :=
  {| _data := data; _id := or (or (get "_id" data) (get "id" data)) VNull |}.

(** The relational branch of [save()], given the rows [pool.query]
    resolved to ([res.rows]). With an [_id] it is the [UPDATE .. WHERE
    id = .. RETURNING *], else the [INSERT .. RETURNING *]. Mapping a
    missing first row throws. *)
Definition save_postgres (this : Reservation) (rows : list Row) : Reservation + string :=
  if truthy (_id this) then
    match rows with
    | row :: _ =>
        let mapped := mapRow row in
        inl {| _data := mapped; _id := get "_id" mapped |}
    | [] => inl this
    end
  else
    match rows with
    | row :: _ =>
        let mapped := mapRow row in
        inl {| _data := mapped; _id := get "_id" mapped |}
    | [] => inr "TypeError: Cannot read properties of undefined (reading 'id')"
    end.

(** [Reservation.findByIdAndUpdate(id, update)]. [usePostgres] is the
    backend flag. On the document store the result is what
    [MongoReservation.findByIdAndUpdate] resolved to ([mongo]: the
    updated document, [None] for [null] when no document has the id);
    on the relational store it is [updated._data] of the instance
    [save()] returned, given the rows of the [UPDATE]. *)
Definition findByIdAndUpdate (usePostgres : bool) (id : Value) (update : Obj)
    (mongo : option Obj) (rows : list Row) : option Obj + string :=
  if negb usePostgres then inl mongo
  else
    let inst := {| _data := _data (new_Reservation update); _id := id |} in
    match save_postgres inst rows with
    | inl updated => inl (Some (_data updated))
    | inr err => inr err
    end.

(** The relational branch of [ReservationQuery.exec()] without
    [populate]: [res.rows.map(mapRow)]. *)
Definition exec_postgres (rows : list Row) : list Obj := mapRow <$> rows.

(** The relational branch of [findByIdAndDelete]. *)
Definition findByIdAndDelete_postgres (rows : list Row) : option Obj :=
  match rows with
  | row :: _ => Some (mapRow row)
  | [] => None
  end.

(** [PUT /admin/reservations/:id] after the status check: the handler
    answers 404 when the model returned nothing, else 200 with the
    result as [reservation]. *)
Definition update_status (result : option Obj) : Z :=
  match result with
  | None => 404
  | Some _ => 200
  end.

(** *** The [UPDATE] statement of [save()] *)

(** The keys [save()] may write. *)
Definition allowed : list string :=
  [ "name"; "email"; "phone"; "date"; "time"; "guests"; "specialRequests";
    "club"; "clubLocation"; "status" ].

(** The column a key is written to. *)
Definition column (key : string) : string :=
  if String.eqb key "specialRequests" then "special_requests"
  else if String.eqb key "clubLocation" then "club_location"
  else key.

Definition is_undefined (v : Value) : bool :=
  match v with
  | VUndefined => true
  | _ => false
  end.

(** [`${col} = $${n}`]. *)
Definition assignment (col : string) (n : nat) : string :=
  col +:+ " = $" +:+ decimal (Z.of_nat n).

(** One turn of the loop [for (const key of allowed)], on the pair
    [(fields, params)]. *)
Definition set_key (data : Obj) (acc : list string * list Value) (key : string)
    : list string * list Value :=
  let '(fields, params) := acc in
  if is_undefined (get key data) then acc
  else
    let params' := (params ++ [get key data])%list in
    ((fields ++ [assignment (column key) (List.length params')])%list, params').

(** [fields.join(sep)]. *)
Fixpoint join (sep : string) (parts : list string) : string :=
  match parts with
  | [] => ""
  | [p] => p
  | p :: rest => p +:+ sep +:+ join sep rest
  end.

(** The statement and the parameters the update branch of [save()]
    sends to [pool.query]; [now] is [new Date()]. *)
Definition update_statement (this : Reservation) (now : Z) : string * list Value :=
  let '(fields, params) := fold_left (set_key (_data this)) allowed ([], []) in
  let params1 := (params ++ [VDate now])%list in
  let fields1 := (fields ++ [assignment "updated_at" (List.length params1)])%list in
  let params2 := (params1 ++ [_id this])%list in
  ("UPDATE reservations SET " +:+ join ", " fields1
     +:+ " WHERE id = $" +:+ decimal (Z.of_nat (List.length params2)) +:+ " RETURNING *",
   params2).

(** The keys of [data] that are set, among the allowed ones, in order. *)
Definition present (data : Obj) : list string :=
  List.filter (fun key => negb (is_undefined (get key data))) allowed.

(** The assignments of the keys [ks], numbered from [start + 1]. *)
Fixpoint numbered (start : nat) (ks : list string) : list string :=
  match ks with
  | [] => []
  | key :: rest => assignment (column key) (S start) :: numbered (S start) rest
  end.


(** *** The [INSERT] statement of [save()] *)

Definition insert_sql : string :=
  "INSERT INTO reservations (user_id,name,email,phone,date,time,guests,special_requests,club,club_location,status,created_at,updated_at)
      VALUES ($1,$2,$3,$4,$5,$6,$7,$8,$9,$10,$11,NOW(),NOW()) RETURNING *".

(** The columns the parameters [$1] to [$11] are written to. *)
Definition insert_columns : list string :=
  [ "user_id"; "name"; "email"; "phone"; "date"; "time"; "guests";
    "special_requests"; "club"; "club_location"; "status" ].

(** The columns [db.postgres.js] creates as [NOT NULL]. *)
Definition not_null_columns : list string :=
  [ "name"; "email"; "phone"; "date"; "time"; "guests"; "club" ].

(** The parameters of the insert; [String_] is [String(..)]. *)
Definition insert_params (String_ : Value -> string) (this : Reservation) : list Value :=
  [ if truthy (get "userId" (_data this)) then VStr (String_ (get "userId" (_data this)))
    else VNull;
    get "name" (_data this);
    get "email" (_data this);
    get "phone" (_data this);
    get "date" (_data this);
    get "time" (_data this);
    get "guests" (_data this);
    or (get "specialRequests" (_data this)) VNull;
    get "club" (_data this);
    or (get "clubLocation" (_data this)) VNull;
    or (get "status" (_data this)) (VStr "confirmed") ].

(** The statement and the parameters the relational branch of [save()]
    sends to [pool.query]: the update when the instance has an [_id],
    the insert otherwise. *)
Definition save_query (String_ : Value -> string) (this : Reservation) (now : Z)
    : string * list Value :=
  if truthy (_id this) then update_statement this now
  else (insert_sql, insert_params String_ this).

(** *** [POST /reservations] ([api/apiRoutes.js]) *)

(** The fields the handler requires of the body. *)
Definition required : list string :=
  [ "name"; "email"; "phone"; "date"; "time"; "guests"; "club" ].

(** [!name || !email || !phone || !date || !time || !guests || !club]. *)
Definition missing_fields (body : Obj) : bool :=
  negb (truthy (get "name" body)) || negb (truthy (get "email" body))
  || negb (truthy (get "phone" body)) || negb (truthy (get "date" body))
  || negb (truthy (get "time" body)) || negb (truthy (get "guests" body))
  || negb (truthy (get "club" body)).

(** The object the handler passes to [new Reservation(..)], for the
    [_id] of [req.user]. *)
Definition reservation_data (userId : Value) (body : Obj) : Obj :=
  [ ("userId", userId);
    ("name", get "name" body);
    ("email", get "email" body);
    ("phone", get "phone" body);
    ("date", get "date" body);
    ("time", get "time" body);
    ("guests", get "guests" body);
    ("specialRequests", get "specialRequests" body);
    ("club", get "club" body);
    ("clubLocation", get "clubLocation" body);
    ("status", VStr "confirmed") ].

(** What the handler sends to the relational store: nothing when it
    answers 400 [VALIDATION_ERROR], else the query of [reservation.save()]. *)
Definition post_reservations_query (String_ : Value -> string) (userId : Value)
    (body : Obj) (now : Z) : option (string * list Value) :=
  if missing_fields body then None
  else Some (save_query String_ (new_Reservation (reservation_data userId body)) now).


End ReservationModel.

Import AuthRoutes.

(** ** The reservation backup file ([utils/fileOps.js]) *)

Module FileOps.

(** [JSON.parse] ([None] when it throws) and [JSON.stringify(.., null, 2)]. *)
Record JSON : Type := {
  parse : string -> option Json;
  stringify : Json -> string
}.

(** The reservations read back from the file: none when the file does
    not exist or does not parse, the single value when it holds
    something that is not an array. *)
Definition read_reservations (J : JSON) (file : option string) : list Json :=
  match file with
  | Some fileContent =>
      match parse J fileContent with
      | Some (JArr reservations) => reservations
      | Some other => [other]
      | None => []
      end
  | None => []
  end.

(** [saveReservationToFile(data)]: the content of the file afterwards. *)
Definition saveReservationToFile (J : JSON) (file : option string) (data : Json)
    : option string :=
  Some (stringify J (JArr (read_reservations J file ++ [data]))).

(** The file after saving the records of a list, one by one. *)
Definition save_all (J : JSON) (file : option string) (records : list Json)
    : option string :=
  fold_left (saveReservationToFile J) records file.

End FileOps.

(** ** The migration script ([migrate_reservations.js]) *)

Module Migration.

Import ReservationModel.

(** The parameters of the [INSERT] for a document of the collection.
    [String_] is [String(..)] and [Date_] is [new Date(..)] on the
    values documents hold; [nows] holds the two readings of
    [new Date()], for [created_at] and for [updated_at]. *)
Definition params (String_ : Value -> string) (Date_ : Value -> Z) (d : Obj)
    (nows : Z * Z) : list Value :=
  [ if truthy (get "userId" d) then VStr (String_ (get "userId" d)) else VNull;
    or (get "name" d) VNull;
    or (get "email" d) VNull;
    or (get "phone" d) VNull;
    or (get "date" d) VNull;
    or (get "time" d) VNull;
    or (get "guests" d) VNull;
    or (or (get "specialRequests" d) (get "special_requests" d)) VNull;
    or (get "club" d) VNull;
    or (or (get "clubLocation" d) (get "club_location" d)) VNull;
    or (get "status" d) (VStr "confirmed");
    VDate (if truthy (get "createdAt" d) then Date_ (get "createdAt" d) else fst nows);
    VDate (if truthy (get "updatedAt" d) then Date_ (get "updatedAt" d) else snd nows) ].

(** How the script ends: the number of documents inserted and whether
    the collection was dropped. *)
Record Outcome : Type := {
  migrated : nat;
  dropped : bool
}.

(** The database and the clock as the script meets them: [inserts i ps]
    tells whether the [i]-th [pool.query(insertSql, ps)] resolved,
    [clock i] is what [new Date()] reads while the [i]-th document is
    prepared. *)
Record World : Type := {
  inserts : nat -> list Value -> bool;
  clock : nat -> Z * Z;
  drops : bool
}.

(** The [k]-th insert of the script, for the document [d], went through. *)
Definition inserted (String_ : Value -> string) (Date_ : Value -> Z) (W : World)
    (k : nat) (d : Obj) : bool :=
  inserts W k (params String_ Date_ d (clock W k)).

(** The loop [for (const d of docs)], from the [i]-th document on: a
    failed insert is caught and logged, and the loop goes on. *)
Fixpoint insert_all (String_ : Value -> string) (Date_ : Value -> Z) (W : World)
    (i : nat) (docs : list Obj) (migrated : nat) : nat :=
  match docs with
  | [] => migrated
  | d :: rest =>
      insert_all String_ Date_ W (S i) rest
        (if inserts W i (params String_ Date_ d (clock W i)) then S migrated
         else migrated)
  end.

(** [runMigration], from the documents found on; [drops] tells whether
    [mongoColl.drop()] resolved. *)
Definition runMigration (String_ : Value -> string) (Date_ : Value -> Z) (W : World)
    (docs : list Obj) : Outcome :=
  if (List.length docs =? 0)%nat then {| migrated := 0; dropped := false |}
  else
    let migrated := insert_all String_ Date_ W 0 docs 0 in
    {| migrated := migrated;
       dropped := if (0 <? migrated)%nat then drops W else false |}.

End Migration.

(** ** Sample data: stand-ins for the two libraries, two accounts *)

Module Samples.

(** [sign] writes the secret and the subject id into the token;
    [verify] accepts the tokens written under the same secret. *)
Definition toy : Libraries :=
  {| bcrypt_compare := fun pw hash => String.eqb ("bcrypt:" +:+ pw) hash;
     sign := fun payload secret _ => secret +:+ "." +:+ claim_id payload;
     verify := fun token secret _ =>
       if String.prefix (secret +:+ ".") token then
         inl {| claim_id := String.substring (String.length secret + 1)
                              (String.length token) token;
                claim_email := None; claim_role := None |}
       else inr JsonWebTokenError |}.

Definition env : Env :=
  {| JWT_SECRET := Some "access-key"; REFRESH_SECRET := Some "refresh-key";
     NODE_ENV := None |}.

(** The same environment with [REFRESH_SECRET] unset. *)
Definition env_no_refresh : Env :=
  {| JWT_SECRET := Some "access-key"; REFRESH_SECRET := None; NODE_ENV := None |}.

Definition alice : User :=
  {| UserModel._id := "a1"; name := "Alice"; email := "alice@example.com";
     password := "bcrypt:SecurePass123!"; role := user;
     phone := None; avatar := None; isActive := true;
     lastLogin := None; loginAttempts := 0; lockUntil := None;
     createdAt := 0; updatedAt := 0 |}.

Definition root : User :=
  {| UserModel._id := "r0"; name := "Root"; email := "root@example.com";
     password := "bcrypt:Adm1n$Pass"; role := admin;
     phone := None; avatar := None; isActive := true;
     lastLogin := None; loginAttempts := 0; lockUntil := None;
     createdAt := 0; updatedAt := 0 |}.

Definition mia : User :=
  {| UserModel._id := "m2"; name := "Mia"; email := "mia@example.com";
     password := "bcrypt:Manag3r!x"; role := manager;
     phone := None; avatar := None; isActive := true;
     lastLogin := None; loginAttempts := 0; lockUntil := None;
     createdAt := 0; updatedAt := 0 |}.

Definition db : Users := [alice; root].

(** A request with every optional part absent but the ones given. *)
Definition make (auth mail pw refreshToken id : option string) : Request :=
  {| authorization := auth;
     cookie_accessToken := None; cookie_token := None; cookie_refreshToken := None;
     body_name := None; body_phone := None; body_email := mail;
     body_password := pw; body_confirmPassword := None;
     body_refreshToken := refreshToken;
     params_id := id; params_userId := None;
     ip := "10.0.0.7"; req_user := None; req_token := None |}.

Definition request : Request := make None None None None None.

(** A request carrying [Authorization: Bearer <token>] for [/users/:id]. *)
Definition bearer (token id : string) : Request :=
  make (Some ("Bearer " +:+ token)) None None None (Some id).

(** A login request. *)
Definition login (mail pw : string) : Request :=
  make None (Some mail) (Some pw) None None.

(** A refresh request carrying the token in its body. *)
Definition refresh (token : string) : Request :=
  make None None None (Some token) None.

(** All three clock reads of a request at the same millisecond. *)
Definition at_ (t : Z) : Instants :=
  {| at_throttle := t; at_lock_check := t; at_update := t |}.

(** Five wrong passwords for Alice's account, one second apart, and
    then her right password. *)
Definition start : LoginState := {| attempts := ∅; users := db |}.

Definition five_wrong : list (Request * Instants) :=
  [ (login "alice@example.com" "guess-1", at_ 0);
    (login "alice@example.com" "guess-2", at_ 1000);
    (login "alice@example.com" "guess-3", at_ 2000);
    (login "alice@example.com" "guess-4", at_ 3000);
    (login "alice@example.com" "guess-5", at_ 4000) ].

Definition sixth : Request := login "alice@example.com" "SecurePass123!".

(** A request with the header and the [accessToken] cookie given. *)
Definition with_cookie (auth cookie : option string) : Request :=
  {| authorization := auth;
     cookie_accessToken := cookie; cookie_token := None; cookie_refreshToken := None;
     body_name := None; body_phone := None; body_email := None;
     body_password := None; body_confirmPassword := None;
     body_refreshToken := None;
     params_id := None; params_userId := None;
     ip := "10.0.0.7"; req_user := None; req_token := None |}.


(** Alice's account locked until 1804000 after five failures. *)
Definition locked_db : Users := [update_login alice 5 (Some 1804000) None; root].


(** The hash the stand-in [bcrypt_compare] accepts. *)
Definition hash (pw salt : string) : string := "bcrypt:" +:+ pw.

(** A registration request. *)
Definition register (nm mail pw confirm : string) : Request :=
  {| authorization := None;
     cookie_accessToken := None; cookie_token := None; cookie_refreshToken := None;
     body_name := Some nm; body_phone := None; body_email := Some mail;
     body_password := Some pw; body_confirmPassword := Some confirm;
     body_refreshToken := None;
     params_id := None; params_userId := None;
     ip := "10.0.0.7"; req_user := None; req_token := None |}.

(** The registration of the README. *)
Definition john : Request :=
  register "John Doe" "John@Example.com" "SecurePass123!" "SecurePass123!".


(** A row of the [reservations] table. *)
Definition row : ReservationModel.Row :=
  {| ReservationModel.id := Some 42;
     ReservationModel.user_id := Some "a1";
     ReservationModel.r_name := Some "Alice";
     ReservationModel.r_email := Some "alice@example.com";
     ReservationModel.phone := Some "555-0100";
     ReservationModel.date := Some "2025-01-31";
     ReservationModel.time := Some "20:00";
     ReservationModel.guests := Some "4";
     ReservationModel.special_requests := None;
     ReservationModel.club := Some "Blue Note";
     ReservationModel.club_location := None;
     ReservationModel.r_status := Some "confirmed";
     ReservationModel.created_at := Some 1000;
     ReservationModel.updated_at := Some 1000 |}.

(** The instance [findByIdAndUpdate] saves for the status route. *)
Definition status_update : ReservationModel.Reservation :=
  {| ReservationModel._data :=
       [ ("status", ReservationModel.VStr "cancelled");
         ("updatedAt", ReservationModel.VNum 1700000000000) ];
     ReservationModel._id := ReservationModel.VStr "42" |}.



(** A stand-in for [JSON]: arrays of strings, written [[a;b;]]. *)
Definition item (v : Json) : string :=
  match v with JStr s => s +:+ ";" | _ => "?;" end.

Fixpoint parse_items (s acc : string) : option (list Json) :=
  match s with
  | EmptyString => None
  | String c rest =>
      if Ascii.eqb c "]" then
        if String.eqb rest "" && String.eqb acc "" then Some [] else None
      else if Ascii.eqb c ";" then
        option_map (cons (JStr acc)) (parse_items rest "")
      else parse_items rest (acc +:+ String c "")
  end.

Definition json : FileOps.JSON :=
  {| FileOps.parse := fun s =>
       match s with
       | String "[" rest => option_map JArr (parse_items rest "")
       | _ => None
       end;
     FileOps.stringify := fun v =>
       match v with
       | JArr xs => "[" +:+ String.concat "" (item <$> xs) +:+ "]"
       | _ => "?"
       end |}.



(** A stand-in for [String(..)], right on strings and integers. *)
Definition text_of (v : ReservationModel.Value) : string :=
  match v with
  | ReservationModel.VStr s => s
  | ReservationModel.VNum n => ReservationModel.decimal n
  | ReservationModel.VNull => "null"
  | ReservationModel.VUndefined => "undefined"
  | ReservationModel.VDate _ => "Invalid Date"
  end.

(** A stand-in for [new Date(..).getTime()], right on dates. *)
Definition date_of (v : ReservationModel.Value) : Z :=
  match v with
  | ReservationModel.VDate t => t
  | ReservationModel.VNum n => n
  | _ => 0
  end.

(** The body of a booking that also names a reservation, another user
    and a status. *)
Definition booking : ReservationModel.Obj :=
  [ ("_id", ReservationModel.VStr "42");
    ("userId", ReservationModel.VStr "r0");
    ("status", ReservationModel.VStr "completed");
    ("name", ReservationModel.VStr "Alice");
    ("email", ReservationModel.VStr "alice@example.com");
    ("phone", ReservationModel.VStr "555-0100");
    ("date", ReservationModel.VStr "2025-01-31");
    ("time", ReservationModel.VStr "20:00");
    ("guests", ReservationModel.VNum 4);
    ("club", ReservationModel.VStr "Blue Note") ].

(** A document of the [reservations] collection. *)
Definition document : ReservationModel.Obj :=
  [ ("_id", ReservationModel.VStr "65f0");
    ("userId", ReservationModel.VStr "a1");
    ("name", ReservationModel.VStr "Alice");
    ("email", ReservationModel.VStr "alice@example.com");
    ("phone", ReservationModel.VStr "555-0100");
    ("date", ReservationModel.VStr "2025-01-31");
    ("time", ReservationModel.VStr "20:00");
    ("guests", ReservationModel.VStr "4");
    ("club", ReservationModel.VStr "Blue Note");
    ("status", ReservationModel.VStr "cancelled");
    ("createdAt", ReservationModel.VDate 1000);
    ("updatedAt", ReservationModel.VDate 2000) ].


End Samples.

(** * Properties *)

(** ** The authorization gate *)

Section Gate.

Context (L : Libraries) (env : Env) (db : Users) (now : Z).

Lemma protect_attaches req req' :
  protect L env db now req = Next req' ->
  exists u tok, req' = attach req u tok.
Proof.
  unfold protect. intros H.
  destruct (extract_token req) as [tok|]; [|discriminate].
  destruct (negb (Js.truthy (Some tok))); [discriminate|].
  destruct (negb (Js.truthy (JWT_SECRET env))); [discriminate|].
  destruct (jwt_verify L tok (JWT_SECRET env) now) as [decoded|[]]; try discriminate.
  destruct (findById (claim_id decoded) db) as [u|]; [|discriminate].
  destruct (negb (isActive u)); [discriminate|].
  injection H as <-. eauto.
Qed.

Lemma ownership_rejects req u :
  req_user req = Some u -> role u <> admin -> resourceId req <> Some (UserModel._id u) ->
  checkResourceOwnership req
  = Send (error_response 403 "Cannot access this resource" "NOT_OWNER" []).
Proof.
  intros Hu Hrole Hid. unfold checkResourceOwnership. rewrite Hu.
  destruct (decide (role u = admin)) as [|_]; [contradiction|].
  rewrite bool_decide_eq_false_2 by assumption. reflexivity.
Qed.

Lemma ownership_admin req u :
  req_user req = Some u -> role u = admin -> checkResourceOwnership req = Next req.
Proof.
  intros Hu Hrole. unfold checkResourceOwnership. rewrite Hu.
  destruct (decide (role u = admin)); [reflexivity|contradiction].
Qed.

(** C1. On [PUT /users/:id], a request [protect] lets through carries
    the user [u] it authenticated, and addresses the id it came with.
    If [u] is not an admin and the addressed id differs from [u]'s own
    id, the ownership check sends 403 [NOT_OWNER] and the chain stops
    there: the handler does not run. If [u] is an admin the check calls
    [next()] whatever the addressed id, and the handler runs. *)
Theorem C1_ownership_check req req' :
  protect L env db now req = Next req' ->
  exists u,
    req_user req' = Some u
    /\ resourceId req' = resourceId req
    /\ (role u <> admin -> resourceId req <> Some (UserModel._id u) ->
        exists r,
          checkResourceOwnership req' = Send r
          /\ put_users_id L env db now req = Stopped r
          /\ status r = 403 /\ code r = Some (JStr "NOT_OWNER"))
    /\ (role u = admin ->
        checkResourceOwnership req' = Next req'
        /\ put_users_id L env db now req = Handled (put_users_handler db now req')).
Proof.
  intros Hp. destruct (protect_attaches req req' Hp) as [u [tok ->]].
  exists u. split; [reflexivity|]. split; [reflexivity|]. split.
  - intros Hrole Hid.
    exists (error_response 403 "Cannot access this resource" "NOT_OWNER" []).
    pose proof (ownership_rejects (attach req u tok) u eq_refl Hrole Hid) as Hc.
    repeat split; try assumption.
    unfold put_users_id. cbn [run_chain]. rewrite Hp, Hc. reflexivity.
  - intros Hrole.
    pose proof (ownership_admin (attach req u tok) u eq_refl Hrole) as Hc.
    split; [assumption|].
    unfold put_users_id. cbn [run_chain]. rewrite Hp, Hc. reflexivity.
Qed.

End Gate.

(** Alice's token on the admin's id is stopped; the admin's token on
    Alice's id reaches the handler. *)
Lemma C1_ownership_check_witness :
  (exists r,
      put_users_id Samples.toy Samples.env Samples.db 0
        (Samples.bearer "access-key.a1" "r0") = Stopped r
      /\ status r = 403 /\ code r = Some (JStr "NOT_OWNER"))
  /\ put_users_id Samples.toy Samples.env Samples.db 0
       (Samples.bearer "access-key.r0" "a1")
     = Handled (put_users_handler Samples.db 0
                  (attach (Samples.bearer "access-key.r0" "a1") Samples.root "access-key.r0")).
Proof.
  split.
  - destruct (C1_ownership_check Samples.toy Samples.env Samples.db 0
                (Samples.bearer "access-key.a1" "r0")
                (attach (Samples.bearer "access-key.a1" "r0") Samples.alice "access-key.a1")
                eq_refl)
      as [u [Hu [_ [Hstop _]]]].
    injection Hu as <-.
    destruct Hstop as [r [_ Hr]]; [discriminate|discriminate|].
    exists r. exact Hr.
  - destruct (C1_ownership_check Samples.toy Samples.env Samples.db 0
                (Samples.bearer "access-key.r0" "a1")
                (attach (Samples.bearer "access-key.r0" "a1") Samples.root "access-key.r0")
                eq_refl)
      as [u [Hu [_ [_ Hpass]]]].
    injection Hu as <-.
    destruct Hpass as [_ Hrun]; [reflexivity|]. exact Hrun.
Defined.

Lemma includes_In (arr : list string) (x : string) : includes arr x = true <-> In x arr.
Proof.
  unfold includes. rewrite existsb_exists. split.
  - intros [y [Hy Heq]]. apply String.eqb_eq in Heq. subst. assumption.
  - intros Hx. exists x. split; [assumption|apply String.eqb_refl].
Qed.

Lemma hasPermission_spec (r : Role) (required : list string) :
  hasPermission r required = true
  <-> (forall perm, In perm required -> In perm (userPermissions r)).
Proof.
  unfold hasPermission. rewrite forallb_forall.
  split; intros H perm Hperm; apply includes_In; auto.
Qed.

(** C6. For an authenticated request (one with [req.user] set) and any
    list of required permissions: the permission set is the entry of the
    caller's role in the fixed table; the check calls [next()] if and
    only if every required permission is in that set, and otherwise
    sends 403 [INSUFFICIENT_PERMISSIONS]. Nothing of the request but the
    role enters the decision. *)
Theorem C6_permission_check (required : list string) (req : Request) (u : User) :
  req_user req = Some u ->
  userPermissions (role u)
  = match role u with
    | admin =>
        [ "view_users"; "create_users"; "update_users"; "delete_users";
          "view_reservations"; "manage_reservations";
          "view_settings"; "update_settings"; "view_logs"; "manage_admins" ]
    | manager =>
        [ "view_users"; "view_reservations"; "manage_reservations"; "view_settings" ]
    | user =>
        [ "view_profile"; "update_profile"; "create_reservations";
          "view_own_reservations" ]
    end
  /\ (checkPermission required req = Next req
      <-> (forall perm, In perm required -> In perm (userPermissions (role u))))
  /\ (~ (forall perm, In perm required -> In perm (userPermissions (role u))) ->
      exists r, checkPermission required req = Send r
                /\ status r = 403 /\ code r = Some (JStr "INSUFFICIENT_PERMISSIONS"))
  /\ (forall req2 u2, req_user req2 = Some u2 -> role u2 = role u ->
        (checkPermission required req2 = Next req2
         <-> checkPermission required req = Next req)).
Proof.
  intros Hu.
  assert (Hdec : forall q v, req_user q = Some v ->
            (checkPermission required q = Next q <-> hasPermission (role v) required = true)).
  { intros q v Hv. unfold checkPermission. rewrite Hv.
    destruct (hasPermission (role v) required); cbn; split; congruence. }
  split; [destruct (role u); reflexivity|].
  split; [rewrite (Hdec req u Hu); apply hasPermission_spec|].
  split.
  - intros Hnot. unfold checkPermission. rewrite Hu.
    destruct (hasPermission (role u) required) eqn:Hp.
    + exfalso. apply Hnot. apply hasPermission_spec. assumption.
    + cbn. eexists. split; [reflexivity|]. split; reflexivity.
  - intros req2 u2 Hu2 Hrole. rewrite (Hdec req2 u2 Hu2), (Hdec req u Hu), Hrole. reflexivity.
Qed.

(** A manager may manage reservations. *)
Lemma C6_permission_check_witness :
  checkPermission ["manage_reservations"] (attach Samples.request Samples.mia "t")
  = Next (attach Samples.request Samples.mia "t").
Proof.
  apply (proj2 (proj1 (proj2 (C6_permission_check ["manage_reservations"]
                                (attach Samples.request Samples.mia "t") Samples.mia
                                eq_refl)))).
  intros perm [<-|[]]. cbn. tauto.
Defined.

(** ** The password pattern *)

Lemma alphabet_not_line_terminator (c : ascii) :
  in_alphabet c = true -> is_line_terminator c = false.
Proof.
  unfold in_alphabet, is_line_terminator, is_upper, is_lower, is_digit, is_special, in_range.
  destruct c as [[] [] [] [] [] [] [] []]; vm_compute; congruence.
Qed.

Lemma lookahead_exists (C : ascii -> bool) (s : string) :
  lookahead C s = true -> existsb C (list_ascii_of_string s) = true.
Proof.
  induction s as [|c rest IH]; cbn; [congruence|].
  destruct (C c); cbn; [reflexivity|].
  destruct (is_line_terminator c); cbn; [congruence|exact IH].
Qed.

Lemma lookahead_in_alphabet (C : ascii -> bool) (s : string) :
  forallb in_alphabet (list_ascii_of_string s) = true ->
  lookahead C s = existsb C (list_ascii_of_string s).
Proof.
  induction s as [|c rest IH]; cbn; [reflexivity|].
  intros H. apply andb_true_iff in H as [Hc Hrest].
  rewrite (alphabet_not_line_terminator c Hc), (IH Hrest). reflexivity.
Qed.

Lemma at_least_spec (C : ascii -> bool) (s : string) (n : nat) :
  at_least n C s
  = forallb C (list_ascii_of_string s) && (n <=? List.length (list_ascii_of_string s))%nat.
Proof.
  revert n. induction s as [|c rest IH]; intros n;
    cbn [at_least list_ascii_of_string forallb List.length].
  - destruct n; reflexivity.
  - rewrite IH. destruct (C c); cbn [andb]; [|reflexivity].
    destruct n; reflexivity.
Qed.

Lemma passwordRegex_test_eq (pw : string) :
  passwordRegex_test pw
  = meetsPolicy_spec pw && forallb in_alphabet (list_ascii_of_string pw).
Proof.
  unfold passwordRegex_test, meetsPolicy_spec. rewrite at_least_spec.
  destruct (forallb in_alphabet (list_ascii_of_string pw)) eqn:Hall.
  - rewrite !lookahead_in_alphabet by assumption.
    destruct (8 <=? List.length (list_ascii_of_string pw))%nat;
      destruct (existsb is_lower _), (existsb is_upper _), (existsb is_digit _),
        (existsb is_special _); reflexivity.
  - cbn [andb]. rewrite !andb_false_r. reflexivity.
Qed.

(** The passwords the README lists, with the verdicts it gives them. *)
Example README_passwords :
  passwordRegex_test "SecurePass123!" = true
  /\ passwordRegex_test "Weak123!" = true
  /\ passwordRegex_test "Weak123" = false
  /\ passwordRegex_test "UPPERCASE123" = false
  /\ passwordRegex_test "lowercase123!" = false
  /\ passwordRegex_test "NoNumbers!" = false
  /\ passwordRegex_test "NoSpec123" = false.
Proof. repeat split. Qed.

(** C3, as the code has it. The pattern accepts a password if and only
    if it has at least 8 characters, a lowercase letter, an uppercase
    letter, a digit and a character of [@$!%*?&], and every one of its
    characters is a letter, a digit or one of [@$!%*?&]. A password that
    fails a clause of the policy is rejected, and [POST /auth/register]
    answers a rejected password with 400 [WEAK_PASSWORD]. *)
Theorem C3_password_strength (pw : string) :
  (passwordRegex_test pw = true
   <-> meetsPolicy_spec pw = true
       /\ forallb in_alphabet (list_ascii_of_string pw) = true)
  /\ (meetsPolicy_spec pw = false -> passwordRegex_test pw = false)
  /\ (forall req,
        Js.truthy (body_name req) = true -> Js.truthy (body_email req) = true ->
        body_password req = Some pw -> pw <> "" ->
        passwordRegex_test pw = false ->
        register_validation req
        = Some (error_response 400
                  "Password must be 8+ chars with uppercase, lowercase, number, special char"
                  "WEAK_PASSWORD" [])).
Proof.
  rewrite passwordRegex_test_eq. split; [apply andb_true_iff|].
  split; [intros ->; reflexivity|].
  intros req Hn He Hp Hne Hweak. unfold register_validation.
  rewrite Hn, He, Hp. cbn [Js.truthy negb orb].
  destruct (String.eqb_spec pw ""); [contradiction|]. cbn [negb].
  rewrite passwordRegex_test_eq, Hweak. reflexivity.
Qed.

(** The documented sample password passes; without its [!] it is
    rejected. *)
Lemma C3_password_strength_witness :
  passwordRegex_test "SecurePass123!" = true
  /\ passwordRegex_test "SecurePass123" = false.
Proof.
  split.
  - apply (proj1 (C3_password_strength "SecurePass123!")). split; reflexivity.
  - apply (proj1 (proj2 (C3_password_strength "SecurePass123"))). reflexivity.
Defined.

(** A password that meets every clause of the policy as the
    specification words it, and is rejected: [#] is outside the
    pattern's alphabet. *)
Lemma C3_counterexample :
  meetsPolicy_spec "Secure#Pass123!" = true
  /\ passwordRegex_test "Secure#Pass123!" = false
  /\ ~ (passwordRegex_test "Secure#Pass123!" = true
        <-> meetsPolicy_spec "Secure#Pass123!" = true).
Proof.
  split; [reflexivity|]. split; [reflexivity|].
  intros [_ H]. specialize (H eq_refl). discriminate H.
Qed.

(** ** The login limiter *)

Section Limiter.

Implicit Types (att : gmap string (list Z)) (req : Request) (now : Z).

Lemma fold_min_le (l : list Z) (a : Z) :
  fold_left Z.min l a <= a /\ (forall t, In t l -> fold_left Z.min l a <= t).
Proof.
  revert a. induction l as [|x l IH]; intros a; cbn.
  - split; [lia|intros t []].
  - destruct (IH (Z.min a x)) as [H1 H2]. split; [lia|].
    intros t [<-|Ht]; [lia|auto].
Qed.

Lemma fold_min_In (l : list Z) (a : Z) :
  fold_left Z.min l a = a \/ In (fold_left Z.min l a) l.
Proof.
  revert a. induction l as [|x l IH]; intros a; cbn; [auto|].
  destruct (IH (Z.min a x)) as [H|H]; [|auto].
  rewrite H. destruct (Z.min_spec a x) as [[_ ->]|[_ ->]]; auto.
Qed.

(** [Math.min] of a non-empty list is its least element. *)
Lemma Math_min_least (l : list Z) :
  l <> [] ->
  exists m, Js.Math_min l = Some m /\ m ∈ l /\ (forall t, t ∈ l -> m <= t).
Proof.
  destruct l as [|x l]; [congruence|]. intros _. cbn.
  exists (fold_left Z.min l x). split; [reflexivity|].
  destruct (fold_min_le l x) as [Hx Hl]. split.
  - apply list_elem_of_In. destruct (fold_min_In l x) as [->|H]; [left|right]; auto.
  - intros t Ht. apply list_elem_of_In in Ht. destruct Ht as [<-|Ht]; auto.
Qed.

(** [Math.ceil(x / 1000)] is the least number of whole seconds that
    covers [x] milliseconds. *)
Lemma Math_ceil_div_1000 (x : Z) :
  1000 * (Js.Math_ceil_div x 1000 - 1) < x <= 1000 * Js.Math_ceil_div x 1000.
Proof.
  unfold Js.Math_ceil_div.
  pose proof (Z.div_mod (- x) 1000 ltac:(lia)) as Hdm.
  pose proof (Z.mod_pos_bound (- x) 1000 ltac:(lia)) as Hb.
  lia.
Qed.

(** The two ways the limiter of the login route answers. *)
Lemma loginLimiter_cases att req now :
  let recent := filter (fun t => now - t < 900000) (recorded att (identifier req)) in
  ((5 <= List.length recent)%nat
   /\ exists oldest,
        Js.Math_min recent = Some oldest
        /\ loginLimiter att req now
           = (att,
              Send (error_response 429 "Too many login attempts" "RATE_LIMITED"
                      [ ("resetTime", JDate (oldest + 900000));
                        ("retryAfter",
                         JNum (Js.Math_ceil_div (oldest + 900000 - now) 1000)) ])))
  \/ ((List.length recent < 5)%nat
      /\ loginLimiter att req now
         = (<[identifier req := (recent ++ [now])%list]> att, Next req)).
Proof.
  intros recent. unfold loginLimiter, createLoginLimiter.
  change (15 * 60 * 1000) with 900000.
  fold (recorded att (identifier req)). fold recent.
  destruct (5 <=? Z.of_nat (List.length recent)) eqn:Hcmp.
  - left. apply Z.leb_le in Hcmp. split; [lia|].
    destruct (Math_min_least recent) as [m [Hm _]].
    { intros Hnil. rewrite Hnil in Hcmp. cbn in Hcmp. lia. }
    exists m. rewrite Hm. split; reflexivity.
  - right. apply Z.leb_gt in Hcmp. split; [lia|reflexivity].
Qed.

Lemma recorded_insert att id id' l :
  recorded (<[id := l]> att) id' = if decide (id = id') then l else recorded att id'.
Proof.
  unfold recorded. rewrite lookup_insert. destruct (decide (id = id')); reflexivity.
Qed.

Lemma bounded_step att req now : bounded att -> bounded (fst (loginLimiter att req now)).
Proof.
  intros Hb id.
  destruct (loginLimiter_cases att req now) as [[_ [o [_ ->]]]|[Hlt ->]]; cbn [fst].
  - apply Hb.
  - rewrite recorded_insert. destruct (decide (identifier req = id)); [|apply Hb].
    rewrite length_app. cbn. lia.
Qed.

Lemma bounded_run trace : forall att, bounded att -> bounded (limiter_state att trace).
Proof.
  induction trace as [|[req now] rest IH]; intros att Hb; cbn; [assumption|].
  apply IH, bounded_step, Hb.
Qed.

Lemma bounded_empty : bounded ∅.
Proof. intros id. unfold recorded. rewrite lookup_empty. cbn. lia. Qed.

(** A filter that keeps as many elements as there are keeps them all. *)
Lemma filter_full (P : Z -> Prop) `{!forall x, Decision (P x)} (l : list Z) :
  (List.length l <= List.length (filter P l))%nat -> filter P l = l.
Proof.
  induction l as [|x l IH]; [reflexivity|].
  rewrite filter_cons. destruct (decide (P x)); cbn [List.length]; intros Hlen.
  - f_equal. apply IH. lia.
  - pose proof (length_filter P l). lia.
Qed.

End Limiter.

(** While five attempts of its identifier lie in the window, each
    request of a run is rejected and the map stays as it is. *)
Lemma full_window_run (more : list (Request * Z)) :
  forall att : gmap string (list Z),
    Forall (fun a : Request * Z =>
              (5 <= List.length (filter (fun t => (snd a - t < 900000)%Z)
                                   (recorded att (identifier (fst a)))))%nat) more ->
    Forall rejected (limiter_outcomes att more) /\ limiter_state att more = att.
Proof.
  induction more as [|[req now] rest IH]; intros att Hall; cbn; [split; constructor|].
  inversion Hall as [|? ? Hhd Htl]; subst. cbn [fst snd] in Hhd.
  pose proof (loginLimiter_cases att req now) as Hcases. cbv zeta in Hcases.
  destruct Hcases as [[_ [o [_ ->]]]|[Hlt _]]; [|lia]. cbn [fst snd].
  destruct (IH att Htl) as [Hrej Hst]. split; [constructor; [exact I|exact Hrej]|exact Hst].
Qed.

(** C5. After any sequence of login requests, take a further request
    with the identifier [req.body.email || req.ip] arriving at [now]. If
    five recorded attempts of that identifier lie inside the trailing
    15-minute window (they are then all the attempts recorded for it),
    the request is answered 429 [RATE_LIMITED] and the map is left as it
    was; [retryAfter] is the number of seconds, rounded up, until the
    oldest of these attempts leaves the window; every further request
    that finds the five in its window is rejected in the same way; and
    from the instant the oldest has left, a request of that identifier
    is let through. *)
Theorem C5_login_throttle (trace : list (Request * Z)) (req : Request) (now : Z) :
  let att := limiter_state ∅ trace in
  let recent := filter (fun t => now - t < 900000) (recorded att (identifier req)) in
  (5 <= List.length recent)%nat ->
  exists oldest r,
    recent = recorded att (identifier req)
    /\ Js.Math_min recent = Some oldest
    /\ oldest ∈ recent /\ (forall t, t ∈ recent -> oldest <= t)
    /\ loginLimiter att req now = (att, Send r)
    /\ status r = 429 /\ code r = Some (JStr "RATE_LIMITED")
    /\ field "retryAfter" (body r)
       = Some (JNum (Js.Math_ceil_div (oldest + 900000 - now) 1000))
    /\ 1000 * (Js.Math_ceil_div (oldest + 900000 - now) 1000 - 1)
       < oldest + 900000 - now
       <= 1000 * Js.Math_ceil_div (oldest + 900000 - now) 1000
    /\ (forall more,
          Forall (fun a : Request * Z =>
                    identifier (fst a) = identifier req
                    /\ forall t, t ∈ recent -> snd a - t < 900000) more ->
          Forall rejected (limiter_outcomes att more) /\ limiter_state att more = att)
    /\ (forall req' now',
          identifier req' = identifier req -> oldest + 900000 <= now' ->
          snd (loginLimiter att req' now') = Next req').
Proof.
  intros att recent Hfull.
  pose proof (loginLimiter_cases att req now) as Hcases. cbv zeta in Hcases.
  fold recent in Hcases.
  destruct Hcases as [[_ [oldest [Hmin Hres]]]|[Hlt _]]; [|lia].
  destruct (Math_min_least recent) as [m [Hm [Hin Hle]]].
  { intros Hnil. rewrite Hnil in Hfull. cbn in Hfull. lia. }
  assert (m = oldest) as -> by congruence.
  pose proof (bounded_run trace ∅ bounded_empty (identifier req)) as Hb.
  fold att in Hb.
  eexists oldest, _. split; [apply filter_full; fold recent; lia|].
  split; [exact Hmin|]. split; [exact Hin|]. split; [exact Hle|].
  split; [exact Hres|]. split; [reflexivity|]. split; [reflexivity|].
  split; [reflexivity|]. split; [apply Math_ceil_div_1000|].
  assert (Hall : recent = recorded att (identifier req)) by (apply filter_full; fold recent; lia).
  split.
  { intros more Hmore. apply full_window_run.
    eapply Forall_impl; [exact Hmore|]. intros [r t] [Hid Hin']. cbn [fst snd] in *.
    rewrite Hid, <- Hall.
    assert (Hkeep : filter (fun x => t - x < 900000) recent = recent).
    { clear -Hin'. induction recent as [|x l IHl]; [reflexivity|].
      rewrite filter_cons_True by (apply Hin'; left).
      f_equal. apply IHl. intros y Hy. apply Hin'. right. exact Hy. }
    rewrite Hkeep. exact Hfull. }
  intros req' now' Hid Hout.
  destruct (loginLimiter_cases att req' now') as [[Hge _]|[_ ->]]; [|reflexivity].
  exfalso. rewrite Hid in Hge.
  apply list_elem_of_filter in Hin as [_ Hrec].
  assert (Hgone : ~ now' - oldest < 900000) by lia.
  pose proof (length_filter_lt (fun t => now' - t < 900000) _ oldest Hrec Hgone) as Hshrink.
  lia.
Qed.

(** Five attempts in five seconds, then a sixth one second later: 429
    with [retryAfter] 895. *)
Lemma C5_login_throttle_witness :
  exists oldest r,
    Js.Math_min [0; 1000; 2000; 3000; 4000] = Some oldest
    /\ loginLimiter
         (limiter_state ∅
            [ (Samples.login "alice@example.com" "x", 0);
              (Samples.login "alice@example.com" "x", 1000);
              (Samples.login "alice@example.com" "x", 2000);
              (Samples.login "alice@example.com" "x", 3000);
              (Samples.login "alice@example.com" "x", 4000) ])
         (Samples.login "alice@example.com" "x") 5000
       = (limiter_state ∅
            [ (Samples.login "alice@example.com" "x", 0);
              (Samples.login "alice@example.com" "x", 1000);
              (Samples.login "alice@example.com" "x", 2000);
              (Samples.login "alice@example.com" "x", 3000);
              (Samples.login "alice@example.com" "x", 4000) ], Send r)
    /\ field "retryAfter" (body r) = Some (JNum 895).
Proof.
  destruct (C5_login_throttle
              [ (Samples.login "alice@example.com" "x", 0);
                (Samples.login "alice@example.com" "x", 1000);
                (Samples.login "alice@example.com" "x", 2000);
                (Samples.login "alice@example.com" "x", 3000);
                (Samples.login "alice@example.com" "x", 4000) ]
              (Samples.login "alice@example.com" "x") 5000)
    as [oldest [r [_ [Hmin [_ [_ [Hres [_ [_ [Hretry _]]]]]]]]]].
  - vm_compute. lia.
  - exists oldest, r. split; [exact Hmin|]. split; [exact Hres|].
    rewrite Hretry. vm_compute in Hmin. injection Hmin as <-. reflexivity.
Defined.

Lemma rejected_keeps_map (att : gmap string (list Z)) (req : Request) (now : Z) :
  rejected (snd (loginLimiter att req now)) -> fst (loginLimiter att req now) = att.
Proof.
  destruct (loginLimiter_cases att req now) as [[_ [o [_ ->]]]|[_ ->]]; cbn; [reflexivity|].
  intros [].
Qed.

Lemma rejected_run_keeps_map (more : list (Request * Z)) :
  forall att : gmap string (list Z),
    Forall rejected (limiter_outcomes att more) -> limiter_state att more = att.
Proof.
  induction more as [|[req now] rest IH]; intros att Hall; cbn in *; [reflexivity|].
  inversion Hall as [|? ? Hhd Htl]; subst.
  rewrite (rejected_keeps_map att req now Hhd) in *. apply IH, Htl.
Qed.

(** Every timestamp the limiter holds was either there at the start or
    is the instant of a request of that identifier that was let through. *)
Lemma recorded_provenance (trace : list (Request * Z)) :
  forall (att : gmap string (list Z)) (id : string) (t : Z),
    t ∈ recorded (limiter_state att trace) id ->
    t ∈ recorded att id
    \/ exists i req,
         trace !! i = Some (req, t) /\ identifier req = id
         /\ limiter_outcomes att trace !! i = Some (Next req).
Proof.
  induction trace as [|[req now] rest IH]; intros att id t Ht; cbn in *; [auto|].
  destruct (IH _ id t Ht) as [Hin|[i [req' [Hi [Hid Hout]]]]].
  - destruct (loginLimiter_cases att req now) as [[_ [o [_ Heq]]]|[_ Heq]];
      rewrite Heq in *; cbn [fst snd] in *; [auto|].
    rewrite recorded_insert in Hin.
    destruct (decide (identifier req = id)) as [Hid|]; [|auto].
    apply elem_of_app in Hin as [Hin|Hin].
    + left. apply list_elem_of_filter in Hin as [_ Hin]. rewrite <- Hid. exact Hin.
    + right. apply list_elem_of_singleton in Hin as ->.
      exists 0%nat, req. repeat split; assumption || reflexivity.
  - right. exists (S i), req'. repeat split; assumption.
Qed.

(** C10. After any sequence of login requests: a request the limiter
    answers itself (the 429) leaves the map as it was, so its timestamp
    is not recorded, and so does any run of such requests; an
    identifier never holds more than five timestamps; and each
    timestamp held is the instant of a request of that identifier that
    was let through. Hence after a rejection, however many rejected
    requests follow, a request is let through from the instant the
    oldest admitted attempt has left the window. *)
Theorem C10_rejected_not_recorded (trace : list (Request * Z)) (req : Request) (now : Z) :
  let att := limiter_state ∅ trace in
  (rejected (snd (loginLimiter att req now)) -> fst (loginLimiter att req now) = att)
  /\ (forall more, Forall rejected (limiter_outcomes att more) -> limiter_state att more = att)
  /\ (List.length (recorded att (identifier req)) <= 5)%nat
  /\ (forall t, t ∈ recorded att (identifier req) ->
        exists i req',
          trace !! i = Some (req', t) /\ identifier req' = identifier req
          /\ limiter_outcomes ∅ trace !! i = Some (Next req'))
  /\ (forall oldest more req' now',
        Js.Math_min (recorded att (identifier req)) = Some oldest ->
        Forall rejected (limiter_outcomes att more) ->
        identifier req' = identifier req -> oldest + 900000 <= now' ->
        snd (loginLimiter (limiter_state att more) req' now') = Next req').
Proof.
  intros att.
  pose proof (bounded_run trace ∅ bounded_empty (identifier req)) as Hb. fold att in Hb.
  split; [apply rejected_keeps_map|].
  split; [intros more; apply rejected_run_keeps_map|].
  split; [exact Hb|].
  split.
  - intros t Ht. destruct (recorded_provenance trace ∅ _ t Ht) as [Hin|H]; [|exact H].
    unfold recorded in Hin. rewrite lookup_empty in Hin. cbn in Hin.
    apply elem_of_nil in Hin. contradiction.
  - intros oldest more req' now' Hmin Hall Hid Hgone.
    rewrite (rejected_run_keeps_map more att Hall).
    pose proof (loginLimiter_cases att req' now') as Hcases. cbv zeta in Hcases.
    destruct Hcases as [[Hge _]|[_ ->]]; [|reflexivity].
    exfalso. rewrite Hid in Hge.
    destruct (Math_min_least (recorded att (identifier req))) as [m [Hm [Hin _]]].
    { intros Hnil. rewrite Hnil in Hmin. discriminate. }
    assert (m = oldest) as -> by congruence.
    assert (Hout : ~ now' - oldest < 900000) by lia.
    pose proof (length_filter_lt (fun t => now' - t < 900000) _ oldest Hin Hout). lia.
Qed.

(** Five admitted attempts and a rejected sixth: the map still holds the
    five instants of the admitted ones. *)
Lemma C10_rejected_not_recorded_witness :
  fst (loginLimiter
         (limiter_state ∅
            [ (Samples.login "alice@example.com" "x", 0);
              (Samples.login "alice@example.com" "x", 1000);
              (Samples.login "alice@example.com" "x", 2000);
              (Samples.login "alice@example.com" "x", 3000);
              (Samples.login "alice@example.com" "x", 4000) ])
         (Samples.login "alice@example.com" "x") 5000)
  = limiter_state ∅
      [ (Samples.login "alice@example.com" "x", 0);
        (Samples.login "alice@example.com" "x", 1000);
        (Samples.login "alice@example.com" "x", 2000);
        (Samples.login "alice@example.com" "x", 3000);
        (Samples.login "alice@example.com" "x", 4000) ].
Proof.
  apply (proj1 (C10_rejected_not_recorded
                  [ (Samples.login "alice@example.com" "x", 0);
                    (Samples.login "alice@example.com" "x", 1000);
                    (Samples.login "alice@example.com" "x", 2000);
                    (Samples.login "alice@example.com" "x", 3000);
                    (Samples.login "alice@example.com" "x", 4000) ]
                  (Samples.login "alice@example.com" "x") 5000)).
  vm_compute. exact I.
Defined.

(** ** The account lockout *)

Section Lockout.

Context (L : Libraries) (env : Env).
Implicit Types (db : Users) (u : User) (req : Request).

Lemma findOne_updateOne db mail u (f : User -> User) :
  (forall d, email (f d) = email d) ->
  findOne mail db = Some u ->
  findOne mail (updateOne (UserModel._id u) f db) = Some (f u).
Proof.
  intros Hmail. unfold findOne, updateOne.
  induction db as [|d db IH]; cbn; [discriminate|].
  destruct (String.eqb (email d) mail) eqn:Hd.
  - intros [= ->]. rewrite String.eqb_refl. cbn. rewrite Hmail, Hd. reflexivity.
  - intros Hfind. destruct (String.eqb (UserModel._id d) (UserModel._id u)).
    + rewrite Hmail, Hd. apply IH, Hfind.
    + rewrite Hd. apply IH, Hfind.
Qed.

Lemma incLoginAttempts_email this now d : email (incLoginAttempts this now d) = email d.
Proof.
  unfold incLoginAttempts.
  destruct (lockExpired this now); [reflexivity|].
  destruct ((maxAttempts <=? loginAttempts this + 1) && negb (isLocked this now)); reflexivity.
Qed.

(** What the handler does with a request that addresses [u]. *)
Lemma login_handler_addressed db req u pw t_check t_update :
  findOne (email u) db = Some u -> addresses req u pw ->
  login_handler L env db req t_check t_update
  = if isLocked u t_check then
      (db, error_response 403 "Account locked. Try again later." "ACCOUNT_LOCKED"
             [ ("unlockTime", match lockUntil u with Some t => JDate t | None => JNull end) ])
    else if negb (bcrypt_compare L pw (password u)) then
      (updateOne (UserModel._id u) (incLoginAttempts u t_update) db,
       error_response 401 "Invalid credentials" "INVALID_CREDENTIALS" [])
    else
      login_handler L env db req t_check t_update.
Proof.
  intros Hfind [mail [Hm [Hne [Hlow [Hp Hpne]]]]]. unfold login_handler.
  rewrite Hm, Hp. cbn [Js.truthy].
  destruct (String.eqb_spec mail ""); [contradiction|].
  destruct (String.eqb_spec pw ""); [contradiction|]. cbn [negb orb].
  rewrite Hlow, Hfind.
  destruct (isLocked u t_check); [reflexivity|].
  destruct (bcrypt_compare L pw (password u)); reflexivity.
Qed.

(** A refused password on an account whose lock-until is unset: the
    counter goes up by one, and the lock is set when it reaches five. *)
Lemma failed_attempt_unlocked db req u t :
  findOne (email u) db = Some u -> lockUntil u = None -> wrong_password L u req ->
  let u' := update_login u (loginAttempts u + 1)
              (if 5 <=? loginAttempts u + 1 then Some (at_update t + 1800000) else None)
              (lastLogin u) in
  let db' := fst (login_handler L env db req (at_lock_check t) (at_update t)) in
  findOne (email u) db' = Some u'.
Proof.
  intros Hfind Hlock [pw [Haddr Hwrong]] u' db'. subst db'.
  rewrite (login_handler_addressed db req u pw _ _ Hfind Haddr).
  unfold isLocked. rewrite Hlock, Hwrong. cbn [negb fst].
  rewrite (findOne_updateOne db (email u) u _ (incLoginAttempts_email u (at_update t)) Hfind).
  f_equal. unfold incLoginAttempts, lockExpired, isLocked, maxAttempts, lockTime.
  rewrite Hlock. cbn [negb]. rewrite andb_true_r.
  destruct (5 <=? loginAttempts u + 1); rewrite ?Hlock; reflexivity.
Qed.

End Lockout.

(** C7. A login request whose password [bcrypt.compare] accepts (the
    account is then not locked, or the handler would not have compared)
    leaves the account with its counter at 0 and lock-until unset,
    whatever the counter was; the other fields but [lastLogin] keep
    their values. *)
Theorem C7_success_resets_counter (L : Libraries) (env : Env) (db : Users)
    (req : Request) (u : User) (pw : string) (t_check t_update : Z) :
  findOne (email u) db = Some u ->
  addresses req u pw ->
  isLocked u t_check = false ->
  bcrypt_compare L pw (password u) = true ->
  exists u',
    findOne (email u) (fst (login_handler L env db req t_check t_update)) = Some u'
    /\ u' = resetLoginAttempts t_update u
    /\ loginAttempts u' = 0 /\ lockUntil u' = None /\ lastLogin u' = Some t_update
    /\ UserModel._id u' = UserModel._id u /\ password u' = password u /\ role u' = role u.
Proof.
  intros Hfind Haddr Hunlocked Hok.
  exists (resetLoginAttempts t_update u).
  split; [|repeat split].
  assert (Hdb : fst (login_handler L env db req t_check t_update)
                = updateOne (UserModel._id u) (resetLoginAttempts t_update) db).
  { destruct Haddr as [mail [Hm [Hne [Hlow [Hp Hpne]]]]]. unfold login_handler.
    rewrite Hm, Hp. cbn [Js.truthy].
    destruct (String.eqb_spec mail ""); [contradiction|].
    destruct (String.eqb_spec pw ""); [contradiction|]. cbn [negb orb].
    rewrite Hlow, Hfind, Hunlocked, Hok. cbn [negb].
    destruct (jwt_sign L (accessClaims u) (JWT_SECRET env) "15m"); [|reflexivity].
    destruct (jwt_sign L (refreshClaims u) (refreshSecret env) "7d"); reflexivity. }
  rewrite Hdb. apply findOne_updateOne; [reflexivity|assumption].
Qed.

(** The right password on an account with three failures on record. *)
Lemma C7_success_resets_counter_witness :
  exists u',
    findOne "alice@example.com"
      (fst (login_handler Samples.toy Samples.env
              [update_login Samples.alice 3 None None; Samples.root]
              (Samples.login "Alice@Example.com" "SecurePass123!") 7000 7100))
    = Some u'
    /\ loginAttempts u' = 0 /\ lockUntil u' = None.
Proof.
  destruct (C7_success_resets_counter Samples.toy Samples.env
              [update_login Samples.alice 3 None None; Samples.root]
              (Samples.login "Alice@Example.com" "SecurePass123!")
              (update_login Samples.alice 3 None None) "SecurePass123!" 7000 7100)
    as [u' [Hfind [_ [Hcount [Hlock _]]]]].
  - reflexivity.
  - exists "Alice@Example.com". repeat split; discriminate || reflexivity.
  - reflexivity.
  - reflexivity.
  - exists u'. repeat split; assumption.
Defined.

(** C8. On an account whose lock-until is set and already past when the
    request is served, a refused password sets the counter to exactly 1
    and unsets lock-until, whatever the counter had reached. *)
Theorem C8_expired_lock_restarts_counter (L : Libraries) (env : Env) (db : Users)
    (req : Request) (u : User) (t t_check t_update : Z) :
  findOne (email u) db = Some u ->
  wrong_password L u req ->
  lockUntil u = Some t -> t < t_check -> t_check <= t_update ->
  incLoginAttempts u t_update u = update_login u 1 None (lastLogin u)
  /\ exists u',
       findOne (email u) (fst (login_handler L env db req t_check t_update)) = Some u'
       /\ loginAttempts u' = 1 /\ lockUntil u' = None.
Proof.
  intros Hfind [pw [Haddr Hwrong]] Hlock Hpast Hmono.
  assert (Hinc : incLoginAttempts u t_update = fun doc => update_login doc 1 None (lastLogin doc)).
  { unfold incLoginAttempts, lockExpired. rewrite Hlock.
    destruct (Z.ltb_spec t t_update); [reflexivity|lia]. }
  split; [rewrite Hinc; reflexivity|].
  exists (update_login u 1 None (lastLogin u)).
  split; [|split; reflexivity].
  rewrite (login_handler_addressed L env db req u pw _ _ Hfind Haddr).
  unfold isLocked. rewrite Hlock.
  destruct (Z.ltb_spec t_check t); [lia|]. rewrite Hwrong. cbn [negb fst].
  rewrite (findOne_updateOne db (email u) u _ (incLoginAttempts_email u t_update) Hfind).
  rewrite Hinc. reflexivity.
Qed.

(** An account locked until 1000 with seven failures on record, and a
    wrong password at 2000. *)
Lemma C8_expired_lock_restarts_counter_witness :
  exists u',
    findOne "alice@example.com"
      (fst (login_handler Samples.toy Samples.env
              [update_login Samples.alice 7 (Some 1000) None; Samples.root]
              (Samples.login "alice@example.com" "guess") 2000 2100))
    = Some u'
    /\ loginAttempts u' = 1 /\ lockUntil u' = None.
Proof.
  apply (C8_expired_lock_restarts_counter Samples.toy Samples.env
           [update_login Samples.alice 7 (Some 1000) None; Samples.root]
           (Samples.login "alice@example.com" "guess")
           (update_login Samples.alice 7 (Some 1000) None) 1000 2000 2100).
  - reflexivity.
  - exists "guess". split; [|reflexivity].
    exists "alice@example.com". repeat split; discriminate || reflexivity.
  - reflexivity.
  - lia.
  - lia.
Defined.

Section FiveFailures.

Context (L : Libraries) (env : Env).

Lemma wrong_password_same (u u' : User) (req : Request) :
  email u' = email u -> password u' = password u ->
  wrong_password L u req -> wrong_password L u' req.
Proof.
  intros He Hp [pw [[mail Haddr] Hwrong]]. exists pw. split.
  - exists mail. rewrite He. exact Haddr.
  - rewrite Hp. exact Hwrong.
Qed.

(** One refused password on an account with [k] failures and no lock. *)
Lemma failure_step (db : Users) (u : User) (k : Z) (a : Request * Instants) :
  findOne (email u) db = Some u -> lockUntil u = None -> loginAttempts u = k ->
  wrong_password L u (fst a) ->
  exists u',
    findOne (email u') (handler_run L env db [a]) = Some u'
    /\ email u' = email u /\ password u' = password u
    /\ loginAttempts u' = k + 1
    /\ lockUntil u' = if 5 <=? k + 1 then Some (at_update (snd a) + 1800000) else None.
Proof.
  intros Hfind Hlock Hk Hwrong. destruct a as [req t]. cbn [fst snd handler_run] in *.
  pose proof (failed_attempt_unlocked L env db req u t Hfind Hlock Hwrong) as Hstep.
  cbv zeta in Hstep. rewrite Hk in Hstep.
  exists (update_login u (k + 1)
            (if 5 <=? k + 1 then Some (at_update t + 1800000) else None) (lastLogin u)).
  split; [exact Hstep|]. repeat split.
Qed.

Lemma handler_run_cons (db : Users) (a : Request * Instants) (rest : list (Request * Instants)) :
  handler_run L env db (a :: rest) = handler_run L env (handler_run L env db [a]) rest.
Proof. destruct a. reflexivity. Qed.

(** A request addressing a locked account is answered 403 by the
    handler, whatever its password. *)
Lemma locked_rejects (db : Users) (u : User) (req : Request) (pw : string)
    (until t_check t_update : Z) :
  findOne (email u) db = Some u -> lockUntil u = Some until -> t_check < until ->
  addresses req u pw ->
  login_handler L env db req t_check t_update
  = (db, error_response 403 "Account locked. Try again later." "ACCOUNT_LOCKED"
           [ ("unlockTime", JDate until) ]).
Proof.
  intros Hfind Hlock Hin Haddr.
  rewrite (login_handler_addressed L env db req u pw _ _ Hfind Haddr).
  unfold isLocked. rewrite Hlock.
  destruct (Z.ltb_spec t_check until); [reflexivity|lia].
Qed.

End FiveFailures.

(** C2, as the code has it. Take an account whose counter is 0 and whose
    lock-until is unset (as registration and every successful login
    leave it). After five consecutive login requests with a refused
    password, the counter is 5 and lock-until is the instant of the
    fifth update plus 30 minutes. A further request for the account
    served inside that window, whatever its password, is answered 403
    [ACCOUNT_LOCKED] by the handler and leaves the account as it is. On
    the route the limiter runs first: the request gets that 403 when
    fewer than five attempts of its identifier lie in the limiter's
    15-minute window, and 429 [RATE_LIMITED] otherwise. *)
Theorem C2_lock_after_five_failures (L : Libraries) (env : Env) (db : Users) (u : User)
    (a1 a2 a3 a4 a5 : Request * Instants) :
  findOne (email u) db = Some u ->
  loginAttempts u = 0 -> lockUntil u = None ->
  Forall (fun a => wrong_password L u (fst a)) [a1; a2; a3; a4; a5] ->
  let db5 := handler_run L env db [a1; a2; a3; a4; a5] in
  let until := at_update (snd a5) + 30 * 60 * 1000 in
  exists u5,
    findOne (email u) db5 = Some u5
    /\ loginAttempts u5 = 5 /\ lockUntil u5 = Some until
    /\ forall req6 pw t6 att,
         addresses req6 u pw -> at_lock_check t6 < until ->
         login_handler L env db5 req6 (at_lock_check t6) (at_update t6)
         = (db5, error_response 403 "Account locked. Try again later." "ACCOUNT_LOCKED"
                   [ ("unlockTime", JDate until) ])
         /\ exists st r,
              login_route L env {| attempts := att; users := db5 |} req6 t6 = (st, r)
              /\ users st = db5
              /\ let recent := filter (fun t => at_throttle t6 - t < 900000)
                                 (recorded att (identifier req6)) in
                 ((5 <= List.length recent)%nat
                  /\ status r = 429 /\ code r = Some (JStr "RATE_LIMITED"))
                 \/ ((List.length recent < 5)%nat
                     /\ status r = 403 /\ code r = Some (JStr "ACCOUNT_LOCKED")).
Proof.
  intros Hfind Hcount Hlock Hall db5 until.
  repeat match goal with
         | H : Forall _ (_ :: _) |- _ =>
             let Hhd := fresh "Hw" in
             apply Forall_cons_1 in H as [Hhd H]
         end.
  subst db5. rewrite !(handler_run_cons L env _ _ (_ :: _)).
  destruct (failure_step L env db u 0 a1 Hfind Hlock Hcount Hw)
    as [u1 [Hf1 [He1 [Hp1 [Hc1 Hl1]]]]].
  destruct (failure_step L env _ u1 1 a2 Hf1 Hl1 Hc1
              (wrong_password_same L u u1 _ He1 Hp1 Hw0))
    as [u2 [Hf2 [He2 [Hp2 [Hc2 Hl2]]]]].
  rewrite He1 in He2. rewrite Hp1 in Hp2.
  destruct (failure_step L env _ u2 2 a3 Hf2 Hl2 Hc2
              (wrong_password_same L u u2 _ He2 Hp2 Hw1))
    as [u3 [Hf3 [He3 [Hp3 [Hc3 Hl3]]]]].
  rewrite He2 in He3. rewrite Hp2 in Hp3.
  destruct (failure_step L env _ u3 3 a4 Hf3 Hl3 Hc3
              (wrong_password_same L u u3 _ He3 Hp3 Hw2))
    as [u4 [Hf4 [He4 [Hp4 [Hc4 Hl4]]]]].
  rewrite He3 in He4. rewrite Hp3 in Hp4.
  destruct (failure_step L env _ u4 4 a5 Hf4 Hl4 Hc4
              (wrong_password_same L u u4 _ He4 Hp4 Hw3))
    as [u5 [Hf5 [He5 [Hp5 [Hc5 Hl5]]]]].
  rewrite He4 in He5. cbn in Hl5.
  set (db5 := handler_run L env _ [a5]) in *.
  exists u5. rewrite <- He5. split; [exact Hf5|]. split; [exact Hc5|]. split; [exact Hl5|].
  intros req6 pw t6 att Haddr Hin.
  assert (Haddr5 : addresses req6 u5 pw).
  { destruct Haddr as [mail Hm]. exists mail. rewrite He5. exact Hm. }
  pose proof (locked_rejects L env db5 u5 req6 pw until _ (at_update t6) Hf5 Hl5 Hin Haddr5)
    as Hlocked.
  split; [exact Hlocked|].
  unfold login_route. cbn [attempts users].
  pose proof (loginLimiter_cases att req6 (at_throttle t6)) as Hcases. cbv zeta in Hcases.
  destruct Hcases as [[Hge [o [_ ->]]]|[Hlt ->]].
  - eexists _, _. split; [reflexivity|]. split; [reflexivity|]. left. repeat split. exact Hge.
  - cbn [auditLog]. rewrite Hlocked.
    eexists _, _. split; [reflexivity|]. split; [reflexivity|]. right. repeat split. exact Hlt.
Qed.

(** Five wrong passwords for Alice lock her account until 1804000; her
    right password at 5000 is refused by the handler. *)
Lemma C2_lock_after_five_failures_witness :
  exists u5,
    findOne "alice@example.com"
      (handler_run Samples.toy Samples.env Samples.db Samples.five_wrong) = Some u5
    /\ loginAttempts u5 = 5 /\ lockUntil u5 = Some 1804000
    /\ login_handler Samples.toy Samples.env
         (handler_run Samples.toy Samples.env Samples.db Samples.five_wrong)
         Samples.sixth 5000 5000
       = (handler_run Samples.toy Samples.env Samples.db Samples.five_wrong,
          error_response 403 "Account locked. Try again later." "ACCOUNT_LOCKED"
            [ ("unlockTime", JDate 1804000) ]).
Proof.
  destruct (C2_lock_after_five_failures Samples.toy Samples.env Samples.db Samples.alice
              (Samples.login "alice@example.com" "guess-1", Samples.at_ 0)
              (Samples.login "alice@example.com" "guess-2", Samples.at_ 1000)
              (Samples.login "alice@example.com" "guess-3", Samples.at_ 2000)
              (Samples.login "alice@example.com" "guess-4", Samples.at_ 3000)
              (Samples.login "alice@example.com" "guess-5", Samples.at_ 4000))
    as [u5 [Hfind [Hcount [Hlock Hsixth]]]].
  - reflexivity.
  - reflexivity.
  - reflexivity.
  - repeat constructor;
      (eexists; split; [eexists; repeat split; try reflexivity; discriminate|reflexivity]).
  - exists u5. split; [exact Hfind|]. split; [exact Hcount|]. split; [exact Hlock|].
    apply (Hsixth Samples.sixth "SecurePass123!" (Samples.at_ 5000) ∅).
    + exists "alice@example.com". repeat split; discriminate || reflexivity.
    + cbn. lia.
Defined.

(** The claim as stated fails on the route: with the six requests inside
    the limiter's window, the fifth failure locks the account, and the
    sixth request, with the right password, is answered 429
    [RATE_LIMITED] by the limiter, not 403 [ACCOUNT_LOCKED]. *)
Lemma C2_counterexample :
  status <$> snd (login_run Samples.toy Samples.env Samples.start Samples.five_wrong)
  = [401; 401; 401; 401; 401]
  /\ lockUntil
       <$> findOne "alice@example.com"
             (users (fst (login_run Samples.toy Samples.env Samples.start Samples.five_wrong)))
     = Some (Some (4000 + 30 * 60 * 1000))
  /\ status (snd (login_route Samples.toy Samples.env
                    (fst (login_run Samples.toy Samples.env Samples.start Samples.five_wrong))
                    Samples.sixth (Samples.at_ 5000))) = 429
  /\ code (snd (login_route Samples.toy Samples.env
                  (fst (login_run Samples.toy Samples.env Samples.start Samples.five_wrong))
                  Samples.sixth (Samples.at_ 5000))) = Some (JStr "RATE_LIMITED")
  /\ status (snd (login_route Samples.toy Samples.env
                    (fst (login_run Samples.toy Samples.env Samples.start Samples.five_wrong))
                    Samples.sixth (Samples.at_ 5000))) <> 403.
Proof.
  repeat split; try (vm_compute; reflexivity). vm_compute. discriminate.
Qed.

(** ** The refresh secret *)

Lemma refreshSecret_unset (env : Env) :
  REFRESH_SECRET env = None -> refreshSecret env = JWT_SECRET env.
Proof. unfold refreshSecret, Js.or. intros ->. reflexivity. Qed.

Lemma refreshSecret_same (env : Env) :
  refreshSecret (with_REFRESH_SECRET env (JWT_SECRET env)) = JWT_SECRET env.
Proof.
  unfold refreshSecret, Js.or, with_REFRESH_SECRET. cbn.
  destruct (Js.truthy (JWT_SECRET env)); reflexivity.
Qed.

(** C4, as the code has it. With [REFRESH_SECRET] unset, the secret the
    routes sign and verify refresh tokens with is [JWT_SECRET]: the
    login handler and the refresh route answer as they would with
    [REFRESH_SECRET] set to the value of [JWT_SECRET], and when
    [JWT_SECRET] has the value [k] the refresh token is signed and
    verified under [k]. *)
Theorem C4_refresh_secret_fallback (L : Libraries) (env : Env) :
  REFRESH_SECRET env = None ->
  refreshSecret env = JWT_SECRET env
  /\ (forall db req t_check t_update,
        login_handler L env db req t_check t_update
        = login_handler L (with_REFRESH_SECRET env (JWT_SECRET env)) db req t_check t_update)
  /\ (forall db req now,
        refresh_token_route L env db req now
        = refresh_token_route L (with_REFRESH_SECRET env (JWT_SECRET env)) db req now)
  /\ (forall k u token now,
        JWT_SECRET env = Some k -> k <> "" ->
        jwt_sign L (refreshClaims u) (refreshSecret env) "7d"
        = Some (sign L (refreshClaims u) k "7d")
        /\ jwt_verify L token (refreshSecret env) now = verify L token k now).
Proof.
  intros Hunset. pose proof (refreshSecret_unset env Hunset) as Hsecret.
  pose proof (refreshSecret_same env) as Hsame.
  split; [exact Hsecret|]. split; [|split].
  - intros db req t_check t_update. unfold login_handler.
    rewrite Hsecret, Hsame. reflexivity.
  - intros db req now. unfold refresh_token_route.
    rewrite Hsecret, Hsame. reflexivity.
  - intros k u token now Hk Hne. rewrite Hsecret, Hk.
    unfold jwt_sign, jwt_verify, Js.truthy.
    destruct (String.eqb_spec k ""); [contradiction|]. split; reflexivity.
Qed.

(** With only [JWT_SECRET] set, Alice's refresh token is signed under it. *)
Lemma C4_refresh_secret_fallback_witness :
  refreshSecret Samples.env_no_refresh = Some "access-key"
  /\ jwt_sign Samples.toy (refreshClaims Samples.alice)
       (refreshSecret Samples.env_no_refresh) "7d"
     = Some (sign Samples.toy (refreshClaims Samples.alice) "access-key" "7d").
Proof.
  split.
  - apply (proj1 (C4_refresh_secret_fallback Samples.toy Samples.env_no_refresh eq_refl)).
  - apply (proj2 (proj2 (proj2
             (C4_refresh_secret_fallback Samples.toy Samples.env_no_refresh eq_refl)))
             "access-key" Samples.alice "" 0); [reflexivity|discriminate].
Defined.

(** The claim as stated fails: with [REFRESH_SECRET] unset, a login with
    the right password succeeds and sets a refresh token signed under
    the access secret, and the refresh route accepts that token. *)
Lemma C4_counterexample :
  REFRESH_SECRET Samples.env_no_refresh = None
  /\ status (snd (login_handler Samples.toy Samples.env_no_refresh Samples.db
                    Samples.sixth 0 0)) = 200
  /\ cookie_value
       <$> filter (fun c => cookie_name c = "refreshToken")
             (cookies (snd (login_handler Samples.toy Samples.env_no_refresh Samples.db
                              Samples.sixth 0 0)))
     = [ sign Samples.toy (refreshClaims Samples.alice) "access-key" "7d" ]
  /\ status (refresh_token_route Samples.toy Samples.env_no_refresh Samples.db
               (Samples.refresh
                  (sign Samples.toy (refreshClaims Samples.alice) "access-key" "7d")) 0)
     = 200.
Proof.
  repeat split; vm_compute; reflexivity.
Qed.

(** ** The reservation store *)

(** The object [mapRow] builds has the [_id] and the paths of the
    document schema as its keys, whatever the row holds. *)
Lemma mapRow_keys (row : ReservationModel.Row) :
  ReservationModel.keys (ReservationModel.mapRow row) = ReservationModel.document_paths.
Proof. reflexivity. Qed.

(** Whenever the relational store hands back a row, the instance
    [save()] returns holds the mapped row. *)
Lemma save_postgres_row (this : ReservationModel.Reservation)
    (row : ReservationModel.Row) (rows : list ReservationModel.Row) :
  exists saved,
    ReservationModel.save_postgres this (row :: rows) = inl saved
    /\ ReservationModel._data saved = ReservationModel.mapRow row.
Proof.
  unfold ReservationModel.save_postgres.
  destruct (ReservationModel.truthy (ReservationModel._id this)); eexists; split; reflexivity.
Qed.

(** When the [UPDATE] yields a row, the result of the update has the
    [_id] and the schema's paths as its keys. *)
Lemma findByIdAndUpdate_row (id : ReservationModel.Value) (update : ReservationModel.Obj)
    (mongo : option ReservationModel.Obj)
    (row : ReservationModel.Row) (rows : list ReservationModel.Row) :
  ReservationModel.truthy id = true ->
  ReservationModel.findByIdAndUpdate true id update mongo (row :: rows)
  = inl (Some (ReservationModel.mapRow row)).
Proof.
  intros Hid. unfold ReservationModel.findByIdAndUpdate, ReservationModel.save_postgres.
  cbn. rewrite Hid. reflexivity.
Qed.

(** The rows a relational [find] returns all have these keys. *)
Lemma exec_postgres_keys (rows : list ReservationModel.Row) :
  Forall (fun o => ReservationModel.keys o = ReservationModel.document_paths)
    (ReservationModel.exec_postgres rows).
Proof.
  unfold ReservationModel.exec_postgres. apply Forall_fmap, Forall_forall.
  intros row _. apply mapRow_keys.
Qed.

(** C9, at the input where it fails. On the relational store, updating
    an id no row has (the [UPDATE .. RETURNING *] yields no row) returns
    the update object itself, with the keys [status] and [updatedAt]
    only, and the route answers 200; on the document store the same
    update returns [null] and the route answers 404. *)
Theorem C9_update_of_missing_id :
  ReservationModel.findByIdAndUpdate true (ReservationModel.VStr "999")
    [ ("status", ReservationModel.VStr "cancelled");
      ("updatedAt", ReservationModel.VNum 1700000000000) ] None []
  = inl (Some [ ("status", ReservationModel.VStr "cancelled");
                ("updatedAt", ReservationModel.VNum 1700000000000) ])
  /\ ReservationModel.keys
       [ ("status", ReservationModel.VStr "cancelled");
         ("updatedAt", ReservationModel.VNum 1700000000000) ]
     <> ReservationModel.document_paths
  /\ ReservationModel.findByIdAndUpdate false (ReservationModel.VStr "999")
       [ ("status", ReservationModel.VStr "cancelled");
         ("updatedAt", ReservationModel.VNum 1700000000000) ] None []
     = inl None
  /\ ReservationModel.update_status
       (Some [ ("status", ReservationModel.VStr "cancelled");
               ("updatedAt", ReservationModel.VNum 1700000000000) ]) = 200
  /\ ReservationModel.update_status None = 404.
Proof.
  split; [reflexivity|]. split; [discriminate|]. split; [reflexivity|].
  split; reflexivity.
Qed.

(** * Further properties of the code *)

(** ** Authentication *)

Section Authentication.

Context (L : Libraries) (env : Env) (db : Users) (now : Z).

Lemma truthy_Some (s : string) : Js.truthy (Some s) = true <-> s <> "".
Proof.
  cbn. destruct (String.eqb_spec s ""); cbn; split; congruence.
Qed.

(** X1. [protect] calls [next()] exactly when the request carries a
    non-empty token, [JWT_SECRET] has a value, the token verifies under
    it, and the user the token names is in the collection and active;
    the request then goes on with that stored user (role and all, as
    the collection has them) and the token attached. In every other
    case it sends a response with status 401, 403, 404 or 500. *)
Theorem X1_protect_passes_exactly (req : Request) :
  (forall req',
     protect L env db now req = Next req'
     <-> exists tok k decoded u,
           extract_token req = Some tok /\ tok <> ""
           /\ JWT_SECRET env = Some k /\ k <> ""
           /\ verify L tok k now = inl decoded
           /\ findById (claim_id decoded) db = Some u /\ isActive u = true
           /\ req' = attach req u tok)
  /\ ((exists req', protect L env db now req = Next req')
      \/ exists r, protect L env db now req = Send r
                   /\ (status r = 401 \/ status r = 403 \/ status r = 404 \/ status r = 500)).
Proof.
  split.
  - intros req'. unfold protect, jwt_verify. split.
    + destruct (extract_token req) as [tok|]; [|discriminate].
      destruct (Js.truthy (Some tok)) eqn:Htok; cbn [negb]; [|discriminate].
      destruct (JWT_SECRET env) as [k|] eqn:Hk; cbn [Js.truthy negb]; [|discriminate].
      destruct (String.eqb_spec k ""); cbn [negb]; [discriminate|].
      destruct (verify L tok k now) as [decoded|[]] eqn:Hv; try discriminate.
      destruct (findById (claim_id decoded) db) as [u|] eqn:Hu; [|discriminate].
      destruct (isActive u) eqn:Ha; cbn [negb]; [|discriminate].
      intros [= <-]. exists tok, k, decoded, u.
      apply truthy_Some in Htok. repeat split; assumption.
    + intros [tok [k [decoded [u [-> [Htok [-> [Hk [Hv [Hu [Ha ->]]]]]]]]]]].
      apply truthy_Some in Htok. rewrite Htok. cbn [negb Js.truthy].
      destruct (String.eqb_spec k ""); [contradiction|]. cbn [negb].
      rewrite Hv, Hu, Ha. reflexivity.
  - unfold protect.
    destruct (extract_token req) as [tok|]; [|right; eexists; split; [reflexivity|cbn; auto]].
    destruct (negb (Js.truthy (Some tok))); [right; eexists; split; [reflexivity|cbn; auto]|].
    destruct (negb (Js.truthy (JWT_SECRET env)));
      [right; eexists; split; [reflexivity|cbn; auto]|].
    destruct (jwt_verify L tok (JWT_SECRET env) now) as [decoded|[]];
      try (right; eexists; split; [reflexivity|cbn; auto]).
    destruct (findById (claim_id decoded) db) as [u|];
      [|right; eexists; split; [reflexivity|cbn; auto]].
    destruct (negb (isActive u)); [right; eexists; split; [reflexivity|cbn; auto]|].
    left. eexists. reflexivity.
Qed.

Lemma until_space_no_space (s : string) : no_space s = true -> until_space s = s.
Proof.
  unfold no_space. induction s as [|c rest IH]; cbn; [reflexivity|].
  destruct (Ascii.eqb c " "); cbn; [discriminate|]. intros H. rewrite (IH H). reflexivity.
Qed.

Lemma split_bearer (tok : string) :
  no_space tok = true -> split_space_1 ("Bearer " +:+ tok) = Some tok.
Proof.
  intros H. unfold split_space_1.
  change (after_space ("Bearer " +:+ tok)) with (Some tok).
  cbn [fmap option_fmap option_map]. rewrite (until_space_no_space tok H). reflexivity.
Qed.

Lemma extract_token_bearer (req : Request) (tok : string) :
  authorization req = Some ("Bearer " +:+ tok) -> no_space tok = true ->
  extract_token req = Some tok.
Proof.
  intros Hh Hns. unfold extract_token. rewrite Hh. cbn [Js.truthy].
  change (String.eqb ("Bearer " +:+ tok) "") with false. cbn [negb andb].
  change (String.prefix "Bearer" ("Bearer " +:+ tok)) with true. cbn iota.
  apply split_bearer, Hns.
Qed.

(** X2. The token of a request. A header [Bearer <token>] (the token
    without a space) yields that token whatever the cookies hold. A
    header that starts with [Bearer] but has nothing after a space
    shadows the cookies: the request is refused with 401 [NO_TOKEN] even
    when it carries an [accessToken] cookie. Without a header (or with
    one that does not start with [Bearer]) the [accessToken] cookie is
    taken, and the [token] cookie only when that one is empty or absent. *)
Theorem X2_token_extraction (req : Request) :
  (forall tok,
     authorization req = Some ("Bearer " +:+ tok) -> no_space tok = true ->
     extract_token req = Some tok)
  /\ (forall h,
        authorization req = Some h -> String.prefix "Bearer" h = true ->
        split_space_1 h = None \/ split_space_1 h = Some "" ->
        protect L env db now req
        = Send (error_response 401 "Not authorized to access this route" "NO_TOKEN" []))
  /\ ((authorization req = None
       \/ exists h, authorization req = Some h /\ String.prefix "Bearer" h = false) ->
      (forall c, cookie_accessToken req = Some c -> c <> "" -> extract_token req = Some c)
      /\ (forall c, Js.truthy (cookie_accessToken req) = false ->
                    cookie_token req = Some c -> c <> "" -> extract_token req = Some c)).
Proof.
  split; [|split].
  - apply extract_token_bearer.
  - intros h Hh Hpre Hsplit. unfold protect, extract_token. rewrite Hh, Hpre.
    assert (Hne : Js.truthy (Some h) = true).
    { apply truthy_Some. intros ->. discriminate. }
    rewrite Hne. cbn [andb]. destruct Hsplit as [->| ->]; reflexivity.
  - intros Hhead. unfold extract_token.
    assert (Hskip :
      match authorization req with
      | Some h => Js.truthy (Some h) && String.prefix "Bearer" h
      | None => false
      end = false).
    { destruct Hhead as [->|[h [-> Hpre]]]; [reflexivity|]. rewrite Hpre. apply andb_false_r. }
    split.
    + intros c Hc Hne. pose proof (proj2 (truthy_Some c) Hne) as Ht.
      destruct (authorization req) as [h|]; [rewrite Hskip|]; rewrite Hc, Ht; reflexivity.
    + intros c Ha Hc Hne. pose proof (proj2 (truthy_Some c) Hne) as Ht.
      destruct (authorization req) as [h|]; [rewrite Hskip|]; rewrite Ha, Hc, Ht; reflexivity.
Qed.

(** X3. [optionalAuth] always calls [next()]: with the user and token
    attached exactly when [protect] would let the request through, and
    with the request as it came whenever [protect] would refuse it. *)
Theorem X3_optionalAuth_never_refuses (req : Request) :
  (forall req', protect L env db now req = Next req' ->
                optionalAuth L env db now req = Next req')
  /\ (forall r, protect L env db now req = Send r ->
                optionalAuth L env db now req = Next req)
  /\ exists req', optionalAuth L env db now req = Next req'.
Proof.
  unfold protect, optionalAuth.
  destruct (extract_token req) as [tok|];
    [|split; [discriminate|split; [reflexivity|eexists; reflexivity]]].
  destruct (Js.truthy (Some tok)); cbn [negb andb];
    [|split; [discriminate|split; [reflexivity|eexists; reflexivity]]].
  destruct (Js.truthy (JWT_SECRET env)); cbn [negb];
    [|split; [discriminate|split; [reflexivity|eexists; reflexivity]]].
  destruct (jwt_verify L tok (JWT_SECRET env) now) as [decoded|[]];
    try (split; [discriminate|split; [reflexivity|eexists; reflexivity]]).
  destruct (findById (claim_id decoded) db) as [u|];
    [|split; [discriminate|split; [reflexivity|eexists; reflexivity]]].
  destruct (isActive u); cbn [negb].
  - split; [intros ? [= <-]; reflexivity|]. split; [discriminate|eexists; reflexivity].
  - split; [discriminate|split; [reflexivity|eexists; reflexivity]].
Qed.

End Authentication.

(** Alice's token in the header authenticates her. *)
Lemma X1_protect_passes_exactly_witness :
  protect Samples.toy Samples.env Samples.db 0 (Samples.bearer "access-key.a1" "a1")
  = Next (attach (Samples.bearer "access-key.a1" "a1") Samples.alice "access-key.a1").
Proof.
  apply (proj1 (X1_protect_passes_exactly Samples.toy Samples.env Samples.db 0
                  (Samples.bearer "access-key.a1" "a1"))).
  exists "access-key.a1", "access-key",
    {| claim_id := "a1"; claim_email := None; claim_role := None |}, Samples.alice.
  repeat split; discriminate || reflexivity.
Defined.

(** A bare [Bearer] header shadows a good cookie. *)
Lemma X2_token_extraction_witness :
  protect Samples.toy Samples.env Samples.db 0
    (Samples.with_cookie (Some "Bearer") (Some "access-key.a1"))
  = Send (error_response 401 "Not authorized to access this route" "NO_TOKEN" [])
  /\ extract_token (Samples.with_cookie (Some "Basic abc") (Some "access-key.a1"))
     = Some "access-key.a1".
Proof.
  split.
  - apply (proj1 (proj2 (X2_token_extraction Samples.toy Samples.env Samples.db 0
                           (Samples.with_cookie (Some "Bearer") (Some "access-key.a1"))))
             "Bearer"); [reflexivity|reflexivity|left; reflexivity].
  - refine (proj1 (proj2 (proj2 (X2_token_extraction Samples.toy Samples.env Samples.db 0
                           (Samples.with_cookie (Some "Basic abc") (Some "access-key.a1"))))
                     _) "access-key.a1" eq_refl _).
    + right. exists "Basic abc". split; reflexivity.
    + discriminate.
Defined.

(** A token signed under another key: refused by [protect], let
    through unauthenticated by [optionalAuth]. *)
Lemma X3_optionalAuth_never_refuses_witness :
  optionalAuth Samples.toy Samples.env Samples.db 0 (Samples.bearer "other-key.a1" "a1")
  = Next (Samples.bearer "other-key.a1" "a1").
Proof.
  apply (proj1 (proj2 (X3_optionalAuth_never_refuses Samples.toy Samples.env Samples.db 0
                         (Samples.bearer "other-key.a1" "a1")))
           (error_response 401 "Invalid token" "INVALID_TOKEN" [])).
  reflexivity.
Defined.

(** ** The admin routes *)

Section AdminRoutes.

Context {A : Type} (L : Libraries) (env : Env) (db : Users) (now : Z).
Variable handler : Request -> A.

Lemma authorize_admin (req : Request) (u : User) :
  req_user req = Some u ->
  authorize ["admin"] req
  = if decide (role u = admin) then Next req
    else Send (error_response 403 "Insufficient permissions" "FORBIDDEN"
                 [ ("userRole", JStr (role_name (role u)));
                   ("requiredRoles", JArr [JStr "admin"]) ]).
Proof.
  intros Hu. unfold authorize. rewrite Hu. destruct (role u); reflexivity.
Qed.

(** X4. On a route guarded by [protect, authorize('admin'),
    checkPermission(required)] with [required] among the admin's
    permissions (as on every admin route of the two routers): what
    [protect] refuses is answered by [protect]; an authenticated admin
    reaches the handler; any other authenticated user is stopped by
    [authorize] with 403 [FORBIDDEN]. The permission check never decides:
    a manager, who holds [view_users], is refused all the same. *)
Theorem X4_admin_routes (required : list string) (req : Request) :
  (forall perm, In perm required -> In perm (userPermissions admin)) ->
  (forall r, protect L env db now req = Send r ->
             admin_chain L env db now required handler req = Stopped r)
  /\ (forall req' u,
        protect L env db now req = Next req' -> req_user req' = Some u ->
        (role u = admin ->
           admin_chain L env db now required handler req = Handled (handler req'))
        /\ (role u <> admin ->
              exists r,
                admin_chain L env db now required handler req = Stopped r
                /\ status r = 403 /\ code r = Some (JStr "FORBIDDEN"))).
Proof.
  intros Hperms. unfold admin_chain. cbn [run_chain]. split.
  - intros r ->. reflexivity.
  - intros req' u -> Hu. rewrite (authorize_admin req' u Hu). split.
    + intros Hrole. destruct (decide (role u = admin)); [|contradiction].
      unfold checkPermission. rewrite Hu, Hrole.
      rewrite (proj2 (hasPermission_spec admin required) Hperms). reflexivity.
    + intros Hrole. destruct (decide (role u = admin)); [contradiction|].
      eexists. split; [reflexivity|]. split; reflexivity.
Qed.

End AdminRoutes.

(** The admin reaches [GET /admin/users]; Alice is stopped. *)
Lemma X4_admin_routes_witness :
  admin_chain Samples.toy Samples.env Samples.db 0 ["view_users"] (fun _ => tt)
    (Samples.bearer "access-key.r0" "r0") = Handled tt
  /\ exists r,
       admin_chain Samples.toy Samples.env Samples.db 0 ["view_users"] (fun _ => tt)
         (Samples.bearer "access-key.a1" "a1") = Stopped r
       /\ status r = 403 /\ code r = Some (JStr "FORBIDDEN").
Proof.
  split.
  - apply (proj1 (proj2 (X4_admin_routes Samples.toy Samples.env Samples.db 0 (fun _ => tt)
                           ["view_users"] (Samples.bearer "access-key.r0" "r0")
                           ltac:(intros perm [<-|[]]; cbn; tauto))
                    (attach (Samples.bearer "access-key.r0" "r0") Samples.root "access-key.r0")
                    Samples.root eq_refl eq_refl)).
    reflexivity.
  - apply (proj2 (proj2 (X4_admin_routes Samples.toy Samples.env Samples.db 0 (fun _ => tt)
                           ["view_users"] (Samples.bearer "access-key.a1" "a1")
                           ltac:(intros perm [<-|[]]; cbn; tauto))
                    (attach (Samples.bearer "access-key.a1" "a1") Samples.alice "access-key.a1")
                    Samples.alice eq_refl eq_refl)).
    discriminate.
Defined.

(** ** The login handler and the accounts *)

Section Accounts.

Context (L : Libraries) (env : Env).
Implicit Types (db : Users) (u d : User) (req : Request).

Lemma findOne_In db mail u : findOne mail db = Some u -> In u db /\ email u = mail.
Proof.
  unfold findOne. intros H. apply find_some in H as [Hin Heq].
  apply String.eqb_eq in Heq. auto.
Qed.

Lemma findById_updateOne db u (f : User -> User) :
  (forall d, UserModel._id (f d) = UserModel._id d) ->
  findById (UserModel._id u) db = Some u ->
  findById (UserModel._id u) (updateOne (UserModel._id u) f db) = Some (f u).
Proof.
  intros Hid. unfold findById, updateOne.
  induction db as [|d db IH]; cbn; [discriminate|].
  destruct (String.eqb (UserModel._id d) (UserModel._id u)) eqn:Hd.
  - intros [= ->]. rewrite Hid, String.eqb_refl. reflexivity.
  - intros Hfind. rewrite Hd. apply IH, Hfind.
Qed.

(** With distinct ids, the document of an id is the only one with it. *)
Lemma same_id_same_doc db u d :
  NoDup (UserModel._id <$> db) -> In u db -> In d db ->
  UserModel._id d = UserModel._id u -> d = u.
Proof.
  induction db as [|x db IH]; cbn; [intros _ []|].
  intros Hnd Hu Hd Hid. apply NoDup_cons in Hnd as [Hx Hnd].
  assert (Hmem : forall y, In y db -> UserModel._id y ∈ UserModel._id <$> db).
  { intros y Hy. apply list_elem_of_fmap. exists y. split; [reflexivity|].
    apply list_elem_of_In, Hy. }
  destruct Hu as [<-|Hu], Hd as [<-|Hd]; [reflexivity| | |auto].
  - exfalso. apply Hx. rewrite <- Hid. apply Hmem, Hd.
  - exfalso. apply Hx. rewrite Hid. apply Hmem, Hu.
Qed.

Lemma updateOne_ids db id (f : User -> User) :
  (forall d, UserModel._id (f d) = UserModel._id d) ->
  UserModel._id <$> updateOne id f db = UserModel._id <$> db.
Proof.
  intros Hid. unfold updateOne. induction db as [|d db IH]; cbn; [reflexivity|].
  f_equal; [|exact IH]. destruct (String.eqb (UserModel._id d) id); [apply Hid|reflexivity].
Qed.

Lemma updateOne_Forall (P : User -> Prop) db u (f : User -> User) :
  NoDup (UserModel._id <$> db) -> In u db -> (P u -> P (f u)) ->
  Forall P db -> Forall P (updateOne (UserModel._id u) f db).
Proof.
  intros Hnd Hu Hf Hall. unfold updateOne. apply Forall_forall.
  intros d' Hd'. apply list_elem_of_In, in_map_iff in Hd' as [d [<- Hd]].
  rewrite Forall_forall in Hall.
  destruct (String.eqb_spec (UserModel._id d) (UserModel._id u)) as [Hid|_].
  - rewrite (same_id_same_doc db u d Hnd Hu Hd Hid). apply Hf, Hall, list_elem_of_In, Hu.
  - apply Hall, list_elem_of_In, Hd.
Qed.

(** What the handler does to the collection: nothing, or one of the two
    login updates on the account the email addresses. *)
Lemma login_handler_db db req t_check t_update :
  fst (login_handler L env db req t_check t_update) = db
  \/ exists mail u,
       body_email req = Some mail /\ findOne (Js.toLowerCase mail) db = Some u
       /\ (fst (login_handler L env db req t_check t_update)
           = updateOne (UserModel._id u) (incLoginAttempts u t_update) db
           \/ fst (login_handler L env db req t_check t_update)
              = updateOne (UserModel._id u) (resetLoginAttempts t_update) db).
Proof.
  unfold login_handler.
  destruct (body_email req) as [mail|]; [|left; reflexivity].
  destruct (body_password req) as [pw|]; [|left; reflexivity].
  destruct (negb (Js.truthy (Some mail)) || negb (Js.truthy (Some pw))); [left; reflexivity|].
  destruct (findOne (Js.toLowerCase mail) db) as [u|] eqn:Hfind; [|left; reflexivity].
  destruct (isLocked u t_check); [left; reflexivity|].
  right. exists mail, u. split; [reflexivity|]. split; [exact Hfind|].
  destruct (negb (bcrypt_compare L pw (password u))); [left; reflexivity|].
  right. destruct (jwt_sign L (accessClaims u) (JWT_SECRET env) "15m"); [|reflexivity].
  destruct (jwt_sign L (refreshClaims u) (refreshSecret env) "7d"); reflexivity.
Qed.

Lemma incLoginAttempts_consistent u now :
  lock_consistent u -> lock_consistent (incLoginAttempts u now u).
Proof.
  unfold lock_consistent, incLoginAttempts, maxAttempts. intros [Hpos Hlock].
  destruct (lockExpired u now); [cbn; split; [lia|congruence]|].
  destruct (5 <=? loginAttempts u + 1) eqn:Hfive; cbn [andb].
  - apply Z.leb_le in Hfive.
    destruct (negb (isLocked u now)); cbn; split; intros; lia.
  - cbn. split; [lia|]. intros Hset. specialize (Hlock Hset). lia.
Qed.

Lemma incLoginAttempts_profile this now d : profile (incLoginAttempts this now d) = profile d.
Proof.
  unfold incLoginAttempts.
  destruct (lockExpired this now); [reflexivity|].
  destruct ((maxAttempts <=? loginAttempts this + 1) && negb (isLocked this now)); reflexivity.
Qed.

Lemma incLoginAttempts_id this now d :
  UserModel._id (incLoginAttempts this now d) = UserModel._id d.
Proof. exact (f_equal (fun p => p.1.1.1.1.1.1.1.1.1) (incLoginAttempts_profile this now d)). Qed.

(** X5. Any run of login requests keeps the accounts' ids as they are
    and, when the ids are distinct, keeps every account's lockout fields
    consistent: the counter is never negative, and a lock-until is on
    record only when at least five failures are. *)
Theorem X5_lockout_fields_stay_consistent db (reqs : list (Request * Instants)) :
  NoDup (UserModel._id <$> db) -> Forall lock_consistent db ->
  UserModel._id <$> handler_run L env db reqs = UserModel._id <$> db
  /\ Forall lock_consistent (handler_run L env db reqs).
Proof.
  revert db. induction reqs as [|[req t] rest IH]; intros db Hnd Hall; cbn [handler_run].
  - split; [reflexivity|assumption].
  - set (db1 := fst (login_handler L env db req (at_lock_check t) (at_update t))).
    assert (Hstep : UserModel._id <$> db1 = UserModel._id <$> db /\ Forall lock_consistent db1).
    { subst db1.
      destruct (login_handler_db db req (at_lock_check t) (at_update t))
        as [->|[mail [u [_ [Hfind [-> | ->]]]]]]; [auto| |].
      - apply findOne_In in Hfind as [Hin _]. split.
        + apply updateOne_ids, incLoginAttempts_id.
        + apply updateOne_Forall; try assumption. apply incLoginAttempts_consistent.
      - apply findOne_In in Hfind as [Hin _]. split.
        + apply updateOne_ids. reflexivity.
        + apply updateOne_Forall; try assumption.
          intros _. unfold lock_consistent, resetLoginAttempts. cbn. split; [lia|congruence]. }
    destruct Hstep as [Hids Hcons].
    destruct (IH db1) as [Hids' Hcons']; [rewrite Hids; exact Hnd|exact Hcons|].
    split; [rewrite Hids'; exact Hids|exact Hcons'].
Qed.

End Accounts.

(** Five wrong passwords on Alice's account: still consistent. *)
Lemma X5_lockout_fields_stay_consistent_witness :
  Forall lock_consistent
    (handler_run Samples.toy Samples.env Samples.db Samples.five_wrong).
Proof.
  apply (X5_lockout_fields_stay_consistent Samples.toy Samples.env Samples.db
           Samples.five_wrong).
  - repeat (apply NoDup_cons_2;
            [rewrite list_elem_of_In; cbn; intros H; intuition discriminate|]).
    apply NoDup_nil_2.
  - repeat constructor; cbn; lia || discriminate || congruence.
Defined.

Section LoginFrame.

Context (L : Libraries) (env : Env).
Implicit Types (db : Users) (u d : User) (req : Request).




(** X7. While an account is locked nothing moves: a run of login
    requests for it, each served before its lock-until and whatever the
    passwords, leaves the collection exactly as it was (the lock is not
    extended, the counter does not grow), and each is answered 403
    [ACCOUNT_LOCKED] with the same unlock time. *)
Theorem X7_locked_account_is_frozen db u (until : Z) (reqs : list (Request * Instants)) :
  findOne (email u) db = Some u -> lockUntil u = Some until ->
  Forall (fun a : Request * Instants =>
            (exists pw, addresses (fst a) u pw) /\ at_lock_check (snd a) < until) reqs ->
  handler_run L env db reqs = db
  /\ Forall (fun a : Request * Instants =>
               login_handler L env db (fst a) (at_lock_check (snd a)) (at_update (snd a))
               = (db, error_response 403 "Account locked. Try again later." "ACCOUNT_LOCKED"
                        [ ("unlockTime", JDate until) ])) reqs.
Proof.
  intros Hfind Hlock Hall.
  assert (Hresp : Forall (fun a : Request * Instants =>
               login_handler L env db (fst a) (at_lock_check (snd a)) (at_update (snd a))
               = (db, error_response 403 "Account locked. Try again later." "ACCOUNT_LOCKED"
                        [ ("unlockTime", JDate until) ])) reqs).
  { eapply Forall_impl; [exact Hall|]. intros [req t] [[pw Haddr] Hin]. cbn [fst snd] in *.
    apply (locked_rejects L env db u req pw until _ _ Hfind Hlock Hin Haddr). }
  split; [|exact Hresp].
  clear Hall. induction reqs as [|[req t] rest IH]; cbn [handler_run]; [reflexivity|].
  inversion Hresp as [|? ? Hhd Htl]; subst. cbn [fst snd] in Hhd. rewrite Hhd. cbn [fst].
  apply IH, Htl.
Qed.


End LoginFrame.


(** Two attempts on the locked account, the second with the right
    password: nothing changes. *)
Lemma X7_locked_account_is_frozen_witness :
  handler_run Samples.toy Samples.env Samples.locked_db
    [ (Samples.login "alice@example.com" "guess", Samples.at_ 5000);
      (Samples.sixth, Samples.at_ 6000) ]
  = Samples.locked_db.
Proof.
  apply (X7_locked_account_is_frozen Samples.toy Samples.env Samples.locked_db
           (update_login Samples.alice 5 (Some 1804000) None) 1804000
           [ (Samples.login "alice@example.com" "guess", Samples.at_ 5000);
             (Samples.sixth, Samples.at_ 6000) ]).
  - reflexivity.
  - reflexivity.
  - repeat constructor; cbn;
      try lia;
      (eexists; eexists; repeat split; try reflexivity; discriminate).
Defined.


(** ** Tokens: from login to [protect] and to the refresh route *)

Section Tokens.

Context (L : Libraries) (env : Env).
Implicit Types (db : Users) (u : User) (req : Request).

Lemma jwt_sign_value (payload : Claims) (k expiresIn : string) :
  k <> "" -> jwt_sign L payload (Some k) expiresIn = Some (sign L payload k expiresIn).
Proof. intros Hk. unfold jwt_sign. rewrite (proj2 (truthy_Some k) Hk). reflexivity. Qed.

Lemma jwt_verify_value (token k : string) (now : Z) :
  k <> "" -> jwt_verify L token (Some k) now = verify L token k now.
Proof. intros Hk. unfold jwt_verify. rewrite (proj2 (truthy_Some k) Hk). reflexivity. Qed.

Lemma refreshSecret_value (k : string) :
  JWT_SECRET env = Some k -> k <> "" ->
  exists k', refreshSecret env = Some k' /\ k' <> "".
Proof.
  intros Hk Hne. unfold refreshSecret, Js.or.
  destruct (REFRESH_SECRET env) as [r|] eqn:Hr; cbn [Js.truthy].
  - destruct (String.eqb_spec r ""); cbn [negb]; eauto.
  - eauto.
Qed.

(** X9. Login does not look at the active flag, [protect] does. When
    [JWT_SECRET] is set, the right password on an account that is not
    locked is answered 200 with an access token for it, active or not.
    Presented as [Bearer] token, and verifying to the account's id (as
    a token the library just signed for it does), that token then
    passes [protect] with the stored account, its counter reset,
    attached, if the account is active; if it is disabled [protect]
    answers 403 [ACCOUNT_DISABLED]. *)
Theorem X9_login_then_protect db req u (pw k : string) (t_check t_update : Z) :
  findOne (email u) db = Some u -> findById (UserModel._id u) db = Some u ->
  addresses req u pw -> isLocked u t_check = false ->
  bcrypt_compare L pw (password u) = true ->
  JWT_SECRET env = Some k -> k <> "" ->
  exists refreshToken,
    login_handler L env db req t_check t_update
    = (updateOne (UserModel._id u) (resetLoginAttempts t_update) db,
       login_ok env u (sign L (accessClaims u) k "15m") refreshToken)
    /\ forall req2 now2 decoded,
         authorization req2 = Some ("Bearer " +:+ sign L (accessClaims u) k "15m") ->
         no_space (sign L (accessClaims u) k "15m") = true ->
         sign L (accessClaims u) k "15m" <> "" ->
         verify L (sign L (accessClaims u) k "15m") k now2 = inl decoded ->
         claim_id decoded = UserModel._id u ->
         protect L env (fst (login_handler L env db req t_check t_update)) now2 req2
         = if isActive u then
             Next (attach req2 (resetLoginAttempts t_update u)
                     (sign L (accessClaims u) k "15m"))
           else Send (error_response 403 "Account is disabled" "ACCOUNT_DISABLED" []).
Proof.
  intros Hfind Hid [mail [Hm [Hne [Hlow [Hp Hpne]]]]] Hunlocked Hok Hk Hkne.
  destruct (refreshSecret_value k Hk Hkne) as [k' [Hk' Hkne']].
  exists (sign L (refreshClaims u) k' "7d").
  assert (Hlogin : login_handler L env db req t_check t_update
                   = (updateOne (UserModel._id u) (resetLoginAttempts t_update) db,
                      login_ok env u (sign L (accessClaims u) k "15m")
                        (sign L (refreshClaims u) k' "7d"))).
  { unfold login_handler. rewrite Hm, Hp. cbn [Js.truthy].
    destruct (String.eqb_spec mail ""); [contradiction|].
    destruct (String.eqb_spec pw ""); [contradiction|]. cbn [negb orb].
    rewrite Hlow, Hfind, Hunlocked, Hok. cbn [negb].
    rewrite Hk, Hk', !jwt_sign_value by assumption. reflexivity. }
  split; [exact Hlogin|].
  intros req2 now2 decoded Hauth Hns Htok Hverify Hsub. rewrite Hlogin. cbn [fst].
  unfold protect.
  rewrite (extract_token_bearer req2 _ Hauth Hns).
  rewrite (proj2 (truthy_Some _) Htok). cbn [negb].
  rewrite Hk, (proj2 (truthy_Some k) Hkne). cbn [negb].
  rewrite jwt_verify_value, Hverify, Hsub by assumption.
  rewrite (findById_updateOne db u (resetLoginAttempts t_update) ltac:(reflexivity) Hid).
  cbn [isActive resetLoginAttempts update_login].
  destruct (isActive u); reflexivity.
Qed.

(** X10. With [REFRESH_SECRET] unset, the refresh route takes an access
    token for a refresh token: both are signed under [JWT_SECRET], so
    the access token issued at login, if it verifies to the account's
    id and the account is stored and active, is answered 200 with a
    new access token. *)
Theorem X10_access_token_refreshes db req u (k : string) (now : Z) (decoded : Claims) :
  REFRESH_SECRET env = None -> JWT_SECRET env = Some k -> k <> "" ->
  Js.or (cookie_refreshToken req) (body_refreshToken req)
  = Some (sign L (accessClaims u) k "15m") ->
  sign L (accessClaims u) k "15m" <> "" ->
  verify L (sign L (accessClaims u) k "15m") k now = inl decoded ->
  claim_id decoded = UserModel._id u ->
  findById (UserModel._id u) db = Some u -> isActive u = true ->
  refresh_token_route L env db req now
  = refresh_ok env (sign L (accessClaims u) k "15m").
Proof.
  intros Hunset Hk Hkne Htok Hne Hverify Hsub Hid Hactive.
  unfold refresh_token_route. rewrite Htok, (proj2 (truthy_Some _) Hne). cbn [negb].
  rewrite (refreshSecret_unset env Hunset), Hk, jwt_verify_value, Hverify, Hsub by assumption.
  rewrite Hid, Hactive. cbn [negb]. rewrite jwt_sign_value by assumption. reflexivity.
Qed.


End Tokens.

(** Alice logs in and presents the token she got. *)
Lemma X9_login_then_protect_witness :
  protect Samples.toy Samples.env
    (fst (login_handler Samples.toy Samples.env Samples.db Samples.sixth 0 50))
    100 (Samples.bearer "access-key.a1" "a1")
  = Next (attach (Samples.bearer "access-key.a1" "a1")
            (resetLoginAttempts 50 Samples.alice) "access-key.a1").
Proof.
  destruct (X9_login_then_protect Samples.toy Samples.env Samples.db Samples.sixth
              Samples.alice "SecurePass123!" "access-key" 0 50)
    as [refreshToken [_ Hprotect]].
  - reflexivity.
  - reflexivity.
  - exists "alice@example.com". repeat split; discriminate || reflexivity.
  - reflexivity.
  - reflexivity.
  - reflexivity.
  - discriminate.
  - apply (Hprotect (Samples.bearer "access-key.a1" "a1") 100
             {| claim_id := "a1"; claim_email := None; claim_role := None |});
      discriminate || reflexivity.
Defined.

(** With only [JWT_SECRET] set, Alice's access token refreshes. *)
Lemma X10_access_token_refreshes_witness :
  refresh_token_route Samples.toy Samples.env_no_refresh Samples.db
    (Samples.refresh "access-key.a1") 100
  = refresh_ok Samples.env_no_refresh "access-key.a1".
Proof.
  apply (X10_access_token_refreshes Samples.toy Samples.env_no_refresh Samples.db
           (Samples.refresh "access-key.a1") Samples.alice "access-key" 100
           {| claim_id := "a1"; claim_email := None; claim_role := None |});
    discriminate || reflexivity.
Defined.


(** ** The limiter and the login route *)

Section LimiterMore.

Implicit Types (att : gmap string (list Z)) (req : Request) (now : Z).

(** What one request does to the timestamps of an identifier. *)
Lemma recorded_step att req now (id : string) :
  recorded (fst (loginLimiter att req now)) id
  = if decide (identifier req = id) then
      let recent := filter (fun t => now - t < 900000) (recorded att id) in
      if decide (5 <= List.length recent)%nat then recorded att id
      else (recent ++ [now])%list
    else recorded att id.
Proof.
  pose proof (loginLimiter_cases att req now) as Hcases. cbv zeta in Hcases.
  destruct (decide (identifier req = id)) as [<-|Hne].
  - cbv zeta.
    destruct Hcases as [[Hge [o [_ ->]]]|[Hlt ->]]; cbn [fst].
    + destruct (decide _); [reflexivity|lia].
    + rewrite recorded_insert. destruct (decide (identifier req = identifier req)); [|congruence].
      destruct (decide _); [lia|reflexivity].
  - destruct Hcases as [[_ [o [_ ->]]]|[_ ->]]; cbn [fst]; [reflexivity|].
    rewrite recorded_insert. destruct (decide (identifier req = id)); [contradiction|reflexivity].
Qed.

Lemma limiter_admits_iff att req now :
  snd (loginLimiter att req now) = Next req
  <-> (List.length (filter (fun t => (now - t < 900000)%Z)
                      (recorded att (identifier req))) < 5)%nat.
Proof.
  pose proof (loginLimiter_cases att req now) as Hcases. cbv zeta in Hcases.
  destruct Hcases as [[Hge [o [_ ->]]]|[Hlt ->]]; cbn [snd]; split; intros; try lia;
    discriminate || reflexivity.
Qed.

Lemma under_independent (id : string) (trace : list (Request * Z)) :
  forall att1 att2,
    recorded att1 id = recorded att2 id ->
    recorded (limiter_state att1 trace) id
    = recorded (limiter_state att2 (under id trace)) id.
Proof.
  unfold under. induction trace as [|[req now] rest IH]; intros att1 att2 Heq;
    cbn [limiter_state]; [exact Heq|].
  rewrite filter_cons. cbn [fst].
  destruct (decide (identifier req = id)) as [Hid|Hne]; cbn [limiter_state].
  - apply IH. rewrite !recorded_step, Heq. reflexivity.
  - apply IH. rewrite recorded_step. destruct (decide (identifier req = id)); [contradiction|].
    exact Heq.
Qed.

Lemma admits_after_others (trace : list (Request * Z)) req now :
  (forall a, a ∈ trace -> identifier (fst a) <> identifier req) ->
  snd (loginLimiter (limiter_state ∅ trace) req now) = Next req.
Proof.
  intros Hother. apply limiter_admits_iff.
  rewrite (under_independent (identifier req) trace ∅ ∅ eq_refl).
  assert (Hnone : under (identifier req) trace = []).
  { unfold under. induction trace as [|a rest IH]; [reflexivity|].
    rewrite filter_cons_False by (apply Hother; left).
    apply IH. intros b Hb. apply Hother. right. exact Hb. }
  rewrite Hnone. cbn [limiter_state]. unfold recorded. rewrite lookup_empty. cbn. lia.
Qed.

(** X12. The limiter keeps the identifiers apart. The timestamps it
    holds for an identifier after a sequence of requests are those it
    would hold had only the requests of that identifier been made, and
    so is its answer to the next request of the identifier: attempts
    under other emails or addresses neither use up nor free a slot. *)
Theorem X12_limiter_is_per_identifier (trace : list (Request * Z)) (req : Request) (now : Z) :
  recorded (limiter_state ∅ trace) (identifier req)
  = recorded (limiter_state ∅ (under (identifier req) trace)) (identifier req)
  /\ (snd (loginLimiter (limiter_state ∅ trace) req now) = Next req
      <-> snd (loginLimiter (limiter_state ∅ (under (identifier req) trace)) req now)
          = Next req)
  /\ ((forall a, a ∈ trace -> identifier (fst a) <> identifier req) ->
      snd (loginLimiter (limiter_state ∅ trace) req now) = Next req).
Proof.
  pose proof (under_independent (identifier req) trace ∅ ∅ eq_refl) as Hind.
  split; [exact Hind|]. split.
  - rewrite !limiter_admits_iff, Hind. reflexivity.
  - apply admits_after_others.
Qed.

(** X13. The limiter is keyed by the email as submitted, the handler
    looks the lowercased email up. Two requests whose emails differ only
    in letter case, with the same password, are different identifiers
    for the limiter and the same login for the handler: after any number
    of attempts under one spelling, an attempt under the other is let
    through, and the handler treats it as it would the first. *)
Theorem X13_spelling_evades_limiter (L : Libraries) (env : Env) (db : Users)
    (req1 req2 : Request) (m1 m2 : string) :
  body_email req1 = Some m1 -> body_email req2 = Some m2 ->
  m1 <> "" -> m2 <> "" -> m1 <> m2 ->
  Js.toLowerCase m1 = Js.toLowerCase m2 ->
  body_password req1 = body_password req2 ->
  identifier req1 <> identifier req2
  /\ (forall t_check t_update,
        login_handler L env db req1 t_check t_update
        = login_handler L env db req2 t_check t_update)
  /\ (forall (trace : list (Request * Z)) now,
        (forall a, a ∈ trace -> identifier (fst a) = identifier req1) ->
        snd (loginLimiter (limiter_state ∅ trace) req2 now) = Next req2).
Proof.
  intros H1 H2 Hne1 Hne2 Hdiff Hlow Hpw.
  assert (Hid1 : identifier req1 = m1).
  { unfold identifier, Js.or. rewrite H1, (proj2 (truthy_Some m1) Hne1). reflexivity. }
  assert (Hid2 : identifier req2 = m2).
  { unfold identifier, Js.or. rewrite H2, (proj2 (truthy_Some m2) Hne2). reflexivity. }
  split; [congruence|]. split.
  - intros t_check t_update. unfold login_handler.
    rewrite H1, H2, Hpw, Hlow.
    rewrite (proj2 (truthy_Some m1) Hne1), (proj2 (truthy_Some m2) Hne2). reflexivity.
  - intros trace now Hall.
    apply admits_after_others.
    intros a Ha. rewrite (Hall a Ha). congruence.
Qed.

End LimiterMore.

(** After five attempts under another email, Alice's is let through. *)
Lemma X12_limiter_is_per_identifier_witness :
  snd (loginLimiter
         (limiter_state ∅
            [ (Samples.login "root@example.com" "x", 0);
              (Samples.login "root@example.com" "x", 1);
              (Samples.login "root@example.com" "x", 2);
              (Samples.login "root@example.com" "x", 3);
              (Samples.login "root@example.com" "x", 4) ])
         Samples.sixth 5)
  = Next Samples.sixth.
Proof.
  apply (proj2 (proj2 (X12_limiter_is_per_identifier
                         [ (Samples.login "root@example.com" "x", 0);
                           (Samples.login "root@example.com" "x", 1);
                           (Samples.login "root@example.com" "x", 2);
                           (Samples.login "root@example.com" "x", 3);
                           (Samples.login "root@example.com" "x", 4) ]
                         Samples.sixth 5))).
  intros a Ha. repeat (apply elem_of_cons in Ha as [->|Ha]; [discriminate|]).
  apply elem_of_nil in Ha. contradiction.
Defined.

(** [Alice@example.com] is another identifier and the same account. *)
Lemma X13_spelling_evades_limiter_witness :
  identifier (Samples.login "alice@example.com" "guess")
  <> identifier (Samples.login "Alice@example.com" "guess")
  /\ login_handler Samples.toy Samples.env Samples.db
       (Samples.login "alice@example.com" "guess") 0 0
     = login_handler Samples.toy Samples.env Samples.db
         (Samples.login "Alice@example.com" "guess") 0 0.
Proof.
  destruct (X13_spelling_evades_limiter Samples.toy Samples.env Samples.db
              (Samples.login "alice@example.com" "guess")
              (Samples.login "Alice@example.com" "guess")
              "alice@example.com" "Alice@example.com")
    as [Hid [Hsame _]]; try discriminate; try reflexivity.
  split; [exact Hid|apply Hsame].
Defined.

Section LoginRoute.

Context (L : Libraries) (env : Env).

Lemma limiter_passes_request (att : gmap string (list Z)) (req req' : Request) (now : Z) :
  snd (loginLimiter att req now) = Next req' -> req' = req.
Proof.
  pose proof (loginLimiter_cases att req now) as Hcases. cbv zeta in Hcases.
  destruct Hcases as [[_ [o [_ ->]]]|[_ ->]]; cbn [snd]; congruence.
Qed.

(** One request through the route: the limiter's map moves as the
    limiter alone moves it; the collection moves only if the limiter
    lets the request through, and then as the handler moves it. *)
Lemma login_route_parts (st : LoginState) (req : Request) (t : Instants) :
  attempts (fst (login_route L env st req t))
  = fst (loginLimiter (attempts st) req (at_throttle t))
  /\ users (fst (login_route L env st req t))
     = match snd (loginLimiter (attempts st) req (at_throttle t)) with
       | Next _ =>
           fst (login_handler L env (users st) req (at_lock_check t) (at_update t))
       | _ => users st
       end.
Proof.
  unfold login_route.
  destruct (loginLimiter (attempts st) req (at_throttle t)) as [att out] eqn:Hlim.
  destruct out as [req1|r|err]; cbn [fst snd attempts users auditLog]; [|auto|auto].
  assert (req1 = req) as ->.
  { apply (limiter_passes_request (attempts st) req req1 (at_throttle t)).
    rewrite Hlim. reflexivity. }
  destruct (login_handler L env (users st) req (at_lock_check t) (at_update t)). auto.
Qed.

(** X14. A sequence of login requests through the route splits into its
    two halves. The limiter's map ends as it would with the limiter
    run alone on the arrival instants: passwords, accounts and the
    handler's answers (a successful login included) play no part in
    it. The users collection ends as it would with the handler run on
    just the requests the limiter let through: a request answered 429
    leaves no trace on any account. *)
Theorem X14_login_run_splits (reqs : list (Request * Instants)) (st : LoginState) :
  attempts (fst (login_run L env st reqs)) = limiter_state (attempts st) (arrivals reqs)
  /\ users (fst (login_run L env st reqs))
     = handler_run L env (users st) (admitted (attempts st) reqs)
  /\ List.length (snd (login_run L env st reqs)) = List.length reqs.
Proof.
  revert st. induction reqs as [|[req t] rest IH]; intros st; [repeat split|].
  cbn [login_run arrivals fmap list_fmap limiter_state admitted fst snd].
  destruct (login_route_parts st req t) as [Hatt Husers].
  destruct (login_route L env st req t) as [st1 res] eqn:Hroute. cbn [fst] in Hatt, Husers.
  specialize (IH st1). destruct (login_run L env st1 rest) as [st2 ress] eqn:Hrun.
  cbn [fst snd] in *. destruct IH as [IH1 [IH2 IH3]].
  rewrite Hatt in IH1, IH2. split; [exact IH1|]. split; [|cbn; rewrite IH3; reflexivity].
  rewrite IH2, Husers.
  destruct (loginLimiter (attempts st) req (at_throttle t)) as [att out].
  destruct out; reflexivity.
Qed.

End LoginRoute.

Section LimiterBounds.

Implicit Types (att : gmap string (list Z)) (req : Request) (now : Z).

(** X15. Whatever the limiter's map holds, a request it answers itself
    gets 429 with a [retryAfter] of at least one second; and if the
    clock is not behind the timestamps recorded for the identifier,
    [retryAfter] is at most 900 seconds, the length of the window. *)
Theorem X15_retryAfter_bounds att req now (r : Response) :
  snd (loginLimiter att req now) = Send r ->
  exists n,
    status r = 429 /\ field "retryAfter" (body r) = Some (JNum n)
    /\ 1 <= n
    /\ ((forall t, t ∈ recorded att (identifier req) -> t <= now) -> n <= 900).
Proof.
  intros Hsend.
  pose proof (loginLimiter_cases att req now) as Hcases. cbv zeta in Hcases.
  destruct Hcases as [[Hge [o [Hmin Heq]]]|[_ Heq]]; rewrite Heq in Hsend; cbn [snd] in Hsend;
    [|discriminate].
  injection Hsend as <-.
  exists (Js.Math_ceil_div (o + 900000 - now) 1000). split; [reflexivity|].
  split; [reflexivity|].
  destruct (Math_min_least (filter (fun t => now - t < 900000) (recorded att (identifier req))))
    as [m [Hm [Hin _]]].
  { intros Hnil. rewrite Hnil in Hmin. discriminate. }
  assert (m = o) as -> by congruence.
  apply list_elem_of_filter in Hin as [Hwin Hrec].
  pose proof (Math_ceil_div_1000 (o + 900000 - now)) as Hceil.
  split; [lia|]. intros Hclock. specialize (Hclock o Hrec). lia.
Qed.

Lemma dom_step att req now : dom att ⊆ dom (fst (loginLimiter att req now)).
Proof.
  pose proof (loginLimiter_cases att req now) as Hcases. cbv zeta in Hcases.
  destruct Hcases as [[_ [o [_ ->]]]|[_ ->]]; cbn [fst]; [reflexivity|].
  rewrite dom_insert_L. set_solver.
Qed.

Lemma dom_run (trace : list (Request * Z)) :
  forall att, dom att ⊆ dom (limiter_state att trace).
Proof.
  induction trace as [|[req now] rest IH]; intros att; cbn [limiter_state]; [reflexivity|].
  etransitivity; [apply dom_step|apply IH].
Qed.

(** X16. The limiter never forgets an identifier: every key of its map
    is still a key after any sequence of requests, and so is the
    identifier of every request it has let through. *)
Theorem X16_limiter_keeps_every_key (trace : list (Request * Z)) att :
  dom att ⊆ dom (limiter_state att trace)
  /\ forall (i : nat) req now,
       trace !! i = Some (req, now) ->
       limiter_outcomes att trace !! i = Some (Next req) ->
       identifier req ∈ dom (limiter_state att trace).
Proof.
  split; [apply dom_run|].
  revert att. induction trace as [|[req0 now0] rest IH]; intros att i req now Hi Hout;
    [discriminate|].
  cbn [limiter_state limiter_outcomes] in *. destruct i as [|i]; cbn in Hi, Hout.
  - injection Hi as <- <-. injection Hout as Hnext. apply (dom_run rest).
    pose proof (loginLimiter_cases att req0 now0) as Hcases. cbv zeta in Hcases.
    destruct Hcases as [[_ [o [_ Heq]]]|[_ Heq]]; rewrite Heq in *; cbn [fst snd] in *;
      [discriminate|].
    rewrite dom_insert_L. set_solver.
  - apply (IH _ i req now Hi Hout).
Qed.

End LimiterBounds.

(** The sixth attempt of the sample is told to retry in 895 seconds. *)
Lemma X15_retryAfter_bounds_witness :
  exists n,
    field "retryAfter"
      (body (error_response 429 "Too many login attempts" "RATE_LIMITED"
               [ ("resetTime", JDate 900000); ("retryAfter", JNum 895) ]))
    = Some (JNum n)
    /\ 1 <= n /\ n <= 900.
Proof.
  destruct (X15_retryAfter_bounds
              (limiter_state ∅ (arrivals Samples.five_wrong)) Samples.sixth 5000
              (error_response 429 "Too many login attempts" "RATE_LIMITED"
                 [ ("resetTime", JDate 900000); ("retryAfter", JNum 895) ]))
    as [n [_ [Hn [Hlo Hhi]]]].
  - reflexivity.
  - exists n. split; [exact Hn|]. split; [exact Hlo|]. apply Hhi.
    intros t Ht. vm_compute in Ht.
    repeat (apply elem_of_cons in Ht as [->|Ht]; [lia|]).
    apply elem_of_nil in Ht. contradiction.
Defined.

(** Alice's email is a key after her first attempt, and stays one. *)
Lemma X16_limiter_keeps_every_key_witness :
  "alice@example.com" ∈ dom (limiter_state ∅ (arrivals Samples.five_wrong)).
Proof.
  apply (proj2 (X16_limiter_keeps_every_key (arrivals Samples.five_wrong) ∅)
           0%nat (Samples.login "alice@example.com" "guess-1") 0);
    reflexivity.
Defined.

(** ** [trim] and [toLowerCase] *)

Section Strings.

Lemma lower_ascii_idem (c : ascii) : Js.lower_ascii (Js.lower_ascii c) = Js.lower_ascii c.
Proof. destruct c as [[] [] [] [] [] [] [] []]; reflexivity. Qed.

Lemma is_space_lower (c : ascii) : Js.is_space (Js.lower_ascii c) = Js.is_space c.
Proof. destruct c as [[] [] [] [] [] [] [] []]; reflexivity. Qed.

Lemma toLowerCase_idem (s : string) : Js.toLowerCase (Js.toLowerCase s) = Js.toLowerCase s.
Proof.
  induction s as [|c rest IH]; cbn; [reflexivity|]. rewrite lower_ascii_idem, IH. reflexivity.
Qed.

Lemma toLowerCase_trimStart (s : string) :
  Js.toLowerCase (Js.trimStart s) = Js.trimStart (Js.toLowerCase s).
Proof.
  induction s as [|c rest IH]; cbn [Js.toLowerCase Js.trimEnd Js.trimStart]; [reflexivity|].
  rewrite is_space_lower. destruct (Js.is_space c); [exact IH|reflexivity].
Qed.

Lemma toLowerCase_trimEnd (s : string) :
  Js.toLowerCase (Js.trimEnd s) = Js.trimEnd (Js.toLowerCase s).
Proof.
  induction s as [|c rest IH]; cbn [Js.toLowerCase Js.trimEnd Js.trimStart]; [reflexivity|].
  rewrite <- IH, is_space_lower.
  destruct (Js.trimEnd rest) as [|k kept]; cbn [Js.toLowerCase]; [|reflexivity].
  destruct (Js.is_space c); reflexivity.
Qed.

Lemma toLowerCase_trim (s : string) : Js.toLowerCase (Js.trim s) = Js.trim (Js.toLowerCase s).
Proof. unfold Js.trim. rewrite toLowerCase_trimEnd, toLowerCase_trimStart. reflexivity. Qed.

(** The string does not begin with white space. *)
Lemma trimStart_fixed (s : string) :
  match s with EmptyString => True | String c _ => Js.is_space c = false end ->
  Js.trimStart s = s.
Proof. destruct s as [|c rest]; cbn [Js.trimStart]; [reflexivity|]. intros ->. reflexivity. Qed.

Lemma trimStart_head (s : string) :
  match Js.trimStart s with EmptyString => True | String c _ => Js.is_space c = false end.
Proof.
  induction s as [|c rest IH]; cbn [Js.trimStart]; [exact I|].
  destruct (Js.is_space c) eqn:Hc; [exact IH|exact Hc].
Qed.

Lemma trimEnd_head (s : string) :
  match s with EmptyString => True | String c _ => Js.is_space c = false end ->
  match Js.trimEnd s with EmptyString => True | String c _ => Js.is_space c = false end.
Proof.
  destruct s as [|c rest]; cbn [Js.trimEnd]; [auto|]. intros Hc.
  destruct (Js.trimEnd rest); [rewrite Hc|]; exact Hc.
Qed.

Lemma trimEnd_idem (s : string) : Js.trimEnd (Js.trimEnd s) = Js.trimEnd s.
Proof.
  induction s as [|c rest IH]; cbn [Js.toLowerCase Js.trimEnd Js.trimStart]; [reflexivity|].
  destruct (Js.trimEnd rest) as [|k kept] eqn:Hk.
  - destruct (Js.is_space c) eqn:Hc; cbn [Js.trimEnd]; [reflexivity|]. rewrite Hc. reflexivity.
  - change (Js.trimEnd (String c (String k kept)))
      with (match Js.trimEnd (String k kept) with
            | EmptyString => if Js.is_space c then EmptyString else String c EmptyString
            | kept' => String c kept'
            end).
    rewrite IH. reflexivity.
Qed.

Lemma trim_idem (s : string) : Js.trim (Js.trim s) = Js.trim s.
Proof.
  unfold Js.trim.
  rewrite (trimStart_fixed (Js.trimEnd (Js.trimStart s)))
    by apply trimEnd_head, trimStart_head.
  apply trimEnd_idem.
Qed.

End Strings.

(** ** Registration *)

Section Registration.

Variable hash : string -> string -> string.
Implicit Types (db : Users) (req : Request).

(** The response of a successful registration. *)
Lemma register_cases db req (salt id : string) (now : Z) :
  (fst (register_route hash db req salt id now) = db
   /\ (status (snd (register_route hash db req salt id now)) = 400
       \/ status (snd (register_route hash db req salt id now)) = 409
       \/ status (snd (register_route hash db req salt id now)) = 500))
  \/ exists nm mail pw,
       body_name req = Some nm /\ body_email req = Some mail
       /\ body_password req = Some pw /\ body_confirmPassword req = Some pw
       /\ passwordRegex_test pw = true
       /\ findOne (Js.toLowerCase mail) db = None
       /\ save_new db (new_User id (Js.trim nm) (Js.toLowerCase mail) (hash pw salt) now)
          = Some (db ++ [new_User id (Js.trim nm) (Js.toLowerCase mail) (hash pw salt) now])%list
       /\ register_route hash db req salt id now
          = ((db ++ [new_User id (Js.trim nm) (Js.toLowerCase mail) (hash pw salt) now])%list,
             {| status := 201;
                body := [ ("message", JStr "Registration successful! Please login.");
                          ("user",
                           JObj (toObject_sans_password
                                   (new_User id (Js.trim nm) (Js.toLowerCase mail)
                                      (hash pw salt) now))) ];
                cookies := [] |}).
Proof.
  unfold register_route, register_validation.
  destruct (negb (Js.truthy (body_name req)) || negb (Js.truthy (body_email req))
            || negb (Js.truthy (body_password req))); [left; cbn; auto|].
  destruct (body_password req) as [pw|]; [|left; cbn; auto].
  destruct (passwordRegex_test pw) eqn:Hpw; cbn [negb]; [|left; cbn; auto].
  destruct (bool_decide (Some pw = body_confirmPassword req)) eqn:Hconf; cbn [negb];
    [|left; cbn; auto].
  apply bool_decide_eq_true in Hconf.
  destruct (body_name req) as [nm|]; [|left; cbn; auto].
  destruct (body_email req) as [mail|]; [|left; cbn; auto].
  destruct (findOne (Js.toLowerCase mail) db) eqn:Hfind; [left; cbn; auto|].
  cbv zeta.
  destruct (save_new db (new_User id (Js.trim nm) (Js.toLowerCase mail) (hash pw salt) now))
    as [db'|] eqn:Hsave; [|left; cbn; auto].
  right. exists nm, mail, pw.
  assert (db' = (db ++ [new_User id (Js.trim nm) (Js.toLowerCase mail) (hash pw salt) now])%list)
    as ->.
  { unfold save_new in Hsave.
    destruct (_ || _ || _); [discriminate|]. destruct (existsb _ db); congruence. }
  repeat split; auto.
Qed.

(** X17. Registration answers 201, 400, 409 or 500, and changes the
    collection only with a 201. A 201 means: the password passed the
    pattern and equals its confirmation, no account had the lowercased
    email, and exactly one document was added at the end of the
    collection, with the name trimmed, the email lowercased and
    trimmed, the hash (never the password itself) as password, the role
    [user] whatever the request says, the account active, no failure on
    record and no lock. The response carries that document without its
    password. *)
Theorem X17_register_outcomes db req (salt id : string) (now : Z) :
  (status (snd (register_route hash db req salt id now)) = 201
   \/ status (snd (register_route hash db req salt id now)) = 400
   \/ status (snd (register_route hash db req salt id now)) = 409
   \/ status (snd (register_route hash db req salt id now)) = 500)
  /\ (status (snd (register_route hash db req salt id now)) <> 201 ->
      fst (register_route hash db req salt id now) = db)
  /\ (status (snd (register_route hash db req salt id now)) = 201 ->
      exists nm mail pw u fields,
        body_name req = Some nm /\ body_email req = Some mail
        /\ body_password req = Some pw /\ body_confirmPassword req = Some pw
        /\ passwordRegex_test pw = true
        /\ findOne (Js.toLowerCase mail) db = None
        /\ fst (register_route hash db req salt id now) = (db ++ [u])%list
        /\ name u = Js.trim nm
        /\ email u = Js.trim (Js.toLowerCase mail)
        /\ password u = hash pw salt
        /\ role u = user /\ isActive u = true
        /\ loginAttempts u = 0 /\ lockUntil u = None
        /\ field "user" (body (snd (register_route hash db req salt id now)))
           = Some (JObj fields)
        /\ field "password" fields = None
        /\ field "email" fields = Some (JStr (email u))).
Proof.
  destruct (register_cases db req salt id now)
    as [[Hdb Hst]|[nm [mail [pw [Hn [Hm [Hp [Hc [Hpw [Hfind [_ Heq]]]]]]]]]]].
  - split; [tauto|]. split; [intros _; exact Hdb|]. intros H201. lia.
  - rewrite Heq. cbn [fst snd status]. split; [auto|]. split; [congruence|]. intros _.
    exists nm, mail, pw,
      (new_User id (Js.trim nm) (Js.toLowerCase mail) (hash pw salt) now).
    eexists. repeat split; try assumption; try reflexivity;
      cbn [name email new_User]; rewrite ?toLowerCase_idem; try apply trim_idem; reflexivity.
Qed.

Lemma save_new_fresh db (u : User) (db' : Users) :
  save_new db u = Some db' -> db' = (db ++ [u])%list /\ email u ∉ email <$> db.
Proof.
  unfold save_new. destruct (_ || _ || _); [discriminate|].
  destruct (existsb (fun d => String.eqb (email d) (email u)) db) eqn:Hex; [discriminate|].
  intros [= <-]. split; [reflexivity|].
  intros Hin. apply list_elem_of_fmap in Hin as [d [Heq Hd]].
  assert (existsb (fun d => String.eqb (email d) (email u)) db = true); [|congruence].
  apply existsb_exists. exists d. split; [apply list_elem_of_In, Hd|].
  rewrite Heq. apply String.eqb_refl.
Qed.

End Registration.

Section RegistrationInvariants.

Variable hash : string -> string -> string.
Implicit Types (db : Users) (req : Request).

(** X18. Registration keeps the collection well formed: if the stored
    emails are pairwise distinct they stay so, if each is its own
    lowercase (so that the login lookup can find it) that stays so, and
    with a fresh document id the ids stay pairwise distinct. *)
Theorem X18_register_keeps_collection_well_formed db req (salt id : string) (now : Z) :
  (NoDup (email <$> db) ->
   NoDup (email <$> fst (register_route hash db req salt id now)))
  /\ (Forall lowercase_email db ->
      Forall lowercase_email (fst (register_route hash db req salt id now)))
  /\ (NoDup (UserModel._id <$> db) -> id ∉ UserModel._id <$> db ->
      NoDup (UserModel._id <$> fst (register_route hash db req salt id now))).
Proof.
  destruct (register_cases hash db req salt id now)
    as [[-> _]|[nm [mail [pw [_ [_ [_ [_ [_ [_ [Hsave ->]]]]]]]]]]]; [auto|].
  cbn [fst]. apply save_new_fresh in Hsave as [_ Hfresh].
  split; [|split].
  - intros Hnd. rewrite fmap_app. apply NoDup_app. split; [exact Hnd|].
    split; [|apply NoDup_singleton].
    intros x Hx Hin. apply list_elem_of_singleton in Hin. subst x. exact (Hfresh Hx).
  - intros Hall. apply Forall_app. split; [exact Hall|]. constructor; [|constructor].
    unfold lowercase_email. cbn [email new_User].
    rewrite toLowerCase_trim, !toLowerCase_idem. reflexivity.
  - intros Hnd Hid. rewrite fmap_app. apply NoDup_app. split; [exact Hnd|].
    split; [|apply NoDup_singleton].
    intros x Hx Hin. apply list_elem_of_singleton in Hin. subst x. exact (Hid Hx).
Qed.

Lemma findOne_app_last db (u : User) (mail : string) :
  findOne mail db = None -> email u = mail -> findOne mail (db ++ [u])%list = Some u.
Proof.
  unfold findOne. intros Hnone Hmail. induction db as [|d db IH]; cbn in *.
  - rewrite Hmail, String.eqb_refl. reflexivity.
  - destruct (String.eqb (email d) mail); [discriminate|]. apply IH, Hnone.
Qed.

(** X19. Register, then log in. After a registration answered 201, a
    login with the same email and password is answered 200 with tokens
    for the new account, provided the email has no white space around
    it (the document stores it trimmed, the login looks it up as
    submitted but for the letter case), [bcrypt.compare] accepts the
    password against the hash just made, and [JWT_SECRET] is set. *)
Theorem X19_register_then_login (L : Libraries) (env : Env) db req req2
    (salt id mail pw k : string) (now t_check t_update : Z) :
  status (snd (register_route hash db req salt id now)) = 201 ->
  body_email req = Some mail -> body_password req = Some pw ->
  Js.trim (Js.toLowerCase mail) = Js.toLowerCase mail ->
  bcrypt_compare L pw (hash pw salt) = true ->
  JWT_SECRET env = Some k -> k <> "" ->
  body_email req2 = Some mail -> body_password req2 = Some pw ->
  exists u refreshToken,
    findOne (Js.toLowerCase mail) (fst (register_route hash db req salt id now)) = Some u
    /\ UserModel._id u = id /\ password u = hash pw salt
    /\ login_handler L env (fst (register_route hash db req salt id now)) req2
         t_check t_update
       = (updateOne id (resetLoginAttempts t_update)
            (fst (register_route hash db req salt id now)),
          login_ok env u (sign L (accessClaims u) k "15m") refreshToken).
Proof.
  intros H201 Hm Hp Htrim Hok Hk Hkne Hm2 Hp2.
  destruct (register_cases hash db req salt id now)
    as [[_ Hst]|[nm [mail' [pw' [_ [Hm' [Hp' [_ [Hpw [Hfind [Hsave Heq]]]]]]]]]]]; [lia|].
  assert (mail' = mail) as -> by congruence. assert (pw' = pw) as -> by congruence.
  rewrite Heq. cbn [fst].
  set (u := new_User id (Js.trim nm) (Js.toLowerCase mail) (hash pw salt) now).
  assert (Hmail : email u = Js.toLowerCase mail).
  { subst u. cbn [email new_User]. rewrite toLowerCase_idem. exact Htrim. }
  assert (Hu : findOne (Js.toLowerCase mail) (db ++ [u])%list = Some u)
    by (apply findOne_app_last; assumption).
  destruct (refreshSecret_value env k Hk Hkne) as [k' [Hk' Hkne']].
  exists u, (sign L (refreshClaims u) k' "7d").
  split; [exact Hu|]. split; [reflexivity|]. split; [reflexivity|].
  assert (Hmne : mail <> "").
  { intros ->. unfold save_new in Hsave. fold u in Hsave. rewrite Hmail in Hsave.
    cbn in Hsave. rewrite orb_true_r in Hsave. discriminate. }
  assert (Hpne : pw <> "") by (intros ->; discriminate).
  unfold login_handler. rewrite Hm2, Hp2.
  rewrite (proj2 (truthy_Some mail) Hmne), (proj2 (truthy_Some pw) Hpne). cbn [negb orb].
  rewrite Hu. cbn [isLocked lockUntil u new_User password].
  rewrite Hok. cbn [negb].
  rewrite Hk, Hk', !jwt_sign_value by assumption. reflexivity.
Qed.

End RegistrationInvariants.

(** John registers: one more account, with the role [user]. *)
Lemma X17_register_outcomes_witness :
  exists u,
    fst (register_route Samples.hash Samples.db Samples.john "salt" "j3" 1000)
    = (Samples.db ++ [u])%list
    /\ email u = "john@example.com" /\ role u = user
    /\ password u = "bcrypt:SecurePass123!".
Proof.
  destruct (proj2 (proj2 (X17_register_outcomes Samples.hash Samples.db Samples.john
                            "salt" "j3" 1000)) eq_refl)
    as [nm [mail [pw [u [fields [Hn [Hm [Hp [_ [_ [_ [Hdb [_ [He [Hpw [Hr _]]]]]]]]]]]]]]]].
  exists u. split; [exact Hdb|].
  injection Hm as <-. injection Hp as <-.
  split; [exact He|]. split; [exact Hr|exact Hpw].
Defined.

(** A second registration under Alice's email changes nothing. *)
Lemma X18_register_keeps_collection_well_formed_witness :
  NoDup (email <$> fst (register_route Samples.hash Samples.db
                          (Samples.register "Eve" "ALICE@example.com"
                             "SecurePass123!" "SecurePass123!") "salt" "e4" 1000)).
Proof.
  apply (proj1 (X18_register_keeps_collection_well_formed Samples.hash Samples.db
                  (Samples.register "Eve" "ALICE@example.com"
                     "SecurePass123!" "SecurePass123!") "salt" "e4" 1000)).
  repeat (apply NoDup_cons_2;
          [rewrite list_elem_of_In; cbn; intros H; intuition discriminate|]).
  apply NoDup_nil_2.
Defined.

(** John registers and logs in. *)
Lemma X19_register_then_login_witness :
  status (snd (login_handler Samples.toy Samples.env
                 (fst (register_route Samples.hash Samples.db Samples.john "salt" "j3" 1000))
                 (Samples.login "John@Example.com" "SecurePass123!") 2000 2100))
  = 200.
Proof.
  destruct (X19_register_then_login Samples.hash Samples.toy Samples.env Samples.db
              Samples.john (Samples.login "John@Example.com" "SecurePass123!")
              "salt" "j3" "John@Example.com" "SecurePass123!" "access-key" 1000 2000 2100
              eq_refl eq_refl eq_refl eq_refl eq_refl eq_refl ltac:(discriminate)
              eq_refl eq_refl)
    as [u [refreshToken [_ [_ [_ Hlogin]]]]].
  rewrite Hlogin. reflexivity.
Defined.

(** ** The relational reservation store *)

Section RelationalStore.

Import ReservationModel.

(** X20. Whenever the relational store hands back a row, what the
    model returns has the [_id] and the paths of the document schema as
    its keys, in that order, with the row's id printed in decimal as
    [_id]: the instance after [save()] (insert or update), the result
    of [findByIdAndUpdate] for a usable id, every element of a [find]
    and the result of [findByIdAndDelete], which is [null] exactly when
    no row came back. *)
Theorem X20_relational_results_have_the_schema_keys (row : Row) (rows : list Row) :
  keys (mapRow row) = "_id" :: reservationSchema
  /\ (forall n, id row = Some n -> get "_id" (mapRow row) = VStr (decimal n))
  /\ (forall this, exists saved,
        save_postgres this (row :: rows) = inl saved
        /\ _data saved = mapRow row /\ _id saved = get "_id" (mapRow row))
  /\ (forall i update mongo, truthy i = true ->
        findByIdAndUpdate true i update mongo (row :: rows) = inl (Some (mapRow row)))
  /\ Forall (fun o => keys o = "_id" :: reservationSchema) (exec_postgres (row :: rows))
  /\ findByIdAndDelete_postgres (row :: rows) = Some (mapRow row)
  /\ findByIdAndDelete_postgres [] = None.
Proof.
  split; [reflexivity|]. split.
  { intros n Hn. cbn. rewrite Hn. unfold or. cbn.
    destruct (String.eqb_spec (decimal n) ""); [|reflexivity].
    exfalso. unfold decimal in e. destruct (Z.to_int n) as [d|d]; cbn in e.
    - destruct d; discriminate.
    - discriminate. }
  split.
  { intros this. unfold save_postgres. destruct (truthy (_id this)); eexists; repeat split. }
  split.
  { intros i update mongo Hi. unfold findByIdAndUpdate, save_postgres. cbn.
    rewrite Hi. reflexivity. }
  split; [|split; reflexivity].
  unfold exec_postgres. apply Forall_fmap, Forall_forall. intros r _. reflexivity.
Qed.

Lemma set_key_loop (data : Obj) (l : list string) :
  forall (fields : list string) (params : list Value),
    fold_left (set_key data) l (fields, params)
    = ((fields
        ++ numbered (List.length params)
             (List.filter (fun key => negb (is_undefined (get key data))) l))%list,
       (params
        ++ ((fun key => get key data)
              <$> List.filter (fun key => negb (is_undefined (get key data))) l))%list).
Proof.
  induction l as [|key l IH]; intros fields params; cbn [fold_left List.filter].
  - cbn. rewrite !app_nil_r. reflexivity.
  - unfold set_key at 2. destruct (is_undefined (get key data)); cbn [negb].
    + apply IH.
    + rewrite IH, length_app. cbn [List.length numbered fmap list_fmap].
      rewrite Nat.add_1_r, <- !app_assoc. reflexivity.
Qed.

(** X21. The [UPDATE] that [save()] builds, in closed form. Its
    assignments are those of the allowed keys that are set in the data,
    in the order of the allowed list, each to its column and with the
    placeholders numbered 1, 2, ... in step with the parameters, which
    are the values of those keys; then comes [updated_at], always
    assigned the current time; the id is the last parameter and the
    placeholder of the [WHERE]. No other key of the data ([userId],
    [createdAt], an [updatedAt] of the caller) reaches the statement,
    and there are at most twelve parameters. *)
Theorem X21_update_statement_is_aligned (this : Reservation) (now : Z) :
  let ks := present (_data this) in
  let n := List.length ks in
  update_statement this now
  = ("UPDATE reservations SET "
       +:+ join ", " (numbered 0 ks ++ [assignment "updated_at" (S n)])
       +:+ " WHERE id = $" +:+ decimal (Z.of_nat (S (S n))) +:+ " RETURNING *",
     (((fun key => get key (_data this)) <$> ks) ++ [VDate now; _id this])%list)
  /\ (forall (i : nat) key,
        ks !! i = Some key ->
        numbered 0 ks !! i = Some (assignment (column key) (S i))
        /\ snd (update_statement this now) !! i = Some (get key (_data this))
        /\ In key allowed /\ get key (_data this) <> VUndefined)
  /\ snd (update_statement this now) !! n = Some (VDate now)
  /\ snd (update_statement this now) !! S n = Some (_id this)
  /\ (n <= 10)%nat.
Proof.
  intros ks n.
  assert (Heq : update_statement this now
                = ("UPDATE reservations SET "
                     +:+ join ", " (numbered 0 ks ++ [assignment "updated_at" (S n)])
                     +:+ " WHERE id = $" +:+ decimal (Z.of_nat (S (S n)))
                     +:+ " RETURNING *",
                   (((fun key => get key (_data this)) <$> ks)
                    ++ [VDate now; _id this])%list)).
  { unfold update_statement. rewrite set_key_loop. cbn [List.length app].
    fold (present (_data this)). fold ks.
    rewrite !length_app, length_fmap. cbn [List.length]. fold n.
    rewrite !Nat.add_1_r, <- app_assoc. reflexivity. }
  split; [exact Heq|]. rewrite Heq. cbn [snd].
  assert (Hnum : forall (l : list string) (start i : nat) key,
            l !! i = Some key ->
            numbered start l !! i = Some (assignment (column key) (S (start + i)))).
  { induction l as [|k l IH]; intros start [|i] key Hi; try discriminate.
    - injection Hi as ->. cbn. rewrite Nat.add_0_r. reflexivity.
    - replace (start + S i)%nat with (S start + i)%nat by lia.
      exact (IH (S start) i key Hi). }
  split; [|split; [|split]].
  - intros i key Hi. split; [exact (Hnum ks 0%nat i key Hi)|]. split.
    + rewrite lookup_app_l by (rewrite length_fmap; apply lookup_lt_Some in Hi; exact Hi).
      rewrite list_lookup_fmap, Hi. reflexivity.
    + assert (Hin : In key ks) by (apply list_elem_of_In, list_elem_of_lookup; eauto).
      apply filter_In in Hin as [Hall Hdef]. split; [exact Hall|].
      intros Hundef. rewrite Hundef in Hdef. discriminate.
  - rewrite lookup_app_r by (rewrite length_fmap; reflexivity).
    rewrite length_fmap. fold n. rewrite Nat.sub_diag. reflexivity.
  - rewrite lookup_app_r by (rewrite length_fmap; fold n; lia).
    rewrite length_fmap. fold n. replace (S n - n)%nat with 1%nat by lia. reflexivity.
  - subst n ks. unfold present.
    pose proof (filter_length_le (fun key => negb (is_undefined (get key (_data this))))
                  allowed) as Hle.
    exact Hle.
Qed.

End RelationalStore.

(** Row 42 is returned with [_id] "42". *)
Lemma X20_relational_results_have_the_schema_keys_witness :
  ReservationModel.get "_id" (ReservationModel.mapRow Samples.row)
  = ReservationModel.VStr "42".
Proof.
  apply (proj1 (proj2 (X20_relational_results_have_the_schema_keys Samples.row [])) 42).
  reflexivity.
Defined.

(** The status route's update: the caller's [updatedAt] is dropped. *)
Lemma X21_update_statement_is_aligned_witness :
  ReservationModel.update_statement Samples.status_update 5000
  = ("UPDATE reservations SET status = $1, updated_at = $2 WHERE id = $3 RETURNING *",
     [ ReservationModel.VStr "cancelled"; ReservationModel.VDate 5000;
       ReservationModel.VStr "42" ])
  /\ snd (ReservationModel.update_statement Samples.status_update 5000) !! 0%nat
     = Some (ReservationModel.VStr "cancelled").
Proof.
  split.
  - rewrite (proj1 (X21_update_statement_is_aligned Samples.status_update 5000)).
    reflexivity.
  - apply (proj1 (proj2 (X21_update_statement_is_aligned Samples.status_update 5000))
             0%nat "status" eq_refl).
Defined.

(** ** The backup file *)

Section BackupFile.

Import FileOps.

Variable J : JSON.

Lemma save_all_from (held : list Json) (d : Json) (rest : list Json) :
  (forall k, (0 < k < List.length (d :: rest))%nat ->
     parse J (stringify J (JArr (held ++ take k (d :: rest))%list))
     = Some (JArr (held ++ take k (d :: rest))%list)) ->
  fold_left (saveReservationToFile J) rest (Some (stringify J (JArr (held ++ [d])%list)))
  = Some (stringify J (JArr (held ++ d :: rest)%list)).
Proof.
  revert held d. induction rest as [|d' rest IH]; intros held d Hround; cbn [fold_left].
  - reflexivity.
  - unfold saveReservationToFile at 2. cbn [read_reservations].
    pose proof (Hround 1%nat ltac:(cbn [List.length]; lia)) as H1.
    cbn [take] in H1. rewrite H1.
    rewrite (IH (held ++ [d])%list d'), <- app_assoc; [reflexivity|].
    intros k Hk. rewrite <- app_assoc.
    apply (Hround (S k)). cbn [List.length] in *. lia.
Qed.

(** X22. The backup file is append-only as long as it parses. If each
    content the function writes is read back by [JSON.parse] as the
    array that was written, then saving a non-empty list of records one
    by one leaves the file holding what it held before (nothing if it
    was missing or did not parse, the value itself if it was not an
    array), followed by the records in the order they were saved. A
    file that does not parse is not repaired: its content is replaced
    by the new record alone. *)
Theorem X22_backup_file_appends (file : option string) (records : list Json) :
  (forall k, (0 < k < List.length records)%nat ->
     parse J (stringify J (JArr (read_reservations J file ++ take k records)%list))
     = Some (JArr (read_reservations J file ++ take k records)%list)) ->
  records <> [] ->
  save_all J file records
  = Some (stringify J (JArr (read_reservations J file ++ records)%list))
  /\ (forall content data,
        parse J content = None ->
        saveReservationToFile J (Some content) data = Some (stringify J (JArr [data])))
  /\ (forall content value data,
        parse J content = Some value -> (forall xs, value <> JArr xs) ->
        saveReservationToFile J (Some content) data
        = Some (stringify J (JArr [value; data]))).
Proof.
  intros Hround Hne. split; [|split].
  - unfold save_all. destruct records as [|d rest]; [contradiction|].
    cbn [fold_left]. unfold saveReservationToFile at 2.
    apply save_all_from, Hround.
  - intros content data Hbad. unfold saveReservationToFile, read_reservations.
    rewrite Hbad. reflexivity.
  - intros content value data Hval Hnot. unfold saveReservationToFile, read_reservations.
    rewrite Hval. destruct value; try reflexivity. destruct (Hnot xs eq_refl).
Qed.

End BackupFile.

(** Two records saved to a file that holds one. *)
Lemma X22_backup_file_appends_witness :
  FileOps.save_all Samples.json (Some "[one;]") [JStr "two"; JStr "three"]
  = Some "[one;two;three;]".
Proof.
  refine (proj1 (X22_backup_file_appends Samples.json (Some "[one;]")
                   [JStr "two"; JStr "three"] _ ltac:(discriminate))).
  intros k Hk. assert (k = 1%nat) as -> by (cbn [List.length] in Hk; lia).
  reflexivity.
Defined.

(** ** The migration script *)

Section MigrationScript.

Import ReservationModel Migration.

Variables (String_ : Value -> string) (Date_ : Value -> Z) (W : World).

Lemma insert_all_bounds (docs : list Obj) (i m : nat) :
  (m <= insert_all String_ Date_ W i docs m <= m + List.length docs)%nat.
Proof.
  revert i m. induction docs as [|d docs IH]; intros i m; cbn [insert_all List.length].
  - lia.
  - destruct (inserts W i _); [pose proof (IH (S i) (S m))|pose proof (IH (S i) m)]; lia.
Qed.

Lemma insert_all_some (docs : list Obj) (i m : nat) :
  (m < insert_all String_ Date_ W i docs m)%nat
  <-> exists k d, docs !! k = Some d /\ inserted String_ Date_ W (i + k) d = true.
Proof.
  revert i m. induction docs as [|d docs IH]; intros i m; cbn [insert_all].
  - split; [lia|]. intros (k & d & Hk & _). discriminate.
  - destruct (inserts W i (params String_ Date_ d (clock W i))) eqn:Hd.
    + split.
      * intros _. exists 0%nat, d. split; [reflexivity|].
        unfold inserted. rewrite Nat.add_0_r. exact Hd.
      * intros _. pose proof (insert_all_bounds docs (S i) (S m)). lia.
    + rewrite IH. split.
      * intros (k & d' & Hk & Hok). exists (S k), d'. split; [exact Hk|].
        replace (i + S k)%nat with (S i + k)%nat by lia. exact Hok.
      * intros ([|k] & d' & Hk & Hok).
        -- cbn in Hk. injection Hk as <-. unfold inserted in Hok.
           rewrite Nat.add_0_r in Hok. congruence.
        -- exists k, d'. split; [exact Hk|].
           replace (S i + k)%nat with (i + S k)%nat by lia. exact Hok.
Qed.

Lemma insert_all_every (docs : list Obj) (i m : nat) :
  insert_all String_ Date_ W i docs m = (m + List.length docs)%nat
  <-> forall k d, docs !! k = Some d -> inserted String_ Date_ W (i + k) d = true.
Proof.
  revert i m. induction docs as [|d docs IH]; intros i m; cbn [insert_all List.length].
  - split; [|lia]. intros _ k d Hk. discriminate.
  - destruct (inserts W i (params String_ Date_ d (clock W i))) eqn:Hd.
    + replace (m + S (List.length docs))%nat with (S m + List.length docs)%nat by lia.
      rewrite IH. split.
      * intros Hall [|k] d' Hk.
        -- cbn in Hk. injection Hk as <-. unfold inserted. rewrite Nat.add_0_r. exact Hd.
        -- replace (i + S k)%nat with (S i + k)%nat by lia. apply Hall, Hk.
      * intros Hall k d' Hk.
        replace (S i + k)%nat with (i + S k)%nat by lia. apply Hall, Hk.
    + split.
      * intros Heq. pose proof (insert_all_bounds docs (S i) m). lia.
      * intros Hall. specialize (Hall 0%nat d eq_refl). unfold inserted in Hall.
        rewrite Nat.add_0_r in Hall. congruence.
Qed.

(** X23. The script counts the documents whose insert went through and
    drops the collection as soon as one did (and the drop itself
    succeeds), not only when all did. So documents are left in neither
    store exactly when some insert failed, at least one succeeded and
    the drop went through; with no document, or with every insert
    failing, the collection is kept. *)
Theorem X23_migration_drops_after_one_insert (docs : list Obj) :
  let out := runMigration String_ Date_ W docs in
  (migrated out <= List.length docs)%nat
  /\ (migrated out = List.length docs
      <-> forall k d, docs !! k = Some d -> inserted String_ Date_ W k d = true)
  /\ (dropped out = true
      <-> drops W = true /\ exists k d, docs !! k = Some d /\ inserted String_ Date_ W k d = true)
  /\ ((dropped out = true /\ (migrated out < List.length docs)%nat)
      <-> drops W = true
          /\ (exists k d, docs !! k = Some d /\ inserted String_ Date_ W k d = true)
          /\ (exists k d, docs !! k = Some d /\ inserted String_ Date_ W k d = false)).
Proof.
  intros out.
  assert (Hm : migrated out = insert_all String_ Date_ W 0 docs 0).
  { subst out. unfold runMigration. destruct docs; reflexivity. }
  assert (Hd : dropped out = (0 <? insert_all String_ Date_ W 0 docs 0)%nat && drops W).
  { subst out. unfold runMigration. destruct docs as [|d docs]; [reflexivity|].
    cbn [List.length Nat.eqb dropped]. destruct (0 <? _)%nat; reflexivity. }
  pose proof (insert_all_bounds docs 0 0) as Hb.
  pose proof (insert_all_some docs 0 0) as Hs.
  pose proof (insert_all_every docs 0 0) as He.
  cbn [Nat.add] in Hb, Hs, He.
  assert (Hdrop : dropped out = true
            <-> drops W = true /\ exists k d, docs !! k = Some d /\ inserted String_ Date_ W k d = true).
  { rewrite Hd, andb_true_iff, Nat.ltb_lt, Hs. tauto. }
  assert (Hfail : (migrated out < List.length docs)%nat
            <-> exists k d, docs !! k = Some d /\ inserted String_ Date_ W k d = false).
  { rewrite Hm. split.
    - intros Hlt. destruct (decide (Forall (fun kd => inserted String_ Date_ W kd.1 kd.2 = true)
                                      (imap pair docs))) as [Hall|Hsome].
      + exfalso. assert (insert_all String_ Date_ W 0 docs 0 = List.length docs); [|lia].
        apply He. intros k d Hk. rewrite Forall_forall in Hall.
        apply (Hall (k, d)). apply list_elem_of_lookup. exists k.
        rewrite list_lookup_imap, Hk. reflexivity.
      + apply not_Forall_Exists in Hsome; [|intros x; apply _].
        apply Exists_exists in Hsome as ([k d] & Hin & Hno).
        apply list_elem_of_lookup in Hin as [j Hj].
        rewrite list_lookup_imap in Hj.
        destruct (docs !! j) as [d'|] eqn:Hdj; [|discriminate].
        cbn in Hj. injection Hj as <- <-. exists j, d'. split; [exact Hdj|].
        cbn in Hno. destruct (inserted String_ Date_ W j d'); [contradiction|reflexivity].
    - intros (k & d & Hk & Hno).
      destruct (decide (insert_all String_ Date_ W 0 docs 0 = List.length docs)) as [Hall|];
        [|lia].
      rewrite (proj1 He Hall k d Hk) in Hno. discriminate. }
  split; [rewrite Hm; apply Hb|]. split; [rewrite Hm; exact He|].
  split; [exact Hdrop|]. rewrite Hdrop, Hfail. tauto.
Qed.

End MigrationScript.

(** ** Deleting an account and changing its role *)

Section AccountAdministration.

Context (L : Libraries) (env : Env).
Implicit Types (db : Users) (u d : User) (req : Request).

Lemma findById_id db id u : findById id db = Some u -> In u db /\ UserModel._id u = id.
Proof.
  unfold findById. intros H. apply find_some in H as [Hin Heq].
  apply String.eqb_eq in Heq. auto.
Qed.

(** What [protect] answers to a token that verifies. *)
Lemma protect_verified db now req tok decoded :
  extract_token req = Some tok -> tok <> "" ->
  jwt_verify L tok (JWT_SECRET env) now = inl decoded ->
  protect L env db now req
  = match findById (claim_id decoded) db with
    | None => Send (error_response 404 "User not found" "USER_NOT_FOUND" [])
    | Some u =>
        if negb (isActive u) then
          Send (error_response 403 "Account is disabled" "ACCOUNT_DISABLED" [])
        else Next (attach req u tok)
    end.
Proof.
  intros Htok Hne Hver. unfold protect. rewrite Htok.
  rewrite (proj2 (truthy_Some tok) Hne). cbn [negb].
  unfold jwt_verify in Hver. destruct (JWT_SECRET env) as [k|] eqn:Hk; [|discriminate].
  destruct (Js.truthy (Some k)) eqn:Htruthy; [|discriminate].
  cbn [negb]. unfold jwt_verify. rewrite Htruthy, Hver. reflexivity.
Qed.

Lemma deleteById_gone db id :
  NoDup (UserModel._id <$> db) -> findById id (deleteById id db) = None.
Proof.
  unfold findById. induction db as [|d db IH]; cbn [deleteById]; [reflexivity|].
  intros Hnd. rewrite fmap_cons in Hnd. apply NoDup_cons in Hnd as [Hd Hnd].
  destruct (String.eqb (UserModel._id d) id) eqn:Hid.
  - apply String.eqb_eq in Hid. subst id.
    destruct (List.find _ db) as [x|] eqn:Hx; [|reflexivity].
    exfalso. apply find_some in Hx as [Hin Heq]. apply String.eqb_eq in Heq.
    apply Hd. rewrite <- Heq. apply list_elem_of_fmap. exists x.
    split; [reflexivity|]. apply list_elem_of_In, Hin.
  - cbn [List.find]. rewrite Hid. apply IH, Hnd.
Qed.

Lemma deleteById_others db id other :
  other <> id -> findById other (deleteById id db) = findById other db.
Proof.
  intros Hne. unfold findById. induction db as [|d db IH]; cbn [deleteById]; [reflexivity|].
  destruct (String.eqb (UserModel._id d) id) eqn:Hid.
  - apply String.eqb_eq in Hid. cbn [List.find].
    destruct (String.eqb_spec (UserModel._id d) other); [congruence|reflexivity].
  - cbn [List.find]. rewrite IH. reflexivity.
Qed.

Lemma updateOne_others db id other (f : User -> User) :
  (forall d, UserModel._id (f d) = UserModel._id d) ->
  other <> id -> findById other (updateOne id f db) = findById other db.
Proof.
  intros Hf Hne. unfold findById, updateOne.
  induction db as [|d db IH]; cbn [List.map List.find]; [reflexivity|].
  destruct (String.eqb_spec (UserModel._id d) id) as [Hid|Hid].
  - rewrite Hf. destruct (String.eqb_spec (UserModel._id d) other); [congruence|exact IH].
  - rewrite IH. reflexivity.
Qed.

(** X24. Deleting an account revokes its tokens at once. With distinct
    ids in the collection, after [DELETE /admin/users/:id] found and
    deleted the account, no document has that id, every other id finds
    the document it found before, and a token that still verifies for
    the deleted id is answered 404 [USER_NOT_FOUND] by [protect] and
    401 [INVALID_REFRESH_TOKEN] by the refresh route. *)
Theorem X24_deleted_account_loses_access db id u :
  NoDup (UserModel._id <$> db) ->
  findById id db = Some u ->
  let db' := fst (delete_user_handler db id) in
  findById id db' = None
  /\ (forall other, other <> id -> findById other db' = findById other db)
  /\ (forall req tok decoded now,
        extract_token req = Some tok -> tok <> "" ->
        jwt_verify L tok (JWT_SECRET env) now = inl decoded ->
        claim_id decoded = id ->
        protect L env db' now req
        = Send (error_response 404 "User not found" "USER_NOT_FOUND" []))
  /\ (forall req tok decoded now,
        Js.or (cookie_refreshToken req) (body_refreshToken req) = Some tok -> tok <> "" ->
        jwt_verify L tok (refreshSecret env) now = inl decoded ->
        claim_id decoded = id ->
        refresh_token_route L env db' req now
        = error_response 401 "Invalid refresh token" "INVALID_REFRESH_TOKEN" []).
Proof.
  intros Hnd Hfind db'.
  assert (Hdb : db' = deleteById id db).
  { subst db'. unfold delete_user_handler. rewrite Hfind. reflexivity. }
  rewrite Hdb. pose proof (deleteById_gone db id Hnd) as Hgone.
  split; [exact Hgone|]. split; [intros other; apply deleteById_others|]. split.
  - intros req tok decoded now Htok Hne Hver Hid.
    rewrite (protect_verified _ now req tok decoded Htok Hne Hver), Hid, Hgone.
    reflexivity.
  - intros req tok decoded now Htok Hne Hver Hid.
    unfold refresh_token_route. rewrite Htok, (proj2 (truthy_Some tok) Hne).
    cbn [negb]. rewrite Hver, Hid, Hgone. reflexivity.
Qed.

(** X25. A role change takes effect on the tokens already issued: the
    guards read the role from the collection, not from the token. After
    [PUT /admin/users/:id/role] set a role on an active account, a
    token that verifies for that id reaches the handler of a route
    guarded by [protect, authorize('admin'), checkPermission(required)]
    exactly when the new role is [admin], and is stopped with 403
    [FORBIDDEN] otherwise, whatever role the token was signed with. The
    other accounts are untouched, and a role outside [user], [admin],
    [manager] changes nothing. *)
Theorem X25_role_change_applies_to_issued_tokens {A : Type} db id body_role t u :
  findById id db = Some u -> isActive u = true ->
  let db' := fst (update_role_handler db id body_role t) in
  (forall other, other <> id -> findById other db' = findById other db)
  /\ (known_role body_role = None -> db' = db)
  /\ (forall r req tok decoded now required (handler : Request -> A),
        known_role body_role = Some r ->
        extract_token req = Some tok -> tok <> "" ->
        jwt_verify L tok (JWT_SECRET env) now = inl decoded ->
        claim_id decoded = id ->
        (forall perm, In perm required -> In perm (userPermissions admin)) ->
        (r = admin ->
           admin_chain L env db' now required handler req
           = Handled (handler (attach req (set_role r t u) tok)))
        /\ (r <> admin ->
              exists resp,
                admin_chain L env db' now required handler req = Stopped resp
                /\ status resp = 403 /\ code resp = Some (JStr "FORBIDDEN"))).
Proof.
  intros Hfind Hactive db'.
  destruct (findById_id db id u Hfind) as [_ Hid].
  split; [|split].
  - intros other Hne. subst db'. unfold update_role_handler.
    destruct (known_role body_role) as [r|]; [|reflexivity].
    rewrite Hfind. cbn [fst]. apply updateOne_others; [reflexivity|exact Hne].
  - intros Hnone. subst db'. unfold update_role_handler. rewrite Hnone. reflexivity.
  - intros r req tok decoded now required handler Hrole Htok Hne Hver Hclaim Hperms.
    assert (Hdb : db' = updateOne id (set_role r t) db).
    { subst db'. unfold update_role_handler. rewrite Hrole, Hfind. reflexivity. }
    assert (Hnew : findById id db' = Some (set_role r t u)).
    { rewrite Hdb, <- Hid. apply findById_updateOne; [reflexivity|].
      rewrite Hid. exact Hfind. }
    assert (Hprotect : protect L env db' now req = Next (attach req (set_role r t u) tok)).
    { rewrite (protect_verified db' now req tok decoded Htok Hne Hver), Hclaim, Hnew.
      cbn [isActive set_role]. rewrite Hactive. reflexivity. }
    unfold admin_chain. cbn [run_chain]. rewrite Hprotect.
    rewrite (authorize_admin (attach req (set_role r t u) tok) (set_role r t u) eq_refl).
    cbn [role set_role]. split.
    + intros ->. destruct (decide (admin = admin)); [|contradiction].
      unfold checkPermission. cbn [req_user attach role set_role].
      rewrite (proj2 (hasPermission_spec admin required) Hperms). reflexivity.
    + intros Hr. destruct (decide (r = admin)); [contradiction|].
      eexists. split; [reflexivity|]. split; reflexivity.
Qed.

End AccountAdministration.

(** Alice's account is deleted; her access token no longer passes. *)
Lemma X24_deleted_account_loses_access_witness :
  protect Samples.toy Samples.env (fst (delete_user_handler Samples.db "a1")) 0
    (Samples.bearer "access-key.a1" "a1")
  = Send (error_response 404 "User not found" "USER_NOT_FOUND" []).
Proof.
  refine (proj1 (proj2 (proj2
            (X24_deleted_account_loses_access Samples.toy Samples.env Samples.db "a1"
               Samples.alice _ eq_refl)))
            (Samples.bearer "access-key.a1" "a1") "access-key.a1"
            {| claim_id := "a1"; claim_email := None; claim_role := None |} 0
            eq_refl ltac:(discriminate) eq_refl eq_refl).
  repeat (apply NoDup_cons_2;
          [rewrite list_elem_of_In; cbn; intros H; intuition discriminate|]).
  apply NoDup_nil_2.
Defined.

(** Root is made a plain user; the token issued to Root as admin is
    stopped on [GET /admin/users]. *)
Lemma X25_role_change_applies_to_issued_tokens_witness :
  exists resp,
    admin_chain Samples.toy Samples.env
      (fst (update_role_handler Samples.db "r0" (Some "user") 5)) 9
      ["view_users"] (fun _ => tt) (Samples.bearer "access-key.r0" "r0") = Stopped resp
    /\ status resp = 403 /\ code resp = Some (JStr "FORBIDDEN").
Proof.
  refine (proj2 (proj2 (proj2
            (X25_role_change_applies_to_issued_tokens Samples.toy Samples.env
               Samples.db "r0" (Some "user") 5 Samples.root eq_refl eq_refl))
            user (Samples.bearer "access-key.r0" "r0") "access-key.r0"
            {| claim_id := "r0"; claim_email := None; claim_role := None |} 9
            ["view_users"] (fun _ => tt)
            eq_refl eq_refl ltac:(discriminate) eq_refl eq_refl _) ltac:(discriminate)).
  intros perm [<-|[]]; cbn; tauto.
Defined.

(** ** Booking a table, and migrating the bookings *)

Section Booking.

Import ReservationModel.

Variable String_ : Value -> string.

Lemma missing_fields_spec (body : Obj) :
  missing_fields body = false
  <-> forall key, In key required -> truthy (get key body) = true.
Proof.
  unfold missing_fields, required. rewrite !orb_false_iff, !negb_false_iff. split.
  - intros H key Hkey. cbn [In] in Hkey.
    repeat (destruct Hkey as [<-|Hkey]; [tauto|]). destruct Hkey.
  - intros H. repeat split; apply H; cbn [In]; tauto.
Qed.

(** X26. [POST /reservations] books for the caller and never rewrites a
    booking. The handler sends nothing to the relational store exactly
    when one of the seven required fields of the body is missing or
    empty. Otherwise, whatever else the body holds ([_id], [id],
    [userId], [status]), what it sends is the [INSERT], never the
    [UPDATE]; its first parameter is the id of the authenticated user
    and its last the status [confirmed]; and every parameter that goes
    to a [NOT NULL] column of the table is set. *)
Theorem X26_booking_inserts_for_the_caller (userId : Value) (body : Obj) (now : Z) :
  truthy userId = true ->
  (post_reservations_query String_ userId body now = None
   <-> exists key, In key required /\ truthy (get key body) = false)
  /\ (forall q ps,
        post_reservations_query String_ userId body now = Some (q, ps) ->
        q = insert_sql
        /\ List.length ps = List.length insert_columns
        /\ ps !! 0%nat = Some (VStr (String_ userId))
        /\ ps !! 10%nat = Some (VStr "confirmed")
        /\ (forall i col v,
              insert_columns !! i = Some col -> In col not_null_columns ->
              ps !! i = Some v -> truthy v = true)).
Proof.
  intros Huser. unfold post_reservations_query. split.
  - destruct (missing_fields body) eqn:Hm.
    + split; [intros _|reflexivity].
      destruct (decide (Exists (fun key => truthy (get key body) = false) required))
        as [Hex|Hno].
      * apply Exists_exists in Hex as (key & Hkey & Hfalse).
        exists key. split; [apply list_elem_of_In, Hkey|exact Hfalse].
      * exfalso. assert (missing_fields body = false); [|congruence].
        apply missing_fields_spec. intros key Hkey.
        destruct (truthy (get key body)) eqn:Ht; [reflexivity|].
        destruct Hno. apply Exists_exists. exists key.
        split; [apply list_elem_of_In, Hkey|exact Ht].
    + split; [discriminate|]. intros (key & Hkey & Hfalse).
      rewrite (proj1 (missing_fields_spec body) Hm key Hkey) in Hfalse. discriminate.
  - intros q ps. destruct (missing_fields body) eqn:Hm; [discriminate|].
    pose proof (proj1 (missing_fields_spec body) Hm) as Hset.
    unfold save_query, new_Reservation, reservation_data.
    cbn [get String.eqb Ascii.eqb Bool.eqb _id or truthy].
    intros [= <- <-]. split; [reflexivity|]. split; [reflexivity|].
    unfold insert_params. cbn [_data get String.eqb Ascii.eqb Bool.eqb].
    rewrite Huser. split; [reflexivity|]. split; [reflexivity|].
    intros i col v Hcol Hnn Hv.
    do 11 (destruct i as [|i];
           [cbn in Hcol, Hv; injection Hcol as <-; injection Hv as <-;
            first [apply Hset; cbn; tauto
                  |exfalso; cbn in Hnn; intuition discriminate]|]).
    discriminate.
Qed.

(** X27. The migration writes what [save()] would have written. For a
    document of the collection with its required fields set and no
    column-named keys, the first eleven parameters the script sends are
    those of the insert of [save()] for the same data, so that every
    [NOT NULL] column gets a value; the last two carry the creation and
    update times of the document where it has them, which [save()]
    would take from the clock of the database. *)
Theorem X27_migration_writes_what_save_writes (Date_ : Value -> Z) (d : Obj)
    (nows : Z * Z) :
  (forall key, In key required -> truthy (get key d) = true) ->
  get "special_requests" d = VUndefined ->
  get "club_location" d = VUndefined ->
  take 11 (Migration.params String_ Date_ d nows)
  = insert_params String_ (new_Reservation d)
  /\ (forall i col v,
        insert_columns !! i = Some col -> In col not_null_columns ->
        Migration.params String_ Date_ d nows !! i = Some v -> truthy v = true)
  /\ (truthy (get "createdAt" d) = true ->
      Migration.params String_ Date_ d nows !! 11%nat
      = Some (VDate (Date_ (get "createdAt" d))))
  /\ (truthy (get "updatedAt" d) = true ->
      Migration.params String_ Date_ d nows !! 12%nat
      = Some (VDate (Date_ (get "updatedAt" d)))).
Proof.
  intros Hset Hsr Hcl.
  assert (Hor : forall key, In key required -> or (get key d) VNull = get key d).
  { intros key Hkey. unfold or. rewrite (Hset key Hkey). reflexivity. }
  unfold Migration.params, insert_params, new_Reservation. cbn [_data take].
  rewrite Hsr, Hcl.
  rewrite !Hor by (cbn; tauto).
  assert (Hfall : forall v, or (or v VUndefined) VNull = or v VNull).
  { intros v. unfold or. destruct (truthy v) eqn:Hv; [rewrite Hv|]; reflexivity. }
  rewrite !Hfall. split; [reflexivity|]. split; [|split].
  - intros i col v Hcol Hnn Hv.
    do 11 (destruct i as [|i];
           [cbn in Hcol, Hv; injection Hcol as <-; injection Hv as <-;
            first [apply Hset; cbn; tauto
                  |exfalso; cbn in Hnn; intuition discriminate]|]).
    discriminate.
  - intros ->. reflexivity.
  - intros ->. reflexivity.
Qed.

End Booking.

(** Alice books; the body's [_id], [userId] and [status] are ignored. *)
Lemma X26_booking_inserts_for_the_caller_witness :
  ReservationModel.insert_params Samples.text_of
    (ReservationModel.new_Reservation
       (ReservationModel.reservation_data (ReservationModel.VStr "a1") Samples.booking))
    !! 0%nat
  = Some (ReservationModel.VStr "a1").
Proof.
  exact (proj1 (proj2 (proj2
           (proj2 (X26_booking_inserts_for_the_caller Samples.text_of
                     (ReservationModel.VStr "a1") Samples.booking 0 eq_refl)
              ReservationModel.insert_sql
              (ReservationModel.insert_params Samples.text_of
                 (ReservationModel.new_Reservation
                    (ReservationModel.reservation_data (ReservationModel.VStr "a1")
                       Samples.booking)))
              eq_refl)))).
Defined.

(** The first eleven parameters for the sample document. *)
Lemma X27_migration_writes_what_save_writes_witness :
  take 11 (Migration.params Samples.text_of Samples.date_of Samples.document (5000, 5000))
  = ReservationModel.insert_params Samples.text_of
      (ReservationModel.new_Reservation Samples.document).
Proof.
  refine (proj1 (X27_migration_writes_what_save_writes Samples.text_of Samples.date_of
                   Samples.document (5000, 5000) _ eq_refl eq_refl)).
  intros key Hkey. cbn [In ReservationModel.required] in Hkey.
  repeat (destruct Hkey as [<-|Hkey]; [reflexivity|]). destruct Hkey.
Defined.
